(** * Glucose data bot: dialogue state machine and slot filling

    A shallow embedding of [glucosedatabot.py] (class [GlucoseDataBot]),
    of the language-model wrapper of [utilities.py], of the message
    producing functions of [data_utils.py] and of the read loop of
    [main.py]; and, apart from the bot, of the folder functions of
    [data_utils.py] and of the [StateMachine] class of
    [state_machine.py].

    Python objects are modelled by a small universe of values, the
    context dictionary by a finite map from strings, and the methods of
    the bot by computations in a state-and-exception monad: an exception
    leaves the mutations made before it in place, as in Python.  The
    language model, the JSON decoder, the file system and the clock are
    external; they are gathered in a record [Env] over which every
    statement is quantified. *)

From Stdlib Require Import ZArith Ascii String List Lia Bool.
From Stdlib Require Import Sorting.Sorted Sorting.Permutation.
From stdpp Require Import base option list strings gmap fin_maps pretty.

Import ListNotations.
Local Open Scope string_scope.
Set Warnings "-register-all".
Local Open Scope list_scope.

(** ** Strings *)

Module Str.

Definition nl : string := String (ascii_of_nat 10) EmptyString.

(** [c.lower()] on the ASCII range; other bytes are left alone. *)
Definition lower_ascii (c : ascii) : ascii :=
  let n := nat_of_ascii c in
  if (65 <=? n)%nat && (n <=? 90)%nat then ascii_of_nat (n + 32) else c.

Fixpoint lower (s : string) : string :=
  match s with
  | EmptyString => EmptyString
  | String c r => String (lower_ascii c) (lower r)
  end.

Fixpoint startswith (p s : string) : bool :=
  match p, s with
  | EmptyString, _ => true
  | String a p', String b s' => Ascii.eqb a b && startswith p' s'
  | String _ _, EmptyString => false
  end.

(** [needle in hay] for two Python strings. *)
Fixpoint contains (needle hay : string) : bool :=
  startswith needle hay ||
  match hay with
  | EmptyString => false
  | String _ r => contains needle r
  end.

(** [sep.join(l)] *)
Fixpoint join (sep : string) (l : list string) : string :=
  match l with
  | [] => EmptyString
  | [x] => x
  | x :: r => x +:+ sep +:+ join sep r
  end.

End Str.

(** ** Python values *)

(** Exceptions that the modelled code can raise or let through. *)
Inductive exn : Type :=
| APIError            (* the chat completion request failed *)
| JSONDecodeError     (* json.loads on a reply that is not JSON *)
| AttributeError
| KeyError
| TypeError
| ValueError
| IndexError
| OSError
| EOFError.

Inductive outcome (A : Type) : Type :=
| Ok (a : A)
| Raise (e : exn).
Arguments Ok {A} a.
Arguments Raise {A} e.

(** The four glucose statistics, already rendered with two decimals:
    floating point is outside the model. *)
Record GlucoseStats : Type := mkStats {
  min_glucose : string;
  max_glucose : string;
  avg_glucose : string;
  std_glucose : string
}.

(** A pandas data frame, as far as the bot observes it.  The last
    field says what [pd.to_datetime(data["Timestamp"])] makes of the
    Timestamp column: how its first and last entry read once the column
    is converted, or [None] when the conversion raises. *)
Record DataFrame : Type := mkFrame {
  df_empty : bool;                              (* data.empty *)
  df_len : nat;                                 (* len(data) *)
  df_time_range : outcome (string * string);    (* Timestamp.iloc[0], .iloc[-1] *)
  df_glucose : outcome GlucoseStats;            (* data["Dexcom GL"] min/max/mean/std *)
  df_plot_error : option exn;                   (* what plotting the frame raises *)
  df_popup_error : option exn;                  (* what rendering it to HTML raises *)
  df_to_datetime : option (outcome (string * string))
}.

(** [data["Timestamp"] = pd.to_datetime(data["Timestamp"])] inside
    [try: .. except: pass]: the frame after the assignment.  The
    assignment is made on the frame itself, so whoever holds the frame
    sees the converted column; a frame whose column cannot be converted
    is left as it is, and a converted column converts to itself. *)
Definition timestamps_converted (df : DataFrame) : DataFrame :=
  match df_to_datetime df with
  | Some time_range =>
      mkFrame (df_empty df) (df_len df) time_range (df_glucose df)
              (df_plot_error df) (df_popup_error df) (Some time_range)
  | None => df
  end.

(** Values stored in the context or decoded from a JSON reply.  JSON
    numbers are integers here. *)
Inductive value : Type :=
| VNone
| VBool (b : bool)
| VInt (n : Z)
| VStr (s : string)
| VList (l : list value)
| VDict (d : list (string * value))
| VFrame (df : DataFrame).

Module Py.

(** [bool(v)]; a data frame has no truth value. *)
Definition truth (v : value) : outcome bool :=
  match v with
  | VNone => Ok false
  | VBool b => Ok b
  | VInt n => Ok (negb (n =? 0)%Z)
  | VStr s => Ok (negb (String.eqb s ""))
  | VList l => Ok (match l with [] => false | _ => true end)
  | VDict d => Ok (match d with [] => false | _ => true end)
  | VFrame _ => Raise ValueError
  end.

Fixpoint assoc (k : string) (d : list (string * value)) : option value :=
  match d with
  | [] => None
  | (k', v) :: r => if String.eqb k k' then Some v else assoc k r
  end.

(** [v.get(k)] on a decoded reply: of the JSON values, only objects
    have the method. *)
Definition get (v : value) (k : string) : outcome value :=
  match v with
  | VDict d => Ok (default VNone (assoc k d))
  | _ => Raise AttributeError
  end.

(** [v[k]] for a string key. *)
Definition getitem (v : value) (k : string) : outcome value :=
  match v with
  | VDict d => match assoc k d with Some x => Ok x | None => Raise KeyError end
  | VFrame _ => Raise KeyError
  | _ => Raise TypeError
  end.

(** [v == s] for a string literal [s]; never raises on the values a
    JSON reply can hold. *)
Definition eq_str (v : value) (s : string) : bool :=
  match v with
  | VStr t => String.eqb t s
  | _ => false
  end.

(** [s in v] for a string literal [s]. *)
Definition contains_str (s : string) (v : value) : outcome bool :=
  match v with
  | VList l => Ok (existsb (fun x => eq_str x s) l)
  | VStr t => Ok (Str.contains s t)
  | VDict d => Ok (bool_decide (is_Some (assoc s d)))
  | VFrame _ => Ok false
  | _ => Raise TypeError
  end.

(** [v in ids] for a list of strings [ids]. *)
Definition in_strs (v : value) (ids : list string) : outcome bool :=
  match v with
  | VFrame _ => match ids with [] => Ok false | _ => Raise ValueError end
  | _ => Ok (existsb (eq_str v) ids)
  end.

End Py.

(** ** The bot and its environment *)

Inductive BotState : Type :=
| INITIAL               (* no patient selected yet *)
| NEEDS_CLARIFICATION   (* missing information *)
| DATA_RETRIEVED        (* patient data retrieved *)
| ANALYZING_DATA.       (* analysing the current patient's data *)

(** An entry of the conversation history: [{"role": .., "content": ..}]. *)
Record Turn : Type := mkTurn { role : string; content : string }.

Record GlucoseDataBot : Type := mkBot {
  patient_ids : list string;
  state : BotState;
  context : gmap string value;
  conversation_history : list Turn;
  max_history_length : nat
}.

(** The system prompts of [prompts.py]; only their identity matters. *)
Inductive SysPrompt : Type :=
| EXTRACT_PATIENT_AND_FORMAT_PROMPT
| ANALYZE_USER_INTENTION_PROMPT
| GLUCOSE_DATA_ANALYSIS_PROMPT.

Inductive OutputMode : Type := text | json.

Record Request : Type := mkRequest {
  model_name : string;
  sys_prompt : SysPrompt;
  user_prompt : string;
  output : OutputMode
}.

Inductive Handler : Type := HInitial | HClarification | HDataRetrieved | HAnalysis.

(** What a run leaves behind outside the bot object: the handlers
    entered, the requests sent to the language model and the files
    written by the export. *)
Inductive Event : Type :=
| EvEnter (h : Handler)
| EvLLM (req : Request)
| EvExport (filename : string).

(** The collaborators.  [llm] answers the n-th request of the session
    (counted from 0), so that two identical requests may be answered
    differently; [strftime_now] is the clock read after n events. *)
Record Env : Type := mkEnv {
  llm : nat -> Request -> option string;         (* None: the request raises *)
  json_loads : string -> option value;           (* None: JSONDecodeError *)
  py_repr : value -> string;                     (* str() of containers and frames *)
  read_patient_csv : string -> outcome (option DataFrame);
  strftime_now : nat -> string;
  pdf_output : string -> list Turn -> option exn (* what FPDF.output raises *)
}.

Record Machine : Type := mkMachine {
  bot : GlucoseDataBot;
  trace : list Event
}.

(** Computations: a result or an exception, and the machine as it is
    at that point. *)
Definition M (A : Type) : Type := Machine -> outcome A * Machine.

Definition ret {A} (a : A) : M A := fun m => (Ok a, m).

Definition raise {A} (e : exn) : M A := fun m => (Raise e, m).

Definition bind {A B} (c : M A) (k : A -> M B) : M B :=
  fun m =>
    match c m with
    | (Ok a, m') => k a m'
    | (Raise e, m') => (Raise e, m')
    end.

Notation "x <- c ;; k" := (bind c (fun x => k))
  (at level 100, c at next level, right associativity).
Notation "c ;;; k" := (bind c (fun _ => k))
  (at level 100, right associativity).

Definition lift {A} (o : outcome A) : M A :=
  match o with
  | Ok a => ret a
  | Raise e => raise e
  end.

Definition when (b : bool) (c : M unit) : M unit := if b then c else ret tt.

Definition with_bot (f : GlucoseDataBot -> GlucoseDataBot) : M unit :=
  fun m => (Ok tt, mkMachine (f (bot m)) (trace m)).

Definition read_bot {A} (f : GlucoseDataBot -> A) : M A :=
  fun m => (Ok (f (bot m)), m).

Definition emit (e : Event) : M unit :=
  fun m => (Ok tt, mkMachine (bot m) (trace m ++ [e])).

Definition ticks : M nat := fun m => (Ok (length (trace m)), m).

Definition is_llm (e : Event) : bool :=
  match e with
  | EvLLM _ => true
  | _ => false
  end.

(** The requests sent so far. *)
Definition llm_calls (tr : list Event) : nat := length (filter is_llm tr).

Definition set_state (s : BotState) : M unit :=
  with_bot (fun b => mkBot (patient_ids b) s (context b)
                           (conversation_history b) (max_history_length b)).

Definition set_context (c : gmap string value) (b : GlucoseDataBot) : GlucoseDataBot :=
  mkBot (patient_ids b) (state b) c (conversation_history b) (max_history_length b).

Definition set_history (h : list Turn) (b : GlucoseDataBot) : GlucoseDataBot :=
  mkBot (patient_ids b) (state b) (context b) h (max_history_length b).

(** [self.context.get(k)] *)
Definition ctx_get (k : string) : M value :=
  read_bot (fun b => default VNone (context b !! k)).

(** [self.context[k] = v] *)
Definition ctx_set (k : string) (v : value) : M unit :=
  with_bot (fun b => set_context (<[k := v]> (context b)) b).

(** [if k in self.context: del self.context[k]] *)
Definition ctx_del (k : string) : M unit :=
  with_bot (fun b => set_context (delete k (context b)) b).

(** [self.context.clear()] *)
Definition ctx_clear : M unit :=
  with_bot (set_context ∅).

(** [GlucoseDataBot.__init__], given the catalog found on disk. *)
Definition init (ids : list string) : GlucoseDataBot :=
  mkBot ids INITIAL ∅ [] 6.

(** [l[-n:]]: for [n = 0] the slice is [l[0:]], the whole list. *)
Definition slice_last {A} (n : nat) (l : list A) : list A :=
  match n with
  | O => l
  | _ => drop (length l - n) l
  end.

Definition update_history_bot (r c : string) (b : GlucoseDataBot) : GlucoseDataBot :=
  let h := conversation_history b ++ [mkTurn r c] in
  if (max_history_length b <? length h)%nat
  then set_history (slice_last (max_history_length b) h) b
  else set_history h b.

Definition update_history (r c : string) : M unit :=
  with_bot (update_history_bot r c).

Definition get_conversation_context (b : GlucoseDataBot) : string :=
  match conversation_history b with
  | [] => ""
  | h =>
      fold_left
        (fun formatted msg =>
           let r := if String.eqb (role msg) "user" then "User" else "Bot" in
           formatted +:+ r +:+ ": " +:+ content msg +:+ Str.nl)
        h (Str.nl +:+ Str.nl +:+ "Recent conversation:" +:+ Str.nl)
  end.

(** ** Messages *)

(** [f"{v}"] *)
Definition py_str (repr : value -> string) (v : value) : string :=
  match v with
  | VNone => "None"
  | VBool true => "True"
  | VBool false => "False"
  | VInt n => pretty n
  | VStr s => s
  | _ => repr v
  end.

Definition MISSING_PATIENT_PROMPT : string :=
  "- Please specify which patient's data you'd like to see (e.g., patient 032)".

Definition MISSING_FORMAT_PROMPT : string :=
  "- Please specify if you want to see the raw data or a visual figure".

(** [REQUEST_CLARIFICATION_PROMPT.format(..)] *)
Definition REQUEST_CLARIFICATION_PROMPT (missing_patient_prompt missing_format_prompt : string) : string :=
  Str.nl +:+ "To help you better, I need a bit more information:" +:+ Str.nl +:+
  missing_patient_prompt +:+ Str.nl +:+
  missing_format_prompt +:+ Str.nl +:+ Str.nl +:+
  "Please provide the missing details so I can assist you properly." +:+ Str.nl.

(** [PATIENT_NOT_FOUND_PROMPT.format(..)] *)
Definition PATIENT_NOT_FOUND_PROMPT (patient_id available_ids : string) : string :=
  Str.nl +:+ "I'm sorry, but I couldn't find data for patient " +:+ patient_id +:+ ". " +:+ Str.nl +:+
  "Available patient IDs are: " +:+ available_ids +:+ "." +:+ Str.nl +:+
  "Please specify a valid patient ID." +:+ Str.nl.

Definition in_list (s : string) (l : list string) : bool :=
  existsb (String.eqb s) l.

Definition _create_clarification_message (missing_info : list string) : string :=
  let missing_patient_prompt :=
    if in_list "patient_id" missing_info then MISSING_PATIENT_PROMPT else "" in
  let missing_format_prompt :=
    if in_list "format" missing_info then MISSING_FORMAT_PROMPT else "" in
  REQUEST_CLARIFICATION_PROMPT missing_patient_prompt missing_format_prompt.

Definition another_id_hint : string :=
  Str.nl +:+ Str.nl +:+
  "Please provide another patient ID from the list above. For example: 'Show me data for patient 015'".

Definition overflow_note (total : nat) : string :=
  Str.nl +:+ Str.nl +:+
  "Note: I've shown only the first 10 patient IDs. There are " +:+ pretty total +:+
  " patients available in total.".

Definition _create_patient_not_found_message
    (ids : list string) (patient_id : string) : string :=
  let available_ids_sample := Str.join ", " (take 10 ids) in
  let response := PATIENT_NOT_FOUND_PROMPT patient_id available_ids_sample in
  let response := response +:+ another_id_hint in
  if (10 <? length ids)%nat then response +:+ overflow_note (length ids) else response.

Definition export_keywords : list string :=
  ["pdf"; "export"; "save conversation"; "export conversation"].

(** [any(keyword in message.lower() for keyword in [...])] *)
Definition is_export_request (message : string) : bool :=
  existsb (fun keyword => Str.contains keyword (Str.lower message)) export_keywords.

Definition follow_up_offer : string :=
  Str.nl +:+ Str.nl +:+
  "I can help you analyze this data further, or I can retrieve data for another patient. What would you like to do?".

Definition unclear_intention : string :=
  "I'm not sure what you'd like to do. Would you like to analyze this patient's data further, or retrieve data for a different patient?".

Definition no_data_to_analyze : string :=
  "I don't have any patient data to analyze. Please specify which patient's data you'd like to see.".

(** The statistics block of [_analyze_glucose_data]. *)
Definition stats_summary (time_range : string * string) (n : nat) (g : GlucoseStats) : string :=
  let ind := "        " in
  Str.nl +:+
  ind +:+ "Time Range: From " +:+ fst time_range +:+ " to " +:+ snd time_range +:+ Str.nl +:+
  ind +:+ "Number of readings: " +:+ pretty n +:+ Str.nl +:+
  ind +:+ "Minimum glucose: " +:+ min_glucose g +:+ Str.nl +:+
  ind +:+ "Maximum glucose: " +:+ max_glucose g +:+ Str.nl +:+
  ind +:+ "Average glucose: " +:+ avg_glucose g +:+ Str.nl +:+
  ind +:+ "Standard deviation: " +:+ std_glucose g +:+ Str.nl +:+
  ind.

(** The value a loaded data set has in the context: a frame, or [None]
    when the patient folder holds no CSV file. *)
Definition frame_value (d : option DataFrame) : value :=
  match d with
  | Some df => VFrame df
  | None => VNone
  end.

(** ** The methods of the bot *)

Section Methods.

Context (env : Env).

Definition str (v : value) : string := py_str (py_repr env) v.

(** What [openai_async_wrapper] of [utilities.py] returns for the
    n-th request: in text mode the content as it is, in json mode the
    content through [json.loads]. *)
Definition answer (n : nat) (req : Request) : outcome value :=
  match llm env n req with
  | None => Raise APIError
  | Some chat_completion =>
      match output req with
      | text => Ok (VStr chat_completion)
      | json =>
          match json_loads env chat_completion with
          | Some v => Ok v
          | None => Raise JSONDecodeError
          end
      end
  end.

Definition openai_async_wrapper (req : Request) : M value :=
  fun m =>
    (answer (llm_calls (trace m)) req, mkMachine (bot m) (trace m ++ [EvLLM req])).

(** [get_patient_data] of [data_utils.py]: the first CSV file of the
    patient's folder, [None] when there is none. *)
Definition get_patient_data (patient_id : value) : outcome (option DataFrame) :=
  read_patient_csv env ("CGMacros-" +:+ str patient_id).

(** [generate_glucose_plot]: the frame as the call leaves it, and the
    message or the exception.  The Timestamp column is converted in
    place before anything is drawn, so the conversion stays when the
    drawing raises; the picture itself is not modelled. *)
Definition generate_glucose_plot (data : option DataFrame) (patient_id : value)
    : option DataFrame * outcome string :=
  match data with
  | None => (None, Ok "No data available for this patient.")
  | Some df =>
      let df := timestamps_converted df in
      (Some df,
       match df_plot_error df with
       | Some e => Raise e
       | None =>
           let plot_path := "patient_" +:+ str patient_id +:+ "_glucose.png" in
           Ok ("Generated enhanced plot for patient " +:+ str patient_id +:+
               ". Opening the plot in your default image viewer and saved as " +:+ plot_path)
       end)
  end.

(** [display_raw_data_popup] *)
Definition display_raw_data_popup (data : option DataFrame) (patient_id : value)
    : outcome string :=
  match data with
  | None => Ok "No data available for this patient."
  | Some df =>
      match df_popup_error df with
      | Some e => Raise e
      | None => Ok ("Displaying raw data for patient " +:+ str patient_id +:+ " in your browser.")
      end
  end.

(** [generate_conversation_pdf] *)
Definition generate_conversation_pdf (history : list Turn) (patient_id : value) : M string :=
  match history with
  | [] => ret "No conversation history to export."
  | _ =>
      has_id <- lift (Py.truth patient_id) ;;
      n <- ticks ;;
      let filename :=
        "conversation_log" +:+
        (if has_id : bool then "_patient_" +:+ str patient_id else "") +:+
        "_" +:+ strftime_now env n +:+ ".pdf" in
      emit (EvExport filename) ;;;
      match pdf_output env filename history with
      | Some e => raise e
      | None =>
          ret ("Conversation exported to " +:+ filename +:+
               " and opened in your default PDF viewer.")
      end
  end.

Definition export_conversation_as_pdf (patient_id : value) : M string :=
  history <- read_bot conversation_history ;;
  generate_conversation_pdf history patient_id.

Definition extract_request (b : GlucoseDataBot) (message : string) : Request :=
  let context := get_conversation_context b in
  let full_prompt := context +:+ Str.nl +:+ "Current query: " +:+ message in
  mkRequest "gpt-4o" EXTRACT_PATIENT_AND_FORMAT_PROMPT full_prompt json.

Definition _extract_patient_and_format (message : string) : M value :=
  req <- read_bot (fun b => extract_request b message) ;;
  openai_async_wrapper req.

Definition intention_request (message : string) : Request :=
  let full_prompt := "User message: " +:+ message in
  mkRequest "gpt-4o" ANALYZE_USER_INTENTION_PROMPT full_prompt json.

Definition _analyze_intention (message : string) : M value :=
  openai_async_wrapper (intention_request message).

Definition analysis_request
    (b : GlucoseDataBot) (message : string) (patient_id : value)
    (time_range : string * string) (data_points : nat) (g : GlucoseStats) : Request :=
  let summary := stats_summary time_range data_points g in
  let conversation_context := get_conversation_context b in
  let full_prompt :=
    "Data for patient " +:+ str patient_id +:+ ":" +:+ Str.nl +:+ summary +:+ Str.nl +:+
    conversation_context +:+ Str.nl +:+ "Current query: " +:+ message in
  mkRequest "gpt-4o" GLUCOSE_DATA_ANALYSIS_PROMPT full_prompt text.

Definition _analyze_glucose_data
    (message : string) (patient_id : value) (patient_data : DataFrame) : M string :=
  g <- lift (df_glucose patient_data) ;;
  let data_points := df_len patient_data in
  time_range <- lift (df_time_range patient_data) ;;
  req <- read_bot (fun b => analysis_request b message patient_id time_range data_points g) ;;
  analysis <- openai_async_wrapper req ;;
  ret (str analysis).

(** [x or alt]: [alt] is only evaluated when [x] is falsy. *)
Definition py_or (x : value) (alt : M value) : M value :=
  t <- lift (Py.truth x) ;;
  if t : bool then ret x else alt.

(** The list built by the two [append]s of the handlers. *)
Definition missing_slots (need_patient need_format : bool) : list string :=
  (if need_patient then ["patient_id"] else []) ++
  (if need_format then ["format"] else []).

Definition _handle_initial_message (message : string) : M string :=
  emit (EvEnter HInitial) ;;;
  if is_export_request message then
    patient_id <- ctx_get "patient_id" ;;
    export_conversation_as_pdf patient_id
  else
    query_info <- _extract_patient_and_format message ;;
    q_id <- lift (Py.get query_info "patient_id") ;;
    patient_id <- py_or q_id (ctx_get "partial_patient_id") ;;
    q_format <- lift (Py.get query_info "format") ;;
    format_type <- py_or q_format (ctx_get "partial_format") ;;
    has_id <- lift (Py.truth patient_id) ;;
    when has_id (ctx_set "partial_patient_id" patient_id) ;;;
    has_format <- lift (Py.truth format_type) ;;
    when has_format (ctx_set "partial_format" format_type) ;;;
    let missing := missing_slots (negb has_id) (negb has_format) in
    match missing with
    | _ :: _ =>
        ctx_set "missing_info" (VList (map VStr missing)) ;;;
        set_state NEEDS_CLARIFICATION ;;;
        ret (_create_clarification_message missing)
    | [] =>
        known <- read_bot (fun b => Py.in_strs patient_id (patient_ids b)) ;;
        known <- lift known ;;
        if negb known then
          ids <- read_bot patient_ids ;;
          ret (_create_patient_not_found_message ids (str patient_id))
        else
          patient_data <- lift (get_patient_data patient_id) ;;
          ctx_del "partial_patient_id" ;;;
          ctx_del "partial_format" ;;;
          ctx_set "patient_id" patient_id ;;;
          ctx_set "format" format_type ;;;
          ctx_set "patient_data" (frame_value patient_data) ;;;
          set_state DATA_RETRIEVED ;;;
          result <- (if Py.eq_str format_type "figure" then
                       (* the frame that the plot converts is the object
                          stored in the context two lines above *)
                       let '(plotted, result) :=
                         generate_glucose_plot patient_data patient_id in
                       ctx_set "patient_data" (frame_value plotted) ;;;
                       lift result
                     else lift (display_raw_data_popup patient_data patient_id)) ;;
          ret (result +:+ follow_up_offer)
    end.

Definition _handle_clarification (message : string) : M string :=
  emit (EvEnter HClarification) ;;;
  if is_export_request message then
    patient_id <- ctx_get "patient_id" ;;
    export_conversation_as_pdf patient_id
  else
    query_info <- _extract_patient_and_format message ;;
    missing <- read_bot (fun b => default (VList []) (context b !! "missing_info")) ;;
    q_id <- lift (Py.get query_info "patient_id") ;;
    patient_id <- py_or q_id (ctx_get "partial_patient_id") ;;
    q_format <- lift (Py.get query_info "format") ;;
    format_type <- py_or q_format (ctx_get "partial_format") ;;
    has_id <- lift (Py.truth patient_id) ;;
    when has_id (ctx_set "partial_patient_id" patient_id) ;;;
    has_format <- lift (Py.truth format_type) ;;
    when has_format (ctx_set "partial_format" format_type) ;;;
    id_was_missing <- lift (Py.contains_str "patient_id" missing) ;;
    format_was_missing <- lift (Py.contains_str "format" missing) ;;
    let still_missing :=
      missing_slots (id_was_missing && negb has_id)
                    (format_was_missing && negb has_format) in
    match still_missing with
    | _ :: _ =>
        ctx_set "missing_info" (VList (map VStr still_missing)) ;;;
        ret (_create_clarification_message still_missing)
    | [] =>
        set_state INITIAL ;;;
        let complete_query :=
          "Get " +:+ str format_type +:+ " data for patient " +:+ str patient_id in
        _handle_initial_message complete_query
    end.

Definition _handle_analysis (message : string) : M string :=
  emit (EvEnter HAnalysis) ;;;
  if is_export_request message then
    patient_id <- ctx_get "patient_id" ;;
    export_conversation_as_pdf patient_id
  else
    patient_data <- ctx_get "patient_data" ;;
    patient_id <- ctx_get "patient_id" ;;
    let no_data := set_state INITIAL ;;; ret no_data_to_analyze in
    match patient_data with
    | VNone => no_data
    | VFrame df =>
        if df_empty df then no_data
        else
          has_id <- lift (Py.truth patient_id) ;;
          if negb has_id then no_data
          else
            analysis <- _analyze_glucose_data message patient_id df ;;
            set_state DATA_RETRIEVED ;;;
            ret analysis
    | _ => raise AttributeError
    end.

Definition _handle_data_retrieved (message : string) : M string :=
  emit (EvEnter HDataRetrieved) ;;;
  if is_export_request message then
    patient_id <- ctx_get "patient_id" ;;
    export_conversation_as_pdf patient_id
  else
    intention <- _analyze_intention message ;;
    i <- lift (Py.getitem intention "intention") ;;
    if Py.eq_str i "analyze_current" then
      set_state ANALYZING_DATA ;;;
      _handle_analysis message
    else if Py.eq_str i "retrieve_new" then
      set_state INITIAL ;;;
      ctx_clear ;;;
      query_info <- _extract_patient_and_format message ;;
      q_id <- lift (Py.get query_info "patient_id") ;;
      has_id <- lift (Py.truth q_id) ;;
      when has_id (ctx_set "partial_patient_id" q_id) ;;;
      q_format <- lift (Py.get query_info "format") ;;
      has_format <- lift (Py.truth q_format) ;;
      when has_format (ctx_set "partial_format" q_format) ;;;
      _handle_initial_message message
    else
      ret unclear_intention.

Definition process_message (user_message : string) : M string :=
  update_history "user" user_message ;;;
  st <- read_bot state ;;
  response <- match st with
              | INITIAL => _handle_initial_message user_message
              | NEEDS_CLARIFICATION => _handle_clarification user_message
              | DATA_RETRIEVED => _handle_data_retrieved user_message
              | ANALYZING_DATA => _handle_analysis user_message
              end ;;
  update_history "bot" response ;;;
  ret response.

(** How the process ends. *)
Inductive Exit : Type :=
| Goodbye                 (* the user typed exit or quit *)
| Uncaught (e : exn).     (* an exception reached the top level *)

(** The read loop of [main.py] over the lines that standard input
    still holds; [input()] raises [EOFError] when there is none.  The
    result lists the replies printed before the loop was left. *)
Fixpoint main_loop (lines : list string) (m : Machine)
    : Exit * list string * Machine :=
  match lines with
  | [] => (Uncaught EOFError, [], m)
  | user_input :: rest =>
      if in_list (Str.lower user_input) ["exit"; "quit"] then (Goodbye, [], m)
      else
        match process_message user_input m with
        | (Ok response, m') =>
            let '(e, printed, m'') := main_loop rest m' in
            (e, response :: printed, m'')
        | (Raise e, m') => (Uncaught e, [], m')
        end
  end.

Definition main (ids : list string) (lines : list string) : Exit * list string * Machine :=
  main_loop lines (mkMachine (init ids) []).

End Methods.

(** ** A scripted environment

    Used to run the bot on concrete sessions: the language model
    follows a script of replies, the decoder knows the replies below,
    and every catalogued patient has the same small data set. *)

Module Demo.

Definition dq : string := String (ascii_of_nat 34) EmptyString.

Definition quoted (s : string) : string := dq +:+ s +:+ dq.

(** The JSON text of an object with string values. *)
Definition dumps (d : list (string * string)) : string :=
  "{" +:+ Str.join ", " (map (fun kv => quoted (fst kv) +:+ ": " +:+ quoted (snd kv)) d) +:+ "}".

Definition fields (d : list (string * string)) : list (string * value) :=
  map (fun kv => (fst kv, VStr (snd kv))) d.

Definition obj (d : list (string * string)) : value := VDict (fields d).

(** The reply with the given slots, and the reply with the given
    intention, as the language model sends them. *)
Definition says (patient_id format : string) : option string :=
  Some (dumps [("patient_id", patient_id); ("format", format)]).

Definition intends (i : string) : option string :=
  Some (dumps [("explanation", "the user said so"); ("intention", i)]).

Definition slots (patient_id format : string) : list (string * string) :=
  [("patient_id", patient_id); ("format", format)].

Definition intent (i : string) : list (string * string) :=
  [("explanation", "the user said so"); ("intention", i)].

Definition known_replies : list (list (string * string)) :=
  [ []; slots "" ""; slots "" "raw"; slots "" "figure"; slots "002" ""; slots "999" "";
    slots "002" "raw"; slots "002" "figure"; slots "999" "raw"; slots "001" "raw";
    slots "raw" "export";
    intent "analyze_current"; intent "retrieve_new"; intent "" ].

Fixpoint decode (known : list (list (string * string))) (s : string) : option value :=
  match known with
  | [] => None
  | d :: r => if String.eqb s (dumps d) then Some (obj d) else decode r s
  end.

Definition frame : DataFrame :=
  mkFrame false 3 (Ok ("2020-05-01 10:30:00", "2020-05-01 10:40:00"))
          (Ok (mkStats "91.00" "130.00" "108.33" "19.86")) None None
          (Some (Ok ("2020-05-01 10:30:00", "2020-05-01 10:40:00"))).

(** The same readings in a file that writes its timestamps as
    month/day/year: converting the column changes how they read. *)
Definition local_frame : DataFrame :=
  mkFrame false 3 (Ok ("5/1/2020 10:30", "5/1/2020 10:40"))
          (Ok (mkStats "91.00" "130.00" "108.33" "19.86")) None None
          (Some (Ok ("2020-05-01 10:30:00", "2020-05-01 10:40:00"))).

Definition catalog : list string := ["001"; "002"; "003"].

Definition big_catalog : list string :=
  ["001"; "002"; "003"; "004"; "005"; "006"; "007"; "008"; "009"; "010"; "011"; "012"].

Definition read_csv (folder : string) : outcome (option DataFrame) :=
  if in_list folder (map (fun i => "CGMacros-" +:+ i) big_catalog)
  then Ok (Some frame) else Raise OSError.

(** The n-th request gets the n-th entry of the script; a request
    beyond the script fails. *)
Definition env (script : list (option string)) : Env :=
  mkEnv (fun n _ => default None (script !! n))
        (decode known_replies)
        (fun _ => "<object>")
        read_csv
        (fun _ => "20250101_120000")
        (fun _ _ => None).

(** The same, with every patient file written the month/day/year way. *)
Definition local_env (script : list (option string)) : Env :=
  mkEnv (fun n _ => default None (script !! n))
        (decode known_replies)
        (fun _ => "<object>")
        (fun _ => Ok (Some local_frame))
        (fun _ => "20250101_120000")
        (fun _ _ => None).

Definition start (ids : list string) : Machine := mkMachine (init ids) [].

(** A bot that has served the raw data of patient 001. *)
Definition served : Machine :=
  mkMachine
    (mkBot catalog DATA_RETRIEVED
           (<["patient_data" := VFrame frame]>
              (<["format" := VStr "raw"]> (<["patient_id" := VStr "001"]> ∅)))
           [] 6)
    [].

(** A bot that knows the format and waits for the patient id. *)
Definition waiting : Machine :=
  mkMachine
    (mkBot catalog NEEDS_CLARIFICATION
           (<["missing_info" := VList [VStr "patient_id"]]>
              (<["partial_format" := VStr "raw"]> ∅))
           [] 6)
    [].

(** A bot that was left in the middle of an analysis. *)
Definition analysing : Machine :=
  mkMachine
    (mkBot catalog ANALYZING_DATA
           (<["patient_data" := VFrame frame]>
              (<["format" := VStr "raw"]> (<["patient_id" := VStr "001"]> ∅)))
           [] 6)
    [].

(** Runs the utterances one after the other, until one raises, and
    collects the turns appended to the history. *)
Fixpoint run (e : Env) (utterances : list string) (full : list Turn) (m : Machine)
    : list Turn * Machine :=
  match utterances with
  | [] => (full, m)
  | u :: r =>
      match process_message e u m with
      | (Ok response, m') => run e r (full ++ [mkTurn "user" u; mkTurn "bot" response]) m'
      | (Raise _, m') => (full ++ [mkTurn "user" u], m')
      end
  end.

End Demo.


(** ** Notions used in the statements *)

(** The machine once the utterance has been recorded in the history:
    the point at which the handler of the current state takes over. *)
Definition heard (message : string) (m : Machine) : Machine :=
  mkMachine (update_history_bot "user" message (bot m)) (trace m).

(** What the slot extractor returns when asked about [message] by a
    bot in machine [m]. *)
Definition extraction (env : Env) (message : string) (m : Machine) : outcome value :=
  answer env (llm_calls (trace m)) (extract_request (bot m) message).

(** What the intention classifier returns for [message]. *)
Definition classification (env : Env) (message : string) (m : Machine) : outcome value :=
  answer env (llm_calls (trace m)) (intention_request message).

Definition handler_of (s : BotState) : Handler :=
  match s with
  | INITIAL => HInitial
  | NEEDS_CLARIFICATION => HClarification
  | DATA_RETRIEVED => HDataRetrieved
  | ANALYZING_DATA => HAnalysis
  end.

(** The short circuit shared by the four handlers. *)
Definition export_turn (env : Env) (h : Handler) : M string :=
  emit (EvEnter h) ;;;
  patient_id <- ctx_get "patient_id" ;;
  export_conversation_as_pdf env patient_id.

(** The two slots of a request. *)
Inductive Slot : Type := PatientId | Format.

Definition slot_key (f : Slot) : string :=
  match f with
  | PatientId => "patient_id"
  | Format => "format"
  end.

Definition partial_key (f : Slot) : string :=
  match f with
  | PatientId => "partial_patient_id"
  | Format => "partial_format"
  end.

(** A value counts as a resolved slot when Python finds it truthy. *)
Definition resolved (v : value) : Prop := Py.truth v = Ok true.

Definition empty_slot (v : value) : Prop := Py.truth v = Ok false.

(** What a reply object says about a slot: [q.get(key)]. *)
Definition reported (q : list (string * value)) (f : Slot) : value :=
  default VNone (Py.assoc (slot_key f) q).

(** What the context holds for a slot that is still being collected. *)
Definition stored (c : gmap string value) (f : Slot) : value :=
  default VNone (c !! partial_key f).

(** Newest non-empty wins: the value a turn works with, as computed by
    [q.get(key) or self.context.get(partial_key)]. *)
Definition merged (q : list (string * value)) (c : gmap string value) (f : Slot)
    : outcome value :=
  match Py.truth (reported q f) with
  | Ok true => Ok (reported q f)
  | Ok false => Ok (stored c f)
  | Raise e => Raise e
  end.

(** The events a run added to the trace. *)
Definition handlers_entered (tr : list Event) : list Handler :=
  omap (fun e => match e with EvEnter h => Some h | _ => None end) tr.

Definition requests_sent (tr : list Event) : list Request :=
  omap (fun e => match e with EvLLM r => Some r | _ => None end) tr.

Definition user_turn (message : string) : Turn := mkTurn "user" message.
Definition bot_turn (response : string) : Turn := mkTurn "bot" response.

(** The machines a session can be in, with the turns appended to the
    history so far.  A turn that raises has recorded the utterance but
    no reply. *)
Inductive session (env : Env) (ids : list string) : list Turn -> Machine -> Prop :=
| session_start :
    session env ids [] (mkMachine (init ids) [])
| session_reply full m message response m' :
    session env ids full m ->
    process_message env message m = (Ok response, m') ->
    session env ids (full ++ [user_turn message; bot_turn response]) m'
| session_raise full m message e m' :
    session env ids full m ->
    process_message env message m = (Raise e, m') ->
    session env ids (full ++ [user_turn message]) m'.

(** [c] only takes a machine to machines related to it by [R],
    whether it returns or raises. *)
Definition keeps (R : Machine -> Machine -> Prop) {A} (c : M A) : Prop :=
  forall m, R m (snd (c m)).

(** The history, its cap and the catalog are the same. *)
Definition same_memory (m m' : Machine) : Prop :=
  conversation_history (bot m') = conversation_history (bot m) /\
  max_history_length (bot m') = max_history_length (bot m) /\
  patient_ids (bot m') = patient_ids (bot m).

(** Nothing of the bot changes and no request is sent. *)
Definition quiet (m m' : Machine) : Prop :=
  bot m' = bot m /\ requests_sent (trace m') = requests_sent (trace m).

(** The history after an append, as a function of the cap and of the
    history before. *)
Definition push (cap : nat) (h : list Turn) (t : Turn) : list Turn :=
  if (cap <? length (h ++ [t]))%nat then slice_last cap (h ++ [t]) else h ++ [t].

(** The [cap] most recent entries of [full]. *)
Definition most_recent (cap : nat) (full : list Turn) : list Turn :=
  drop (length full - cap) full.


(** The handler that [process_message] picks in state [st]. *)
Definition handle (env : Env) (st : BotState) (message : string) : M string :=
  match st with
  | INITIAL => _handle_initial_message env message
  | NEEDS_CLARIFICATION => _handle_clarification env message
  | DATA_RETRIEVED => _handle_data_retrieved env message
  | ANALYZING_DATA => _handle_analysis env message
  end.

Definition at_state (s : BotState) (b : GlucoseDataBot) : GlucoseDataBot :=
  mkBot (patient_ids b) s (context b) (conversation_history b) (max_history_length b).

(** The context once the two merged values have been saved: a value
    is only written when it is truthy. *)
Definition remember (f : Slot) (v : value) (c : gmap string value) : gmap string value :=
  match Py.truth v with
  | Ok true => <[partial_key f := v]> c
  | _ => c
  end.

Definition after_merge (c : gmap string value) (patient_id format_type : value)
    : gmap string value :=
  remember Format format_type (remember PatientId patient_id c).

(** The context once a request has been served. *)
Definition committed (c : gmap string value) (patient_id format_type : value)
    (data : option DataFrame) : gmap string value :=
  <["patient_data" := frame_value data]>
    (<["format" := format_type]>
       (<["patient_id" := patient_id]>
          (delete "partial_format" (delete "partial_patient_id" c)))).

Definition render (env : Env) (format_type : value) (data : option DataFrame)
    (patient_id : value) : outcome string :=
  if Py.eq_str format_type "figure"
  then snd (generate_glucose_plot env data patient_id)
  else display_raw_data_popup env data patient_id.

(** The data set as the rendering leaves it: plotting converts the
    Timestamp column of the frame, displaying the raw data does not
    touch it. *)
Definition as_rendered (format_type : value) (data : option DataFrame) : option DataFrame :=
  if Py.eq_str format_type "figure" then option_map timestamps_converted data else data.

(** The utterance synthesised when a clarification completes. *)
Definition complete_query (env : Env) (format_type patient_id : value) : string :=
  "Get " +:+ str env format_type +:+ " data for patient " +:+ str env patient_id.

Definition missing_value (missing : list string) : value := VList (map VStr missing).

(** Every slot that was resolved in [c] is resolved in [c']. *)
Definition keeps_slots (c c' : gmap string value) : Prop :=
  forall f, resolved (stored c f) -> resolved (stored c' f).

(** A resolved slot stays resolved over a run from [m] to [m']: as a
    partial entry, or committed with the request. *)
Definition slot_progress (m m' : Machine) (f : Slot) : Prop :=
  resolved (stored (context (bot m)) f) ->
  resolved (stored (context (bot m')) f) \/
  (state (bot m') = DATA_RETRIEVED /\
   exists v, context (bot m') !! slot_key f = Some v /\ resolved v).

(** The bookkeeping of a clarification episode: the context lists the
    missing slots, and every slot it does not list is resolved. *)
Definition clarifying_ok (b : GlucoseDataBot) : Prop :=
  state b = NEEDS_CLARIFICATION ->
  exists old, context b !! "missing_info" = Some (missing_value old) /\
              forall f, ~ In (slot_key f) old -> resolved (stored (context b) f).

(** How the INITIAL handler can leave the machine: asking for the
    missing slots, with a request committed, or in the state it had. *)
Definition initial_post (m m' : Machine) : Prop :=
  (state (bot m') = NEEDS_CLARIFICATION /\ clarifying_ok (bot m') /\
   keeps_slots (context (bot m)) (context (bot m')) /\
   ~ (forall f, resolved (stored (context (bot m)) f)))
  \/ (state (bot m') = DATA_RETRIEVED /\
      forall f, exists v, context (bot m') !! slot_key f = Some v /\ resolved v)
  \/ (state (bot m') = state (bot m) /\
      context (bot m') !! "missing_info" = context (bot m) !! "missing_info" /\
      keeps_slots (context (bot m)) (context (bot m'))).

(** How the clarification handler can leave a machine whose context
    listed [old] as missing. *)
Definition clarification_post (old : list string) (m m' : Machine) : Prop :=
  (state (bot m') = state (bot m) /\
   exists new, context (bot m') !! "missing_info" = Some (missing_value new) /\
               (forall s, In s new -> In s old) /\
               (forall f, ~ In (slot_key f) new -> resolved (stored (context (bot m')) f)))
  \/ state (bot m') = DATA_RETRIEVED
  \/ state (bot m') = INITIAL.

(** The ways in which the n-th request, [req], yields no reply object:
    the call raises, its content is not JSON, or it is JSON but not an
    object.  [e] is the exception the bot runs into. *)
Definition no_reply_object (env : Env) (n : nat) (req : Request) (e : exn) : Prop :=
  (llm env n req = None /\ e = APIError) \/
  (exists c, llm env n req = Some c /\ json_loads env c = None /\ e = JSONDecodeError) \/
  (exists c v, llm env n req = Some c /\ json_loads env c = Some v /\
               (forall d, v <> VDict d) /\ e = AttributeError).

(** What newest-non-empty-wins leaves for a slot after a turn whose
    extraction returned [q]: the reported value when it is truthy, else
    what the context held. *)
Definition merge_result (q : list (string * value)) (c : gmap string value) (f : Slot)
    : option value :=
  match Py.truth (reported q f) with
  | Ok true => Some (reported q f)
  | _ => c !! partial_key f
  end.

(** Where a slot is found after a turn: under its own key once the
    request is committed, under the partial key before. *)
Definition slot_after (b : GlucoseDataBot) (f : Slot) : option value :=
  match state b with
  | DATA_RETRIEVED => context b !! slot_key f
  | _ => context b !! partial_key f
  end.

(** The classifier asked for the data of another patient: the one case
    in which the context is cleared. *)
Definition wipe_requested (env : Env) (message : string) (m : Machine) : Prop :=
  state (bot m) = DATA_RETRIEVED /\
  is_export_request message = false /\
  exists v i, classification env message m = Ok v /\
              Py.getitem v "intention" = Ok i /\
              Py.eq_str i "retrieve_new" = true.

(** The machine once the classifier has asked for another patient: the
    state is INITIAL and the context is empty. *)
Definition wiped (message : string) (m : Machine) : Machine :=
  mkMachine (at_state INITIAL (set_context ∅ (bot m)))
            (trace m ++ [EvEnter HDataRetrieved; EvLLM (intention_request message)]).

(** The machine once the slots extracted again from the utterance have
    been stored as partial entries: the point at which INITIAL handling
    takes over. *)
Definition reextracted (q : list (string * value)) (message : string) (m : Machine)
    : Machine :=
  mkMachine
    (set_context
       (after_merge (context (bot m)) (reported q PatientId) (reported q Format))
       (bot m))
    (trace m ++ [EvLLM (extract_request (bot m) message)]).

(** ** The patient folders ([data_utils.py]) *)

Module DataUtils.

(** [s.split(sep)] for a separator of one character. *)
Fixpoint split (sep : ascii) (s : string) : list string :=
  match s with
  | EmptyString => [EmptyString]
  | String c r =>
      if Ascii.eqb c sep then EmptyString :: split sep r
      else
        match split sep r with
        | h :: t => String c h :: t
        | [] => [String c EmptyString]
        end
  end.

Definition dash : ascii := ascii_of_nat 45.

(** [s.endswith(suffix)] *)
Definition endswith (suffix s : string) : bool :=
  (String.length suffix <=? String.length s)%nat &&
  String.eqb (String.substring (String.length s - String.length suffix)
                               (String.length suffix) s)
             suffix.

Fixpoint insert_sorted (x : string) (l : list string) : list string :=
  match l with
  | [] => [x]
  | y :: r => if String.leb x y then x :: y :: r else y :: insert_sorted x r
  end.

(** [sorted(l)] for a list of strings.  The order is that of the code
    points, which on UTF-8 bytes is the bytewise order; equal strings
    cannot be told apart, so the result does not depend on the sorting
    algorithm. *)
Definition sorted (l : list string) : list string :=
  fold_right insert_sorted [] l.

(** An entry of [os.listdir]: its name, and whether it is a directory. *)
Definition DirEntry : Type := (string * bool)%type.

(** [item.split("-")[1]] *)
Definition second_component (item : string) : outcome string :=
  match split dash item with
  | _ :: x :: _ => Ok x
  | _ => Raise IndexError
  end.

(** The loop of [get_available_patient_ids], before the sort. *)
Fixpoint collect_patient_ids (listing : list DirEntry) : outcome (list string) :=
  match listing with
  | [] => Ok []
  | (item, is_dir) :: rest =>
      if is_dir && Str.startswith "CGMacros-" item then
        match second_component item with
        | Raise e => Raise e
        | Ok patient_id =>
            match collect_patient_ids rest with
            | Ok ids => Ok (patient_id :: ids)
            | Raise e => Raise e
            end
        end
      else collect_patient_ids rest
  end.

(** [get_available_patient_ids], given what [os.listdir(data_path)]
    does: it returns the entries of the data folder, or raises when
    the folder is missing or cannot be read, and nothing catches
    that. *)
Definition get_available_patient_ids (listdir : outcome (list DirEntry))
    : outcome (list string) :=
  match listdir with
  | Raise e => Raise e
  | Ok listing =>
      match collect_patient_ids listing with
      | Ok patient_ids => Ok (sorted patient_ids)
      | Raise e => Raise e
      end
  end.

(** The folder in which [get_patient_data] looks for a patient. *)
Definition patient_folder (patient_id : string) : string := "CGMacros-" +:+ patient_id.

(** [get_patient_data], given the listing of the patient's folder and
    what [pd.read_csv] makes of each file: the first file whose name
    ends in ".csv" is read, and there is no data when there is none. *)
Fixpoint get_patient_data_in (files : list string) (read_csv : string -> outcome DataFrame)
    : outcome (option DataFrame) :=
  match files with
  | [] => Ok None
  | file :: rest =>
      if endswith ".csv" file then
        match read_csv file with
        | Ok df => Ok (Some df)
        | Raise e => Raise e
        end
      else get_patient_data_in rest read_csv
  end.

End DataUtils.

(** ** The state machine of [state_machine.py] *)

Module StateMachine.

Inductive BotState : Type :=
| INITIAL
| CLARIFICATION_NEEDED
| PATIENT_NOT_FOUND
| DATA_RETRIEVED
| ANALYZING_DATA
| RETRIEVING_NEW.

Definition state_eqb (a b : BotState) : bool :=
  match a, b with
  | INITIAL, INITIAL
  | CLARIFICATION_NEEDED, CLARIFICATION_NEEDED
  | PATIENT_NOT_FOUND, PATIENT_NOT_FOUND
  | DATA_RETRIEVED, DATA_RETRIEVED
  | ANALYZING_DATA, ANALYZING_DATA
  | RETRIEVING_NEW, RETRIEVING_NEW => true
  | _, _ => false
  end.

Record StateMachine : Type := mkStateMachine {
  current_state : BotState;
  context : gmap string value
}.

Definition __init__ (initial_state : BotState) : StateMachine :=
  mkStateMachine initial_state ∅.

(** [for key in keys: if key in self.context: del self.context[key]] *)
Definition remove_keys (keys : list string) (c : gmap string value) : gmap string value :=
  fold_left (fun c key => delete key c) keys c.

Definition patient_keys : list string :=
  ["patient_id"; "format"; "patient_data"; "partial_patient_id"; "partial_format"].


(** [x in states] *)
Definition state_in (s : BotState) (states : list BotState) : bool :=
  existsb (state_eqb s) states.

(** The names that a call cannot pass among the keyword arguments:
    those of the two positional parameters. *)
Definition parameter_names : list string := ["self"; "new_state"].

Definition clashes (kwargs : gmap string value) : bool :=
  existsb (fun name => bool_decide (is_Some (kwargs !! name))) parameter_names.

(** [sm.transition_to(new_state, **kwargs)]: the result of the call and
    the machine after it.  A keyword named like a positional parameter
    makes the call itself raise [TypeError], before the body runs; else
    the keyword arguments are a dictionary, and [self.context.update]
    lets them win over what is stored. *)
Definition transition_to (new_state : BotState) (kwargs : gmap string value)
    (sm : StateMachine) : outcome unit * StateMachine :=
  if clashes kwargs then (Raise TypeError, sm)
  else
    let previous_state := current_state sm in
    let c := kwargs ∪ context sm in
    let c :=
      if state_eqb new_state INITIAL
         && negb (state_in previous_state [CLARIFICATION_NEEDED; RETRIEVING_NEW])
      then remove_keys patient_keys c
      else c in
    (Ok tt, mkStateMachine new_state c).

Definition is_in_state (states : list BotState) (sm : StateMachine) : bool :=
  state_in (current_state sm) states.

(** [get_context(key, default)] *)
Definition get_context (key : string) (default : value) (sm : StateMachine) : value :=
  match context sm !! key with
  | Some v => v
  | None => default
  end.

Definition set_context (key : string) (v : value) (sm : StateMachine) : StateMachine :=
  mkStateMachine (current_state sm) (<[key := v]> (context sm)).


End StateMachine.

(** ** Notions for the merge *)

(** The merge of a slot settles when it yields a value that has a
    truth value, as every JSON value has. *)
Definition settles (q : list (string * value)) (c : gmap string value) (f : Slot) : Prop :=
  exists v b, merged q c f = Ok v /\ Py.truth v = Ok b.

(** A reported value overwrites an earlier one when it is truthy. *)
Definition overwrite (q : list (string * value)) (earlier : option value) (f : Slot)
    : option value :=
  match Py.truth (reported q f) with
  | Ok true => Some (reported q f)
  | _ => earlier
  end.

(** ** Notions for the served states *)

(** The context of a bot that has served a request: the patient is a
    catalogued identifier, the format is resolved, the data set is
    there, possibly as [None], and no partial entry is left. *)
Definition serving (b : GlucoseDataBot) : Prop :=
  (exists s, context b !! "patient_id" = Some (VStr s) /\ In s (patient_ids b) /\ s <> "") /\
  (exists v, context b !! "format" = Some v /\ resolved v) /\
  (exists d, context b !! "patient_data" = Some (frame_value d)) /\
  (forall f, context b !! partial_key f = None).

(** Data is at hand whenever the state says so. *)
Definition data_at_hand (b : GlucoseDataBot) : Prop :=
  state b = DATA_RETRIEVED \/ state b = ANALYZING_DATA -> serving b.

(** * Proofs *)

(** ** Substrings *)

Lemma startswith_spec (p s : string) :
  Str.startswith p s = true <-> exists post, s = p +:+ post.
Proof.
  revert s. induction p as [|a p IH]; intros s; simpl.
  - split; [intros _; exists s; reflexivity | reflexivity].
  - destruct s as [|b s]; simpl.
    + split; [discriminate | intros [post H]; discriminate].
    + rewrite andb_true_iff, Ascii.eqb_eq, IH. split.
      * intros [-> [post ->]]. exists post. reflexivity.
      * intros [post H]. injection H as -> ->. split; [reflexivity | eauto].
Qed.

Lemma contains_spec (needle hay : string) :
  Str.contains needle hay = true <-> exists pre post, hay = pre +:+ needle +:+ post.
Proof.
  induction hay as [|c hay IH].
  - simpl. rewrite orb_false_r, startswith_spec. split.
    + intros [post H]. exists "", post. exact H.
    + intros [pre [post H]]. destruct pre; [exists post; exact H | discriminate].
  - change (Str.contains needle (String c hay))
      with (Str.startswith needle (String c hay) || Str.contains needle hay).
    rewrite orb_true_iff, startswith_spec, IH. split.
    + intros [[post H] | [pre [post H]]].
      * exists "", post. exact H.
      * exists (String c pre), post. simpl. rewrite H. reflexivity.
    + intros [pre [post H]]. destruct pre as [|a pre].
      * left. exists post. exact H.
      * right. simpl in H. injection H as -> ->. eauto.
Qed.

Lemma is_export_request_spec (message : string) :
  is_export_request message = true <->
  exists keyword pre post,
    In keyword export_keywords /\ Str.lower message = pre +:+ keyword +:+ post.
Proof.
  unfold is_export_request. rewrite existsb_exists. split.
  - intros [k [Hk Hc]]. apply contains_spec in Hc as [pre [post H]]. eauto 6.
  - intros [k [pre [post [Hk H]]]]. exists k. split; [exact Hk |].
    apply contains_spec. eauto.
Qed.

(** ** What a computation leaves alone *)

Section Frames.

Context (R : Machine -> Machine -> Prop).
Context (R_refl : forall m, R m m).
Context (R_trans : forall a b c, R a b -> R b c -> R a c).

Lemma keeps_ret {A} (a : A) : keeps R (ret a).
Proof using R_refl. intros m. apply R_refl. Qed.

Lemma keeps_raise {A} (e : exn) : keeps R (@raise A e).
Proof using R_refl. intros m. apply R_refl. Qed.

Lemma keeps_lift {A} (o : outcome A) : keeps R (lift o).
Proof using R_refl. destruct o; [apply keeps_ret | apply keeps_raise]. Qed.

Lemma keeps_read_bot {A} (f : GlucoseDataBot -> A) : keeps R (read_bot f).
Proof using R_refl. intros m. apply R_refl. Qed.

Lemma keeps_ticks : keeps R ticks.
Proof using R_refl. intros m. apply R_refl. Qed.

Lemma keeps_bind {A B} (c : M A) (k : A -> M B) :
  keeps R c -> (forall a, keeps R (k a)) -> keeps R (bind c k).
Proof using R_trans.
  intros Hc Hk m. unfold bind. specialize (Hc m).
  destruct (c m) as [[a | e] m1]; simpl in *; [| exact Hc].
  eapply R_trans; [exact Hc | apply Hk].
Qed.

Lemma keeps_when (b : bool) (c : M unit) : keeps R c -> keeps R (when b c).
Proof using R_refl. destruct b; [trivial | intros _; apply keeps_ret]. Qed.

End Frames.

Ltac frame_step refl trans known prim :=
  first
    [ known
    | apply (keeps_ret _ refl)
    | apply (keeps_raise _ refl)
    | apply (keeps_lift _ refl)
    | apply (keeps_read_bot _ refl)
    | apply (keeps_ticks _ refl)
    | apply (keeps_when _ refl)
    | apply (keeps_bind _ trans); [| intros ?]
    | match goal with
      | |- keeps _ (match ?x with _ => _ end) => destruct x
      | |- keeps _ (let _ := _ in _) => cbv zeta
      end
    | prim ].

Ltac frame refl trans known prim := repeat frame_step refl trans known prim.

(** ** The handlers leave the history, its cap and the catalog alone *)

Lemma same_memory_refl m : same_memory m m.
Proof. repeat split. Qed.

Lemma same_memory_trans a b c : same_memory a b -> same_memory b c -> same_memory a c.
Proof. intros (?&?&?) (?&?&?). repeat split; congruence. Qed.

Ltac memory_prim :=
  solve [ intros m; repeat split ].

Ltac memory known := frame same_memory_refl same_memory_trans known memory_prim.

Lemma export_same_memory env pid : keeps same_memory (export_conversation_as_pdf env pid).
Proof. unfold export_conversation_as_pdf, generate_conversation_pdf. memory fail. Qed.

Lemma initial_same_memory env msg : keeps same_memory (_handle_initial_message env msg).
Proof.
  unfold _handle_initial_message, py_or, _extract_patient_and_format.
  memory ltac:(apply export_same_memory).
Qed.

Lemma clarification_same_memory env msg : keeps same_memory (_handle_clarification env msg).
Proof.
  unfold _handle_clarification, py_or, _extract_patient_and_format.
  memory ltac:(first [apply export_same_memory | apply initial_same_memory]).
Qed.

Lemma analysis_same_memory env msg : keeps same_memory (_handle_analysis env msg).
Proof.
  unfold _handle_analysis, _analyze_glucose_data.
  memory ltac:(apply export_same_memory).
Qed.

Lemma data_retrieved_same_memory env msg : keeps same_memory (_handle_data_retrieved env msg).
Proof.
  unfold _handle_data_retrieved, _analyze_intention, _extract_patient_and_format.
  memory ltac:(first [apply export_same_memory | apply initial_same_memory
                     | apply analysis_same_memory]).
Qed.

(** ** Conversation memory *)

Lemma update_history_bot_history r c b :
  conversation_history (update_history_bot r c b)
  = push (max_history_length b) (conversation_history b) (mkTurn r c).
Proof. unfold update_history_bot, push. destruct (_ <? _)%nat; reflexivity. Qed.

Lemma update_history_bot_others r c b :
  max_history_length (update_history_bot r c b) = max_history_length b /\
  patient_ids (update_history_bot r c b) = patient_ids b /\
  state (update_history_bot r c b) = state b /\
  context (update_history_bot r c b) = context b.
Proof. unfold update_history_bot. destruct (_ <? _)%nat; repeat split. Qed.

Lemma push_most_recent cap full t :
  (0 < cap)%nat ->
  push cap (most_recent cap full) t = most_recent cap (full ++ [t]).
Proof.
  intros Hcap. unfold push, most_recent.
  rewrite !length_app, length_drop. simpl.
  destruct (Nat.ltb_spec cap (length full - (length full - cap) + 1)) as [Hlt | Hge].
  - destruct cap as [|cap]; [lia |]. unfold slice_last.
    rewrite length_app, length_drop. simpl.
    rewrite drop_app_le by (rewrite length_drop; lia).
    rewrite drop_drop, drop_app_le by lia.
    f_equal. f_equal. lia.
  - replace (length full - cap)%nat with 0%nat by lia.
    replace (length full + 1 - cap)%nat with 0%nat by lia.
    reflexivity.
Qed.

Lemma process_message_memory env msg m r m' :
  process_message env msg m = (r, m') ->
  max_history_length (bot m') = max_history_length (bot m) /\
  patient_ids (bot m') = patient_ids (bot m) /\
  conversation_history (bot m')
  = match r with
    | Ok response =>
        push (max_history_length (bot m))
             (push (max_history_length (bot m)) (conversation_history (bot m))
                   (user_turn msg))
             (bot_turn response)
    | Raise _ =>
        push (max_history_length (bot m)) (conversation_history (bot m)) (user_turn msg)
    end.
Proof.
  unfold process_message, update_history, with_bot, read_bot, bind, ret. simpl.
  set (m1 := mkMachine (update_history_bot "user" msg (bot m)) (trace m)).
  set (h := match state (update_history_bot "user" msg (bot m)) with
            | INITIAL => _ | NEEDS_CLARIFICATION => _
            | DATA_RETRIEVED => _ | ANALYZING_DATA => _ end).
  assert (Hk : keeps same_memory h).
  { subst h. destruct (state _);
      auto using initial_same_memory, clarification_same_memory,
                 data_retrieved_same_memory, analysis_same_memory. }
  specialize (Hk m1). destruct (h m1) as [[response | e] m2]; simpl in Hk;
    destruct Hk as (Hh & Hc & Hi); intros [= <- <-]; simpl;
    pose proof (update_history_bot_others "user" msg (bot m)) as (Hc1 & Hi1 & _).
  - pose proof (update_history_bot_others "bot" response (bot m2)) as (Hc2 & Hi2 & _).
    rewrite update_history_bot_history, Hc2, Hi2, Hh, Hc, Hi.
    subst m1. simpl. rewrite update_history_bot_history, Hc1, Hi1. repeat split.
  - rewrite Hh, Hc, Hi. subst m1. simpl.
    rewrite update_history_bot_history, Hc1, Hi1. repeat split.
Qed.

(** C3.  In every session, whatever the utterances and whatever the
    collaborators answer, the conversation history holds at most 6
    entries, and it is exactly the most recent entries of the full
    sequence of turns appended so far: the oldest are evicted first.
    The same holds after each further append. *)
Theorem history_is_bounded_suffix env ids full m :
  session env ids full m ->
  conversation_history (bot m) = drop (length full - 6) full /\
  (length (conversation_history (bot m)) <= 6)%nat /\
  (exists evicted, full = evicted ++ conversation_history (bot m)) /\
  (forall r c,
      let full' := full ++ [mkTurn r c] in
      conversation_history (update_history_bot r c (bot m))
      = drop (length full' - 6) full').
Proof.
  intros Hs.
  assert (H : max_history_length (bot m) = 6%nat /\
              conversation_history (bot m) = most_recent 6 full).
  { induction Hs as [| full m msg response m' _ [Hcap IH] Hrun
                     | full m msg e m' _ [Hcap IH] Hrun].
    - split; reflexivity.
    - apply process_message_memory in Hrun as (Hc & _ & Hh).
      split; [congruence |]. rewrite Hh, Hcap, IH.
      rewrite !push_most_recent by lia. rewrite <- app_assoc. reflexivity.
    - apply process_message_memory in Hrun as (Hc & _ & Hh).
      split; [congruence |]. rewrite Hh, Hcap, IH.
      rewrite push_most_recent by lia. reflexivity. }
  destruct H as [Hcap H]. split; [exact H |].
  split; [rewrite H; unfold most_recent; rewrite length_drop; lia |].
  split.
  - exists (take (length full - 6) full). rewrite H. symmetry. apply take_drop.
  - intros r c full'. rewrite update_history_bot_history, Hcap, H.
    apply push_most_recent. lia.
Qed.

(** ** The export short circuit *)

Lemma quiet_refl m : quiet m m.
Proof. split; reflexivity. Qed.

Lemma quiet_trans a b c : quiet a b -> quiet b c -> quiet a c.
Proof. intros [? ?] [? ?]. split; congruence. Qed.

Lemma requests_sent_app tr tr' :
  requests_sent (tr ++ tr') = requests_sent tr ++ requests_sent tr'.
Proof. apply omap_app. Qed.

Lemma handlers_entered_app tr tr' :
  handlers_entered (tr ++ tr') = handlers_entered tr ++ handlers_entered tr'.
Proof. apply omap_app. Qed.

Lemma export_turn_quiet env h : keeps quiet (export_turn env h).
Proof.
  unfold export_turn, export_conversation_as_pdf, generate_conversation_pdf.
  frame quiet_refl quiet_trans fail
    ltac:(solve [intros m; split; simpl; [reflexivity |];
                 rewrite requests_sent_app; simpl; apply app_nil_r]).
Qed.

Lemma handlers_export env message (st : BotState) :
  is_export_request message = true ->
  match st with
  | INITIAL => _handle_initial_message env message
  | NEEDS_CLARIFICATION => _handle_clarification env message
  | DATA_RETRIEVED => _handle_data_retrieved env message
  | ANALYZING_DATA => _handle_analysis env message
  end = export_turn env (handler_of st).
Proof.
  intros H.
  destruct st; unfold _handle_initial_message, _handle_clarification,
    _handle_data_retrieved, _handle_analysis, export_turn; rewrite H; reflexivity.
Qed.

(** C2.  In each of the four states, an utterance that contains an
    export keyword as a case-insensitive substring is answered by the
    export of the conversation alone: the turn is the recording of the
    utterance, the export with the current patient id, and the
    recording of its reply.  State and context are afterwards what they
    were, and no request went to the language model. *)
Theorem export_short_circuits_every_state env message m keyword pre post :
  In keyword export_keywords ->
  Str.lower message = pre +:+ keyword +:+ post ->
  process_message env message m
  = (update_history "user" message ;;;
     response <- export_turn env (handler_of (state (bot m))) ;;
     update_history "bot" response ;;;
     ret response) m
  /\ state (bot (snd (process_message env message m))) = state (bot m)
  /\ context (bot (snd (process_message env message m))) = context (bot m)
  /\ requests_sent (trace (snd (process_message env message m))) = requests_sent (trace m).
Proof.
  intros Hk Hsub.
  assert (Hexp : is_export_request message = true).
  { apply is_export_request_spec. eauto 6. }
  assert (Heq : process_message env message m
                = (update_history "user" message ;;;
                   response <- export_turn env (handler_of (state (bot m))) ;;
                   update_history "bot" response ;;;
                   ret response) m).
  { unfold process_message, bind at 1 3, update_history at 1 3, with_bot, read_bot.
    simpl. unfold bind at 1 4. simpl.
    rewrite (handlers_export env message _ Hexp).
    destruct (update_history_bot_others "user" message (bot m)) as (_ & _ & -> & _).
    reflexivity. }
  split; [exact Heq |]. rewrite Heq. clear Heq.
  unfold update_history, with_bot, bind, ret. simpl.
  pose proof (export_turn_quiet env (handler_of (state (bot m)))
                (mkMachine (update_history_bot "user" message (bot m)) (trace m))) as [Hb Ht].
  destruct (export_turn env _ _) as [[response | e] m2]; simpl in *.
  - destruct (update_history_bot_others "bot" response (bot m2)) as (_ & _ & -> & ->).
    rewrite Hb, Ht.
    destruct (update_history_bot_others "user" message (bot m)) as (_ & _ & -> & ->).
    repeat split.
  - rewrite Hb, Ht.
    destruct (update_history_bot_others "user" message (bot m)) as (_ & _ & -> & ->).
    repeat split.
Qed.

Lemma export_short_circuits_every_state_witness :
  let e := Demo.env [] in
  let m := mkMachine (mkBot Demo.catalog DATA_RETRIEVED
                            {[ "patient_id" := VStr "002" ]} [] 6) [] in
  In "export" export_keywords /\
  Str.lower "Please EXPORT this chat" = "please " +:+ "export" +:+ " this chat" /\
  state (bot (snd (process_message e "Please EXPORT this chat" m))) = DATA_RETRIEVED.
Proof.
  intros e m.
  assert (Hk : In "export" export_keywords) by (simpl; tauto).
  assert (Hs : Str.lower "Please EXPORT this chat" = "please " +:+ "export" +:+ " this chat")
    by reflexivity.
  destruct (export_short_circuits_every_state e "Please EXPORT this chat" m
              "export" "please " " this chat" Hk Hs) as (_ & Hstate & _).
  exact (conj Hk (conj Hs Hstate)).
Defined.

Lemma run_session e ids utterances full m :
  session e ids full m ->
  session e ids (fst (Demo.run e utterances full m)) (snd (Demo.run e utterances full m)).
Proof.
  revert full m. induction utterances as [|u r IH]; intros full m Hs; simpl.
  - exact Hs.
  - destruct (process_message e u m) as [[response | x] m'] eqn:Hrun.
    + apply IH. eapply session_reply; eauto.
    + simpl. eapply session_raise; eauto.
Defined.

Lemma history_is_bounded_suffix_witness :
  let e := Demo.env [Some "{}"; Some "{}"; Some "{}"; None] in
  let r := Demo.run e ["hello"; "hm"; "well"; "so"; "never asked"] []
                    (Demo.start Demo.catalog) in
  session e Demo.catalog (fst r) (snd r) /\
  length (fst r) = 7%nat /\
  (length (conversation_history (bot (snd r))) <= 6)%nat.
Proof.
  intros e r.
  assert (Hs : session e Demo.catalog (fst r) (snd r)).
  { apply run_session. apply session_start. }
  destruct (history_is_bounded_suffix e Demo.catalog (fst r) (snd r) Hs) as (_ & Hlen & _).
  split; [exact Hs |]. split; [vm_compute; reflexivity | exact Hlen].
Defined.

(** ** Running the handlers *)

Lemma llm_calls_enter tr h : llm_calls (tr ++ [EvEnter h]) = llm_calls tr.
Proof. unfold llm_calls. rewrite filter_app, length_app. simpl. lia. Qed.

Lemma llm_calls_request tr r : llm_calls (tr ++ [EvLLM r]) = S (llm_calls tr).
Proof. unfold llm_calls. rewrite filter_app, length_app. simpl. lia. Qed.

Ltac open_machine m :=
  let ids := fresh "ids" in let st := fresh "st" in let ctx := fresh "ctx" in
  let hist := fresh "hist" in let cap := fresh "cap" in let tr := fresh "tr" in
  destruct m as [[ids st ctx hist cap] tr];
  cbn [bot trace patient_ids state context conversation_history max_history_length] in *.

Ltac run :=
  cbv beta iota zeta delta
    [bind ret raise lift when with_bot read_bot emit ticks set_state set_context at_state
     ctx_get ctx_set ctx_del ctx_clear openai_async_wrapper
     py_or _extract_patient_and_format _analyze_intention
     export_conversation_as_pdf generate_conversation_pdf _analyze_glucose_data
     bot trace patient_ids state context conversation_history max_history_length
     fst snd];
  cbn [missing_slots negb andb app map].

Ltac tidy :=
  repeat match goal with
    | H : Ok _ = Ok _ |- _ => injection H as H; try subst
    | H : Raise _ = Ok _ |- _ => discriminate H
    | H : Ok _ = Raise _ |- _ => discriminate H
    | H : true = false |- _ => discriminate H
    | H : false = true |- _ => discriminate H
    end.

(** Equality of two contexts built from the same one by insertions
    and deletions. *)
Ltac same_map :=
  apply map_eq; intros ?;
  repeat (rewrite lookup_insert || rewrite lookup_delete);
  repeat case_decide; subst; try congruence; try reflexivity.

Ltac case_truth :=
  match goal with
  | H : Py.truth ?v = _ |- context [Py.truth ?v] => rewrite H
  | H : context [Py.truth ?v] |- context [Py.truth ?v] =>
      destruct (Py.truth v) as [[|]|] eqn:?; tidy
  | |- context [Py.truth ?v] =>
      destruct (Py.truth v) as [[|]|] eqn:?; tidy
  end; run.

Lemma process_message_unfold env msg m :
  process_message env msg m
  = match handle env (state (bot m)) msg (heard msg m) with
    | (Ok response, m') =>
        (Ok response, mkMachine (update_history_bot "bot" response (bot m')) (trace m'))
    | (Raise e, m') => (Raise e, m')
    end.
Proof.
  unfold process_message, handle, update_history, heard, bind, ret, with_bot, read_bot.
  cbn [bot trace].
  destruct (update_history_bot_others "user" msg (bot m)) as (_ & _ & -> & _).
  destruct (state (bot m));
    match goal with |- context [let (_, _) := ?c in _] => destruct c as [[? | ?] ?] end;
    reflexivity.
Qed.

(** The INITIAL handler when a slot is missing after the merge. *)
Lemma initial_asks env msg m q pid fmt has_id has_fmt :
  is_export_request msg = false ->
  extraction env msg m = Ok (VDict q) ->
  merged q (context (bot m)) PatientId = Ok pid -> Py.truth pid = Ok has_id ->
  merged q (context (bot m)) Format = Ok fmt -> Py.truth fmt = Ok has_fmt ->
  has_id && has_fmt = false ->
  _handle_initial_message env msg m
  = (Ok (_create_clarification_message (missing_slots (negb has_id) (negb has_fmt))),
     mkMachine
       (at_state NEEDS_CLARIFICATION
          (set_context
             (<["missing_info" := missing_value (missing_slots (negb has_id) (negb has_fmt))]>
                (after_merge (context (bot m)) pid fmt))
             (bot m)))
       (trace m ++ [EvEnter HInitial; EvLLM (extract_request (bot m) msg)])).
Proof.
  intros Hexp Hext Hpid Tpid Hfmt Tfmt Hmiss.
  unfold _handle_initial_message. rewrite Hexp.
  unfold extraction, merged, after_merge, remember, reported, stored, missing_value in *.
  open_machine m. run.
  rewrite llm_calls_enter, Hext. run.
  cbn [Py.get slot_key partial_key] in *.
  repeat case_truth.
  all: destruct has_id, has_fmt; try discriminate; tidy; run;
    rewrite <- ?app_assoc; reflexivity.
Qed.

(** The INITIAL handler when both slots are resolved and the patient
    is not in the catalog. *)
Lemma initial_not_found env msg m q pid fmt :
  is_export_request msg = false ->
  extraction env msg m = Ok (VDict q) ->
  merged q (context (bot m)) PatientId = Ok pid -> resolved pid ->
  merged q (context (bot m)) Format = Ok fmt -> resolved fmt ->
  Py.in_strs pid (patient_ids (bot m)) = Ok false ->
  _handle_initial_message env msg m
  = (Ok (_create_patient_not_found_message (patient_ids (bot m)) (str env pid)),
     mkMachine
       (set_context
          (<["partial_format" := fmt]> (<["partial_patient_id" := pid]> (context (bot m))))
          (bot m))
       (trace m ++ [EvEnter HInitial; EvLLM (extract_request (bot m) msg)])).
Proof.
  intros Hexp Hext Hpid Rpid Hfmt Rfmt Hin.
  unfold _handle_initial_message. rewrite Hexp.
  unfold extraction, merged, reported, stored, resolved in *.
  open_machine m. run.
  rewrite llm_calls_enter, Hext. run.
  cbn [Py.get slot_key partial_key] in *.
  repeat case_truth.
  all: rewrite ?Hin; run; rewrite <- ?app_assoc; reflexivity.
Qed.

(** The INITIAL handler when both slots are resolved and the patient
    is in the catalog: the data is loaded, the request committed and
    the data rendered. *)
Lemma initial_commits env msg m q pid fmt data :
  is_export_request msg = false ->
  extraction env msg m = Ok (VDict q) ->
  merged q (context (bot m)) PatientId = Ok pid -> resolved pid ->
  merged q (context (bot m)) Format = Ok fmt -> resolved fmt ->
  Py.in_strs pid (patient_ids (bot m)) = Ok true ->
  get_patient_data env pid = Ok data ->
  _handle_initial_message env msg m
  = (match render env fmt data pid with
     | Ok result => Ok (result +:+ follow_up_offer)
     | Raise e => Raise e
     end,
     mkMachine
       (at_state DATA_RETRIEVED
          (set_context (committed (context (bot m)) pid fmt (as_rendered fmt data)) (bot m)))
       (trace m ++ [EvEnter HInitial; EvLLM (extract_request (bot m) msg)])).
Proof.
  intros Hexp Hext Hpid Rpid Hfmt Rfmt Hin Hdata.
  unfold _handle_initial_message. rewrite Hexp.
  unfold extraction, merged, reported, stored, resolved, render, as_rendered,
    committed in *.
  open_machine m. run.
  rewrite llm_calls_enter, Hext. run.
  cbn [Py.get slot_key partial_key] in *.
  repeat case_truth.
  all: rewrite ?Hin; run; rewrite ?Hdata; run; rewrite <- ?app_assoc.
  all: match goal with
       | |- context [Py.eq_str ?v "figure"] => destruct (Py.eq_str v "figure")
       end.
  all: try (destruct data as [df |]; cbn [generate_glucose_plot option_map]); run.
  all: match goal with
       | |- context [match ?r with Ok _ => _ | Raise _ => _ end] => destruct r
       | |- context [match ?r with Some _ => _ | None => _ end] => destruct r
       | _ => idtac
       end.
  all: run.
  all: do 3 f_equal; same_map.
Qed.

(** ** Turns of [process_message] *)

Lemma heard_fields msg m :
  state (bot (heard msg m)) = state (bot m) /\
  context (bot (heard msg m)) = context (bot m) /\
  patient_ids (bot (heard msg m)) = patient_ids (bot m) /\
  trace (heard msg m) = trace m.
Proof.
  unfold heard. cbn [bot trace].
  destruct (update_history_bot_others "user" msg (bot m)) as (_ & -> & -> & ->).
  repeat split.
Qed.

Lemma process_message_via env msg m r m1 :
  handle env (state (bot m)) msg (heard msg m) = (r, m1) ->
  process_message env msg m
  = match r with
    | Ok response =>
        (Ok response, mkMachine (update_history_bot "bot" response (bot m1)) (trace m1))
    | Raise e => (Raise e, m1)
    end.
Proof. intros H. rewrite process_message_unfold, H. destruct r; reflexivity. Qed.

Lemma replied_fields response b :
  state (update_history_bot "bot" response b) = state b /\
  context (update_history_bot "bot" response b) = context b.
Proof. destruct (update_history_bot_others "bot" response b) as (_ & _ & -> & ->). split; reflexivity. Qed.

Lemma not_found_message_shape ids pid :
  let base := PATIENT_NOT_FOUND_PROMPT pid (Str.join ", " (take 10 ids)) +:+ another_id_hint in
  ((10 < length ids)%nat ->
     _create_patient_not_found_message ids pid = base +:+ overflow_note (length ids)) /\
  ((length ids <= 10)%nat ->
     _create_patient_not_found_message ids pid = base /\ take 10 ids = ids) /\
  (length (take 10 ids) <= 10)%nat.
Proof.
  unfold _create_patient_not_found_message. cbv zeta. split; [| split].
  - intros H. apply Nat.ltb_lt in H. rewrite H. reflexivity.
  - intros H. split.
    + destruct (Nat.ltb_spec 10 (length ids)); [lia | reflexivity].
    + apply take_ge. exact H.
  - rewrite length_take. lia.
Qed.

Lemma join_concat sep l : Str.join sep l = String.concat sep l.
Proof.
  induction l as [|x [|y l] IH]; [reflexivity | reflexivity |].
  change (x +:+ sep +:+ Str.join sep (y :: l) = x +:+ sep +:+ String.concat sep (y :: l)).
  rewrite IH. reflexivity.
Qed.

(** C6.  From INITIAL, when the merged patient id and format are both
    resolved and the patient id is not in the catalog, the turn answers
    with the not-found message and the bot stays in INITIAL.  Nothing is
    removed from the context: it only gains the two merged values as
    partial entries.  The message, spelled out below, names the patient
    asked for, lists the first 10 identifiers of the catalog at most,
    separated by commas, and ends with the note on the size of the
    catalog exactly when the catalog holds more than 10. *)
Theorem unknown_patient_stays_initial env msg m q pid fmt :
  state (bot m) = INITIAL ->
  is_export_request msg = false ->
  extraction env msg (heard msg m) = Ok (VDict q) ->
  merged q (context (bot m)) PatientId = Ok pid -> resolved pid ->
  merged q (context (bot m)) Format = Ok fmt -> resolved fmt ->
  Py.in_strs pid (patient_ids (bot m)) = Ok false ->
  let ids := patient_ids (bot m) in
  let nl := String (ascii_of_nat 10) EmptyString in
  let listed := String.concat ", " (take 10 ids) in
  let base :=
    (nl +:+ "I'm sorry, but I couldn't find data for patient " +:+ str env pid +:+ ". " +:+ nl +:+
     "Available patient IDs are: " +:+ listed +:+ "." +:+ nl +:+
     "Please specify a valid patient ID." +:+ nl)
    +:+ (nl +:+ nl +:+
         "Please provide another patient ID from the list above. For example: 'Show me data for patient 015'") in
  let note :=
    nl +:+ nl +:+ "Note: I've shown only the first 10 patient IDs. There are " +:+
    pretty (length ids) +:+ " patients available in total." in
  let m' := snd (process_message env msg m) in
  fst (process_message env msg m)
  = Ok (if (10 <? length ids)%nat then base +:+ note else base) /\
  ((length ids <= 10)%nat -> take 10 ids = ids) /\
  (length (take 10 ids) <= 10)%nat /\
  (forall s, In s (take 10 ids) -> In s ids) /\
  state (bot m') = INITIAL /\
  context (bot m')
  = <["partial_format" := fmt]> (<["partial_patient_id" := pid]> (context (bot m))) /\
  (forall k, is_Some (context (bot m) !! k) -> is_Some (context (bot m') !! k)) /\
  (forall k, k <> "partial_patient_id" -> k <> "partial_format" ->
             context (bot m') !! k = context (bot m) !! k).
Proof.
  intros Hst Hexp Hext Hpid Rpid Hfmt Rfmt Hin ids nl listed base note m'.
  destruct (heard_fields msg m) as (Hs & Hc & Hi & Ht).
  assert (Hrun : handle env (state (bot m)) msg (heard msg m)
                 = (Ok (_create_patient_not_found_message ids (str env pid)),
                    mkMachine
                      (set_context
                         (<["partial_format" := fmt]>
                            (<["partial_patient_id" := pid]> (context (bot m))))
                         (bot (heard msg m)))
                      (trace m ++ [EvEnter HInitial;
                                   EvLLM (extract_request (bot (heard msg m)) msg)]))).
  { rewrite Hst. cbn [handle].
    rewrite (initial_not_found env msg (heard msg m) q pid fmt); rewrite ?Hc, ?Hi, ?Ht; auto. }
  apply process_message_via in Hrun.
  subst m'. rewrite Hrun. cbn [fst snd bot].
  destruct (replied_fields (_create_patient_not_found_message ids (str env pid))
              (set_context
                 (<["partial_format" := fmt]>
                    (<["partial_patient_id" := pid]> (context (bot m))))
                 (bot (heard msg m)))) as [-> ->].
  cbn [set_context state context]. rewrite Hs, Hst.
  pose proof (not_found_message_shape ids (str env pid)) as (Hbig & Hsmall & Hlen).
  assert (Hmsg : _create_patient_not_found_message ids (str env pid)
                 = if (10 <? length ids)%nat then base +:+ note else base).
  { unfold _create_patient_not_found_message. cbv zeta.
    rewrite join_concat. destruct (10 <? length ids)%nat; reflexivity. }
  rewrite Hmsg.
  split; [reflexivity |].
  split; [intros Hle; apply Hsmall; exact Hle |].
  split; [exact Hlen |].
  split.
  { intros s Hs'. rewrite <- (take_drop 10 ids). apply in_or_app. left. exact Hs'. }
  split; [reflexivity |]. split; [reflexivity |]. split.
  - intros k [v Hk]. rewrite !lookup_insert. repeat case_decide; eauto.
  - intros k H1 H2. rewrite !lookup_insert_ne by congruence. reflexivity.
Qed.

(** ** All the paths of a handler *)

Ltac branch :=
  match goal with
  | |- context [match ?x with _ => _ end] =>
      lazymatch x with
      | context [match _ with _ => _ end] => fail
      | _ =>
          lazymatch type of x with
          | Machine =>
              let b := fresh "b" in let t := fresh "t" in destruct x as [b t]
          | GlucoseDataBot =>
              let i := fresh "i" in let s := fresh "s" in let c := fresh "c" in
              let h := fresh "h" in let n := fresh "n" in destruct x as [i s c h n]
          | _ => destruct x eqn:?
          end
      end
  end; run.

Ltac lookups :=
  repeat first
    [ rewrite lookup_insert_eq
    | rewrite lookup_insert_ne by discriminate
    | rewrite lookup_delete_ne by discriminate ].

Ltac slot_goal :=
  unfold keeps_slots, stored, resolved, missing_value in *;
  repeat match goal with
    | |- forall f : Slot, _ => intros [|]
    | |- _ -> _ => intros ?
    | |- _ /\ _ => split
    | |- exists _, _ => eexists
    end;
  cbn [slot_key partial_key] in *; lookups; cbn [default] in *;
  try reflexivity; try eassumption; try congruence.

Ltac asks_list :=
  first [ exists ["patient_id"; "format"]; split; [lookups; reflexivity |]
        | exists ["patient_id"]; split; [lookups; reflexivity |]
        | exists ["format"]; split; [lookups; reflexivity |] ].

Ltac initial_leaf :=
  first
    [ solve [right; right; slot_goal]
    | solve [right; left; slot_goal]
    | solve [left; split; [reflexivity |]; split;
             [ unfold clarifying_ok; cbn [state context]; intros _; asks_list;
               intros [|] Hnin; cbn [slot_key missing_slots app In] in Hnin;
               try (exfalso; apply Hnin; simpl; tauto); slot_goal
             | split; [slot_goal |];
               let Hall := fresh in
               intros Hall; pose proof (Hall PatientId); pose proof (Hall Format);
               slot_goal ] ] ].

Lemma initial_post_holds env msg m :
  initial_post m (snd (_handle_initial_message env msg m)).
Proof.
  unfold _handle_initial_message. open_machine m. run.
  repeat branch.
  all: unfold initial_post; cbn [bot state context].
  all: initial_leaf.
Qed.

Lemma initial_progress env msg m f :
  slot_progress m (snd (_handle_initial_message env msg m)) f.
Proof.
  pose proof (initial_post_holds env msg m) as H. unfold slot_progress. intros Hr.
  destruct H as [(_ & _ & Hk & _) | [(Hs & Hc) | (_ & _ & Hk)]]; auto.
Qed.

Ltac reenter lem :=
  match goal with
  | H : _handle_initial_message ?e ?q ?m1 = (_, ?m2) |- _ =>
      let Hp := fresh "Hp" in
      pose proof (lem e q m1) as Hp; rewrite H in Hp; cbn [snd] in Hp;
      clear H
  end.

Lemma clarification_progress env msg m f :
  slot_progress m (snd (_handle_clarification env msg m)) f.
Proof.
  unfold _handle_clarification. open_machine m. run.
  repeat branch.
  all: try reenter initial_progress.
  all: unfold slot_progress in *; cbn [bot state context] in *.
  all: try solve [intros Hr; left; revert f Hr; slot_goal].
  all: try solve [intros Hr; apply Hp; revert f Hr; slot_goal].
Qed.

Lemma in_list_In s l : in_list s l = true <-> In s l.
Proof.
  unfold in_list. rewrite existsb_exists. split.
  - intros [x [Hx Heq]]. apply String.eqb_eq in Heq. subst. exact Hx.
  - intros H. exists s. split; [exact H | apply String.eqb_refl].
Qed.

Lemma contains_missing s old :
  Py.contains_str s (missing_value old) = Ok (in_list s old).
Proof.
  unfold missing_value, in_list. cbn [Py.contains_str]. f_equal.
  induction old as [|x old IH]; [reflexivity |].
  cbn [map existsb Py.eq_str]. rewrite IH, String.eqb_sym. reflexivity.
Qed.

Lemma clarification_post_holds env msg m old :
  context (bot m) !! "missing_info" = Some (missing_value old) ->
  (forall f, ~ In (slot_key f) old -> resolved (stored (context (bot m)) f)) ->
  clarification_post old m (snd (_handle_clarification env msg m)).
Proof.
  intros Hmi Hinv.
  pose proof (Hinv PatientId) as HinvP. pose proof (Hinv Format) as HinvF.
  rewrite <- !in_list_In in HinvP, HinvF. cbn [slot_key] in HinvP, HinvF.
  unfold _handle_clarification, missing_slots. open_machine m. run.
  repeat (branch; rewrite ?Hmi; cbn [default from_option id];
          rewrite ?contains_missing; run).
  all: try reenter initial_post_holds.
  all: unfold clarification_post; cbn [bot state context] in *.
  all: repeat match goal with
         | H : context [_ && false] |- _ => rewrite andb_false_r in H
         | H : context [_ && true] |- _ => rewrite andb_true_r in H
         end; try discriminate.
  all: try match type of HinvP with _ -> ?G =>
             assert (RP : G) by (apply HinvP; congruence) end.
  all: try match type of HinvF with _ -> ?G =>
             assert (RF : G) by (apply HinvF; congruence) end.
  all: try solve
    [ left; split; [reflexivity |]; exists old; split; [lookups; exact Hmi |];
      split; [auto |]; intros [|] Hn; pose proof (Hinv _ Hn); slot_goal ].
  all: try solve
    [ left; split; [reflexivity |]; asks_list;
      split;
      [ intros s Hs; cbn [In] in Hs;
        repeat match goal with H : _ \/ _ |- _ => destruct H end;
        subst; try tauto; apply in_list_In; assumption
      | intros [|] Hn; cbn [slot_key In] in Hn;
        try (exfalso; apply Hn; tauto); slot_goal ] ].
  all: try solve
    [ unfold initial_post in Hp; cbn [bot state context] in Hp;
      destruct Hp as [(_ & _ & _ & Hnot) | [(Hs & _) | (Hs & _)]];
      [ exfalso; apply Hnot; slot_goal | tauto | tauto ] ].
Qed.

(** ** The clarification handler *)

(** Something is still missing: the handler records it and asks again. *)
Lemma clarification_asks env msg m q old pid fmt has_id has_fmt :
  is_export_request msg = false ->
  extraction env msg m = Ok (VDict q) ->
  context (bot m) !! "missing_info" = Some (missing_value old) ->
  merged q (context (bot m)) PatientId = Ok pid -> Py.truth pid = Ok has_id ->
  merged q (context (bot m)) Format = Ok fmt -> Py.truth fmt = Ok has_fmt ->
  let still_missing :=
    missing_slots (in_list "patient_id" old && negb has_id)
                  (in_list "format" old && negb has_fmt) in
  still_missing <> [] ->
  _handle_clarification env msg m
  = (Ok (_create_clarification_message still_missing),
     mkMachine
       (set_context
          (<["missing_info" := missing_value still_missing]>
             (after_merge (context (bot m)) pid fmt))
          (bot m))
       (trace m ++ [EvEnter HClarification; EvLLM (extract_request (bot m) msg)])).
Proof.
  intros Hexp Hext Hmi Hpid Tpid Hfmt Tfmt still_missing Hne.
  unfold _handle_clarification. rewrite Hexp.
  unfold extraction, merged, after_merge, remember, reported, stored in *.
  open_machine m. run.
  rewrite llm_calls_enter, Hext. run.
  rewrite Hmi. cbn [default from_option id Py.get slot_key partial_key] in *.
  rewrite !contains_missing.
  repeat case_truth.
  all: subst still_missing; destruct has_id, has_fmt; tidy; run;
    cbn [negb] in *; rewrite ?andb_false_r, ?andb_true_r in *;
    destruct (in_list "patient_id" old), (in_list "format" old);
    cbn [missing_slots app] in *; try congruence; run;
    rewrite <- ?app_assoc; reflexivity.
Qed.

(** Nothing is missing any more: the handler goes back to INITIAL and
    hands the synthesised request to the INITIAL handler. *)
Lemma clarification_completes env msg m q pid fmt wp wf :
  is_export_request msg = false ->
  extraction env msg m = Ok (VDict q) ->
  let missing := default (VList []) (context (bot m) !! "missing_info") in
  Py.contains_str "patient_id" missing = Ok wp ->
  Py.contains_str "format" missing = Ok wf ->
  merged q (context (bot m)) PatientId = Ok pid -> resolved pid ->
  merged q (context (bot m)) Format = Ok fmt -> resolved fmt ->
  _handle_clarification env msg m
  = _handle_initial_message env (complete_query env fmt pid)
      (mkMachine
         (at_state INITIAL
            (set_context
               (<["partial_format" := fmt]>
                  (<["partial_patient_id" := pid]> (context (bot m))))
               (bot m)))
         (trace m ++ [EvEnter HClarification; EvLLM (extract_request (bot m) msg)])).
Proof.
  intros Hexp Hext missing Hwp Hwf Hpid Rpid Hfmt Rfmt. subst missing.
  unfold _handle_clarification. rewrite Hexp.
  unfold extraction, merged, reported, stored, resolved, complete_query in *.
  open_machine m. run.
  rewrite llm_calls_enter, Hext. run.
  cbn [Py.get slot_key partial_key] in *.
  repeat case_truth.
  all: rewrite ?Hwp; run; rewrite ?Hwf; run; rewrite ?andb_false_r; run;
    rewrite <- ?app_assoc; reflexivity.
Qed.

(** ** The events of a turn *)

Lemma handlers_entered_enter h r : handlers_entered (EvEnter h :: r) = h :: handlers_entered r.
Proof. reflexivity. Qed.

Lemma handlers_entered_request q r : handlers_entered (EvLLM q :: r) = handlers_entered r.
Proof. reflexivity. Qed.

Lemma handlers_entered_export x r : handlers_entered (EvExport x :: r) = handlers_entered r.
Proof. reflexivity. Qed.

Lemma requests_sent_enter h r : requests_sent (EvEnter h :: r) = requests_sent r.
Proof. reflexivity. Qed.

Lemma requests_sent_request q r : requests_sent (EvLLM q :: r) = q :: requests_sent r.
Proof. reflexivity. Qed.

Lemma requests_sent_export x r : requests_sent (EvExport x :: r) = requests_sent r.
Proof. reflexivity. Qed.

Ltac events :=
  repeat first
    [ rewrite handlers_entered_enter | rewrite handlers_entered_request
    | rewrite handlers_entered_export | rewrite requests_sent_enter
    | rewrite requests_sent_request | rewrite requests_sent_export ].

Ltac trace_leaf :=
  rewrite <- ?app_assoc; cbn [app];
  eexists; split; [reflexivity |];
  events; cbn [handlers_entered requests_sent omap list_omap length];
  auto with arith.

Lemma initial_trace env msg m :
  exists l, trace (snd (_handle_initial_message env msg m)) = trace m ++ EvEnter HInitial :: l /\
            handlers_entered l = [] /\ (length (requests_sent l) <= 1)%nat.
Proof.
  unfold _handle_initial_message. open_machine m. run.
  repeat branch.
  all: trace_leaf.
Qed.

Lemma analysis_trace env msg m :
  exists l, trace (snd (_handle_analysis env msg m)) = trace m ++ EvEnter HAnalysis :: l /\
            handlers_entered l = [] /\ (length (requests_sent l) <= 1)%nat.
Proof.
  unfold _handle_analysis. open_machine m. run.
  repeat branch.
  all: trace_leaf.
Qed.

Ltac nested_trace :=
  let l := fresh "l" in let Ht := fresh "Ht" in
  let Hh := fresh "Hh" in let Hr := fresh "Hr" in
  match goal with
  | H : _handle_initial_message ?e ?q ?m1 = (_, ?m2) |- _ =>
      destruct (initial_trace e q m1) as (l & Ht & Hh & Hr);
      rewrite H in Ht; simpl in Ht; clear H
  | H : _handle_analysis ?e ?q ?m1 = (_, ?m2) |- _ =>
      destruct (analysis_trace e q m1) as (l & Ht & Hh & Hr);
      rewrite H in Ht; simpl in Ht; clear H
  end;
  rewrite Ht, <- ?app_assoc; cbn [app];
  eexists; split; [reflexivity |];
  events; rewrite ?Hh; cbn [length];
  split; [auto | lia].

Lemma clarification_trace env msg m :
  exists l, trace (snd (_handle_clarification env msg m))
            = trace m ++ EvEnter HClarification :: l /\
            (handlers_entered l = [] \/ handlers_entered l = [HInitial]) /\
            (length (requests_sent l) <= 2)%nat.
Proof.
  unfold _handle_clarification. open_machine m. run.
  repeat branch.
  all: first [nested_trace | trace_leaf].
Qed.

Lemma data_retrieved_trace env msg m :
  exists l, trace (snd (_handle_data_retrieved env msg m))
            = trace m ++ EvEnter HDataRetrieved :: l /\
            (handlers_entered l = [] \/ handlers_entered l = [HAnalysis] \/
             handlers_entered l = [HInitial]) /\
            (length (requests_sent l) <= 3)%nat.
Proof.
  unfold _handle_data_retrieved. open_machine m. run.
  repeat branch.
  all: first [nested_trace | trace_leaf].
Qed.

Lemma process_message_trace env msg m :
  trace (snd (process_message env msg m))
  = trace (snd (handle env (state (bot m)) msg (heard msg m))).
Proof.
  rewrite process_message_unfold.
  destruct (handle env (state (bot m)) msg (heard msg m)) as [[response | e] m']; reflexivity.
Qed.

Lemma process_message_state env msg m :
  state (bot (snd (process_message env msg m)))
  = state (bot (snd (handle env (state (bot m)) msg (heard msg m)))) /\
  context (bot (snd (process_message env msg m)))
  = context (bot (snd (handle env (state (bot m)) msg (heard msg m)))).
Proof.
  rewrite process_message_unfold.
  destruct (handle env (state (bot m)) msg (heard msg m)) as [[response | e] m'];
    cbn [snd bot]; [apply replied_fields | split; reflexivity].
Qed.

(** Every turn enters the handler of the current state, then at most
    one more handler, which is never the clarification handler, and
    sends at most three requests. *)
Lemma turn_events env msg m :
  exists l rest,
    trace (snd (process_message env msg m)) = trace m ++ l /\
    handlers_entered l = handler_of (state (bot m)) :: rest /\
    (length rest <= 1)%nat /\ ~ In HClarification rest /\
    (length (requests_sent l) <= 3)%nat.
Proof.
  rewrite process_message_trace.
  destruct (heard_fields msg m) as (_ & _ & _ & Ht). rewrite <- Ht.
  destruct (state (bot m)); cbn [handle handler_of].
  - destruct (initial_trace env msg (heard msg m)) as (l & Hl & Hh & Hr).
    exists (EvEnter HInitial :: l), []. events. rewrite Hh.
    repeat split; simpl; auto; lia.
  - destruct (clarification_trace env msg (heard msg m)) as (l & Hl & [Hh | Hh] & Hr);
      eexists (EvEnter HClarification :: l), _; events; rewrite Hh;
      (repeat split; [exact Hl | simpl; lia | simpl; intuition discriminate | lia]).
  - destruct (data_retrieved_trace env msg (heard msg m)) as (l & Hl & [Hh | [Hh | Hh]] & Hr);
      eexists (EvEnter HDataRetrieved :: l), _; events; rewrite Hh;
      (repeat split; [exact Hl | simpl; lia | simpl; intuition discriminate | lia]).
  - destruct (analysis_trace env msg (heard msg m)) as (l & Hl & Hh & Hr).
    exists (EvEnter HAnalysis :: l), []. events. rewrite Hh.
    repeat split; simpl; auto; lia.
Qed.

(** C8.  When a clarification turn finds both slots resolved, the
    handler synthesises the request "Get {format} data for patient
    {id}" and hands it to the INITIAL handler.  The turn enters exactly
    these two handlers, sends at most two requests and does not end in
    NEEDS_CLARIFICATION.  In general every call of [process_message]
    returns, after entering the handler of the current state and at most
    one more handler, never the clarification handler a second time, and
    after at most three requests. *)
Theorem clarification_reenters_initial_once env msg m q old pid fmt :
  state (bot m) = NEEDS_CLARIFICATION ->
  is_export_request msg = false ->
  extraction env msg (heard msg m) = Ok (VDict q) ->
  context (bot m) !! "missing_info" = Some (missing_value old) ->
  merged q (context (bot m)) PatientId = Ok pid -> resolved pid ->
  merged q (context (bot m)) Format = Ok fmt -> resolved fmt ->
  let reentry :=
    mkMachine
      (at_state INITIAL
         (set_context
            (<["partial_format" := fmt]> (<["partial_patient_id" := pid]> (context (bot m))))
            (bot (heard msg m))))
      (trace m ++ [EvEnter HClarification; EvLLM (extract_request (bot (heard msg m)) msg)]) in
  let m' := snd (process_message env msg m) in
  _handle_clarification env msg (heard msg m)
  = _handle_initial_message env (complete_query env fmt pid) reentry /\
  complete_query env fmt pid
  = "Get " +:+ str env fmt +:+ " data for patient " +:+ str env pid /\
  (exists l, trace m' = trace m ++ l /\
             handlers_entered l = [HClarification; HInitial] /\
             (length (requests_sent l) <= 2)%nat) /\
  state (bot m') <> NEEDS_CLARIFICATION /\
  (forall env0 msg0 m0,
      exists r m1 l rest,
        process_message env0 msg0 m0 = (r, m1) /\
        trace m1 = trace m0 ++ l /\
        handlers_entered l = handler_of (state (bot m0)) :: rest /\
        (length rest <= 1)%nat /\ ~ In HClarification rest /\
        (length (requests_sent l) <= 3)%nat).
Proof.
  intros Hst Hexp Hext Hmi Hpid Rpid Hfmt Rfmt reentry m'.
  destruct (heard_fields msg m) as (Hs & Hc & Hi & Ht).
  assert (Hre : _handle_clarification env msg (heard msg m)
                = _handle_initial_message env (complete_query env fmt pid) reentry).
  { subst reentry. rewrite <- Hc, <- Ht.
    eapply (clarification_completes env msg (heard msg m) q pid fmt
              (in_list "patient_id" old) (in_list "format" old));
      rewrite ?Hc; auto; rewrite Hmi; apply contains_missing. }
  split; [exact Hre |]. split; [reflexivity |].
  subst m'. destruct (process_message_state env msg m) as [-> _].
  rewrite process_message_trace, Hst. cbn [handle]. rewrite Hre.
  split; [| split].
  - destruct (initial_trace env (complete_query env fmt pid) reentry) as (l & Hl & Hh & Hr).
    rewrite Hl. subst reentry. cbn [trace]. rewrite <- app_assoc. cbn [app].
    eexists. split; [reflexivity |]. events. rewrite Hh. split; [reflexivity |].
    cbn [length]. lia.
  - pose proof (initial_post_holds env (complete_query env fmt pid) reentry) as Hp.
    unfold initial_post in Hp. subst reentry. cbn [bot state context at_state set_context] in Hp.
    destruct Hp as [(_ & _ & _ & Hnot) | [(Hs' & _) | (Hs' & _)]].
    + exfalso. apply Hnot. slot_goal.
    + rewrite Hs'. discriminate.
    + rewrite Hs'. discriminate.
  - intros env0 msg0 m0.
    destruct (turn_events env0 msg0 m0) as (l & rest & H1 & H2 & H3 & H4 & H5).
    destruct (process_message env0 msg0 m0) as [r m1] eqn:Hrun.
    exists r, m1, l, rest. cbn [snd] in H1. auto 10.
Qed.

(** ** A turn whose extraction yields no reply object *)

Lemma initial_no_object env msg m e :
  is_export_request msg = false ->
  no_reply_object env (llm_calls (trace m)) (extract_request (bot m) msg) e ->
  _handle_initial_message env msg m
  = (Raise e,
     mkMachine (bot m) (trace m ++ [EvEnter HInitial; EvLLM (extract_request (bot m) msg)])).
Proof.
  intros Hexp Hno. unfold _handle_initial_message. rewrite Hexp.
  unfold no_reply_object in Hno. open_machine m. run.
  rewrite llm_calls_enter. unfold answer. cbn [extract_request output].
  destruct Hno as [[Hl ->] | [(c & Hl & Hj & ->) | (c & v & Hl & Hj & Hv & ->)]];
    cbn [extract_request output] in Hl; rewrite Hl, ?Hj; run;
    rewrite <- ?app_assoc; try reflexivity.
  destruct v; try reflexivity. exfalso. eapply Hv. reflexivity.
Qed.

Lemma clarification_no_object env msg m e :
  is_export_request msg = false ->
  no_reply_object env (llm_calls (trace m)) (extract_request (bot m) msg) e ->
  _handle_clarification env msg m
  = (Raise e,
     mkMachine (bot m)
       (trace m ++ [EvEnter HClarification; EvLLM (extract_request (bot m) msg)])).
Proof.
  intros Hexp Hno. unfold _handle_clarification. rewrite Hexp.
  unfold no_reply_object in Hno. open_machine m. run.
  rewrite llm_calls_enter. unfold answer. cbn [extract_request output].
  destruct Hno as [[Hl ->] | [(c & Hl & Hj & ->) | (c & v & Hl & Hj & Hv & ->)]];
    cbn [extract_request output] in Hl; rewrite Hl, ?Hj; run;
    rewrite <- ?app_assoc; try reflexivity.
  destruct v; try reflexivity. exfalso. eapply Hv. reflexivity.
Qed.

Lemma merged_empty q c f :
  Py.assoc (slot_key f) q = None -> merged q c f = Ok (stored c f).
Proof. intros H. unfold merged, reported. rewrite H. reflexivity. Qed.

(** C1, as the code has it.  In INITIAL and in NEEDS_CLARIFICATION,
    when the extraction request raises, or its reply is not JSON or not
    a JSON object, the exception leaves [process_message]: the utterance
    is in the history but no reply is, and the read loop ends with the
    exception.  When it is the extraction of the utterance that fails,
    state and context are what they were.  When a clarification turn has
    completed the request and it is the extraction of the synthesised
    request that fails, the bot is left in INITIAL with the two merged
    slots stored as partial entries.  Only a reply object that lacks the
    two keys counts as empty slots: from INITIAL with nothing stored,
    the turn then asks for both. *)
Theorem extraction_failure_propagates env msg rest m e :
  state (bot m) = INITIAL \/ state (bot m) = NEEDS_CLARIFICATION ->
  is_export_request msg = false ->
  in_list (Str.lower msg) ["exit"; "quit"] = false ->
  no_reply_object env (llm_calls (trace m)) (extract_request (bot (heard msg m)) msg) e ->
  let m' :=
    mkMachine (bot (heard msg m))
      (trace m ++ [EvEnter (handler_of (state (bot m)));
                   EvLLM (extract_request (bot (heard msg m)) msg)]) in
  process_message env msg m = (Raise e, m') /\
  state (bot m') = state (bot m) /\
  context (bot m') = context (bot m) /\
  conversation_history (bot m')
  = push (max_history_length (bot m)) (conversation_history (bot m)) (user_turn msg) /\
  main_loop env (msg :: rest) m = (Uncaught e, [], m') /\
  (forall env0 msg0 m0 q,
      state (bot m0) = INITIAL ->
      is_export_request msg0 = false ->
      extraction env0 msg0 (heard msg0 m0) = Ok (VDict q) ->
      (forall f, Py.assoc (slot_key f) q = None) ->
      (forall f, empty_slot (stored (context (bot m0)) f)) ->
      fst (process_message env0 msg0 m0)
      = Ok (_create_clarification_message ["patient_id"; "format"]) /\
      state (bot (snd (process_message env0 msg0 m0))) = NEEDS_CLARIFICATION /\
      context (bot (snd (process_message env0 msg0 m0))) !! "missing_info"
      = Some (missing_value ["patient_id"; "format"])) /\
  (forall env0 msg0 rest0 m0 q old pid fmt e0,
      state (bot m0) = NEEDS_CLARIFICATION ->
      is_export_request msg0 = false ->
      in_list (Str.lower msg0) ["exit"; "quit"] = false ->
      extraction env0 msg0 (heard msg0 m0) = Ok (VDict q) ->
      context (bot m0) !! "missing_info" = Some (missing_value old) ->
      merged q (context (bot m0)) PatientId = Ok pid -> resolved pid ->
      merged q (context (bot m0)) Format = Ok fmt -> resolved fmt ->
      is_export_request (complete_query env0 fmt pid) = false ->
      let reentry :=
        mkMachine
          (at_state INITIAL
             (set_context
                (<["partial_format" := fmt]>
                   (<["partial_patient_id" := pid]> (context (bot m0))))
                (bot (heard msg0 m0))))
          (trace m0 ++ [EvEnter HClarification;
                        EvLLM (extract_request (bot (heard msg0 m0)) msg0)]) in
      let again := extract_request (bot reentry) (complete_query env0 fmt pid) in
      no_reply_object env0 (S (llm_calls (trace m0))) again e0 ->
      let m1 := mkMachine (bot reentry) (trace reentry ++ [EvEnter HInitial; EvLLM again]) in
      process_message env0 msg0 m0 = (Raise e0, m1) /\
      state (bot m1) = INITIAL /\
      context (bot m1)
      = <["partial_format" := fmt]> (<["partial_patient_id" := pid]> (context (bot m0))) /\
      conversation_history (bot m1)
      = push (max_history_length (bot m0)) (conversation_history (bot m0))
             (user_turn msg0) /\
      main_loop env0 (msg0 :: rest0) m0 = (Uncaught e0, [], m1)).
Proof.
  intros Hst Hexp Hquit Hno m'.
  destruct (heard_fields msg m) as (Hs & Hc & Hi & Ht).
  assert (Hrun : process_message env msg m = (Raise e, m')).
  { assert (Hh : handle env (state (bot m)) msg (heard msg m) = (Raise e, m')).
    { subst m'. rewrite <- Ht.
      destruct Hst as [-> | ->]; cbn [handle handler_of].
      - apply initial_no_object; [assumption | rewrite Ht; assumption].
      - apply clarification_no_object; [assumption | rewrite Ht; assumption]. }
    apply process_message_via in Hh. exact Hh. }
  split; [exact Hrun |]. subst m'. cbn [bot].
  split; [exact Hs |]. split; [exact Hc |].
  split; [unfold heard; cbn [bot]; apply update_history_bot_history |].
  split; [cbn [main_loop]; rewrite Hquit, Hrun; reflexivity |].
  split.
  - intros env0 msg0 m0 q Hst0 Hexp0 Hext0 Hq Hempty.
    destruct (heard_fields msg0 m0) as (Hs0 & Hc0 & Hi0 & Ht0).
    assert (Hh : handle env0 (state (bot m0)) msg0 (heard msg0 m0)
                 = (Ok (_create_clarification_message ["patient_id"; "format"]),
                    mkMachine
                      (at_state NEEDS_CLARIFICATION
                         (set_context
                            (<["missing_info" := missing_value ["patient_id"; "format"]]>
                               (context (bot m0)))
                            (bot (heard msg0 m0))))
                      (trace (heard msg0 m0)
                       ++ [EvEnter HInitial;
                           EvLLM (extract_request (bot (heard msg0 m0)) msg0)]))).
    { rewrite Hst0. cbn [handle].
      rewrite (initial_asks env0 msg0 (heard msg0 m0) q
                 (stored (context (bot m0)) PatientId) (stored (context (bot m0)) Format)
                 false false); auto.
      - unfold after_merge, remember. rewrite Hc0.
        rewrite (Hempty PatientId), (Hempty Format). reflexivity.
      - rewrite Hc0. apply merged_empty, Hq.
      - apply Hempty.
      - rewrite Hc0. apply merged_empty, Hq.
      - apply Hempty. }
    apply process_message_via in Hh. rewrite Hh. cbn [fst snd bot].
    destruct (replied_fields (_create_clarification_message ["patient_id"; "format"])
                (at_state NEEDS_CLARIFICATION
                   (set_context
                      (<["missing_info" := missing_value ["patient_id"; "format"]]>
                         (context (bot m0)))
                      (bot (heard msg0 m0))))) as [-> ->].
    cbn [at_state set_context state context].
    split; [reflexivity |]. split; [reflexivity |]. apply lookup_insert_eq.
  - intros env0 msg0 rest0 m0 q old pid fmt e0 Hst0 Hexp0 Hquit0 Hext0 Hmi Hpid Rpid
      Hfmt Rfmt Hexp1 Hno0.
    destruct (heard_fields msg0 m0) as (Hs0 & Hc0 & Hi0 & Ht0).
    pose (reentry :=
            mkMachine
              (at_state INITIAL
                 (set_context
                    (<["partial_format" := fmt]>
                       (<["partial_patient_id" := pid]> (context (bot m0))))
                    (bot (heard msg0 m0))))
              (trace m0 ++ [EvEnter HClarification;
                            EvLLM (extract_request (bot (heard msg0 m0)) msg0)])).
    assert (Hre : _handle_clarification env0 msg0 (heard msg0 m0)
                  = _handle_initial_message env0 (complete_query env0 fmt pid) reentry).
    { subst reentry. rewrite <- Hc0, <- Ht0.
      eapply (clarification_completes env0 msg0 (heard msg0 m0) q pid fmt
                (in_list "patient_id" old) (in_list "format" old));
        rewrite ?Hc0; auto; rewrite Hmi; apply contains_missing. }
    assert (Hh : handle env0 (state (bot m0)) msg0 (heard msg0 m0)
                 = (Raise e0,
                    mkMachine (bot reentry)
                      (trace reentry
                       ++ [EvEnter HInitial;
                           EvLLM (extract_request (bot reentry)
                                    (complete_query env0 fmt pid))]))).
    { rewrite Hst0. cbn [handle]. rewrite Hre.
      apply initial_no_object; [exact Hexp1 |].
      subst reentry. cbn [trace bot].
      replace (llm_calls (trace m0 ++ [EvEnter HClarification;
                                       EvLLM (extract_request (bot (heard msg0 m0)) msg0)]))
        with (S (llm_calls (trace m0))); [exact Hno0 |].
      unfold llm_calls. rewrite filter_app, length_app. simpl. lia. }
    apply process_message_via in Hh. subst reentry. cbn [bot trace] in Hh.
    split; [exact Hh |].
    split; [reflexivity |]. split; [reflexivity |].
    split; [unfold heard; cbn [bot]; apply update_history_bot_history |].
    cbn [main_loop]. rewrite Hquit0, Hh. reflexivity.
Qed.

(** ** The bookkeeping of clarification is an invariant of sessions *)

Lemma analysis_not_clarifying env msg m :
  state (bot m) <> NEEDS_CLARIFICATION ->
  state (bot (snd (_handle_analysis env msg m))) <> NEEDS_CLARIFICATION.
Proof.
  intros Hst. unfold _handle_analysis. open_machine m. run.
  repeat branch.
  all: cbn [bot state]; first [assumption | discriminate].
Qed.

Lemma data_retrieved_clarifying env msg m :
  state (bot m) <> NEEDS_CLARIFICATION ->
  clarifying_ok (bot (snd (_handle_data_retrieved env msg m))).
Proof.
  intros Hst. unfold _handle_data_retrieved. open_machine m. run.
  repeat branch.
  all: try match goal with
         | H : _handle_analysis ?e ?q ?m1 = (_, ?m2) |- _ =>
             let Hp := fresh "Hp" in
             assert (Hp : state (bot (snd (_handle_analysis e q m1)))
                          <> NEEDS_CLARIFICATION)
               by (apply analysis_not_clarifying; discriminate);
             rewrite H in Hp; simpl in Hp
         end.
  all: try reenter initial_post_holds.
  all: unfold clarifying_ok; cbn [bot state context] in *.
  all: try solve [intros Hc; congruence].
  all: unfold initial_post in Hp; simpl in Hp;
    destruct Hp as [(_ & Hok & _) | [(Hs & _) | (Hs & _)]];
    [ exact Hok | intros Hc; congruence | intros Hc; congruence ].
Qed.

Lemma clarifying_ok_ext b b' :
  state b' = state b -> context b' = context b -> clarifying_ok b -> clarifying_ok b'.
Proof. unfold clarifying_ok. intros -> ->. trivial. Qed.

Lemma turn_keeps_clarifying env msg m :
  clarifying_ok (bot m) -> clarifying_ok (bot (snd (process_message env msg m))).
Proof.
  intros Hok.
  destruct (process_message_state env msg m) as [Hs Hc].
  eapply clarifying_ok_ext; [exact Hs | exact Hc |].
  destruct (heard_fields msg m) as (Hhs & Hhc & _ & _).
  destruct (state (bot m)) eqn:Hst; cbn [handle].
  - pose proof (initial_post_holds env msg (heard msg m)) as Hp.
    destruct Hp as [(_ & Hok' & _) | [(Hs' & _) | (Hs' & _)]];
      [exact Hok' | intros Hx; congruence | intros Hx; congruence].
  - destruct (Hok Hst) as (old & Hmi & Hinv).
    pose proof (clarification_post_holds env msg (heard msg m) old) as Hp.
    rewrite Hhc in Hp. specialize (Hp Hmi Hinv).
    destruct Hp as [(_ & new & Hn1 & _ & Hn3) | [Hs' | Hs']];
      [intros _; eauto | intros Hx; congruence | intros Hx; congruence].
  - apply data_retrieved_clarifying. congruence.
  - intros Hx. exfalso. revert Hx. apply analysis_not_clarifying. congruence.
Qed.

Lemma session_clarifying env ids full m :
  session env ids full m -> clarifying_ok (bot m).
Proof.
  induction 1 as [| full m msg response m' _ IH Hrun | full m msg e m' _ IH Hrun].
  - intros Hx. discriminate Hx.
  - pose proof (turn_keeps_clarifying env msg m IH) as H. rewrite Hrun in H. exact H.
  - pose proof (turn_keeps_clarifying env msg m IH) as H. rewrite Hrun in H. exact H.
Qed.

(** C5.  From INITIAL with nothing stored, an utterance whose
    extraction yields neither slot takes the bot to NEEDS_CLARIFICATION
    with both slots recorded as missing; a following utterance whose
    extraction yields only the format leaves it in NEEDS_CLARIFICATION
    with the patient id alone recorded as missing.  In every session, a
    clarification turn that ends in NEEDS_CLARIFICATION records a list
    of missing slots that is included in the one recorded before. *)
Theorem clarification_narrows_missing env msg1 msg2 m q1 q2 :
  state (bot m) = INITIAL ->
  (forall f, empty_slot (stored (context (bot m)) f)) ->
  is_export_request msg1 = false ->
  extraction env msg1 (heard msg1 m) = Ok (VDict q1) ->
  (forall f, empty_slot (reported q1 f)) ->
  let m1 := snd (process_message env msg1 m) in
  is_export_request msg2 = false ->
  extraction env msg2 (heard msg2 m1) = Ok (VDict q2) ->
  empty_slot (reported q2 PatientId) ->
  resolved (reported q2 Format) ->
  let m2 := snd (process_message env msg2 m1) in
  (state (bot m1) = NEEDS_CLARIFICATION /\
   context (bot m1) !! "missing_info" = Some (missing_value ["patient_id"; "format"]) /\
   fst (process_message env msg1 m)
   = Ok (_create_clarification_message ["patient_id"; "format"])) /\
  (state (bot m2) = NEEDS_CLARIFICATION /\
   context (bot m2) !! "missing_info" = Some (missing_value ["patient_id"]) /\
   context (bot m2) !! "partial_format" = Some (reported q2 Format) /\
   fst (process_message env msg2 m1) = Ok (_create_clarification_message ["patient_id"])) /\
  (forall env0 ids0 full0 m0 msg0,
      session env0 ids0 full0 m0 ->
      state (bot m0) = NEEDS_CLARIFICATION ->
      state (bot (snd (process_message env0 msg0 m0))) = NEEDS_CLARIFICATION ->
      exists old new,
        context (bot m0) !! "missing_info" = Some (missing_value old) /\
        context (bot (snd (process_message env0 msg0 m0))) !! "missing_info"
        = Some (missing_value new) /\
        forall s, In s new -> In s old).
Proof.
  intros Hst Hempty Hexp1 Hext1 Hq1 m1 Hexp2 Hext2 Hq2id Hq2fmt m2.
  destruct (heard_fields msg1 m) as (Hs & Hc & Hi & Ht).
  assert (Hm : forall f, merged q1 (context (bot m)) f = Ok (stored (context (bot m)) f)).
  { intros f. unfold merged. rewrite (Hq1 f). reflexivity. }
  assert (Hh1 : handle env (state (bot m)) msg1 (heard msg1 m)
                = (Ok (_create_clarification_message ["patient_id"; "format"]),
                   mkMachine
                     (at_state NEEDS_CLARIFICATION
                        (set_context
                           (<["missing_info" := missing_value ["patient_id"; "format"]]>
                              (context (bot m)))
                           (bot (heard msg1 m))))
                     (trace (heard msg1 m)
                      ++ [EvEnter HInitial; EvLLM (extract_request (bot (heard msg1 m)) msg1)]))).
  { rewrite Hst. cbn [handle].
    rewrite (initial_asks env msg1 (heard msg1 m) q1
               (stored (context (bot m)) PatientId) (stored (context (bot m)) Format)
               false false); rewrite ?Hc; auto; try apply Hempty.
    unfold after_merge, remember. rewrite (Hempty PatientId), (Hempty Format). reflexivity. }
  apply process_message_via in Hh1.
  assert (Hs1 : state (bot m1) = NEEDS_CLARIFICATION /\
                context (bot m1)
                = <["missing_info" := missing_value ["patient_id"; "format"]]>
                    (context (bot m))).
  { subst m1. rewrite Hh1. cbn [snd bot].
    match goal with |- context [update_history_bot "bot" ?r ?b] =>
      destruct (replied_fields r b) as [-> ->] end.
    split; reflexivity. }
  destruct Hs1 as [Hs1 Hc1].
  split.
  { split; [exact Hs1 |]. split; [rewrite Hc1; apply lookup_insert_eq |].
    rewrite Hh1. reflexivity. }
  destruct (heard_fields msg2 m1) as (Hs' & Hc' & Hi' & Ht').
  assert (Hst1 : forall f, stored (context (bot m1)) f = stored (context (bot m)) f).
  { intros [|]; unfold stored; rewrite Hc1; cbn [partial_key];
      rewrite lookup_insert_ne by discriminate; reflexivity. }
  assert (Hh2 : handle env (state (bot m1)) msg2 (heard msg2 m1)
                = (Ok (_create_clarification_message ["patient_id"]),
                   mkMachine
                     (set_context
                        (<["missing_info" := missing_value ["patient_id"]]>
                           (<["partial_format" := reported q2 Format]> (context (bot m1))))
                        (bot (heard msg2 m1)))
                     (trace (heard msg2 m1)
                      ++ [EvEnter HClarification;
                          EvLLM (extract_request (bot (heard msg2 m1)) msg2)]))).
  { rewrite Hs1. cbn [handle].
    assert (A1 : context (bot (heard msg2 m1)) !! "missing_info"
                 = Some (missing_value ["patient_id"; "format"]))
      by (rewrite Hc', Hc1; apply lookup_insert_eq).
    assert (A2 : merged q2 (context (bot (heard msg2 m1))) PatientId
                 = Ok (stored (context (bot m1)) PatientId))
      by (unfold merged; rewrite Hq2id, Hc'; reflexivity).
    assert (A3 : Py.truth (stored (context (bot m1)) PatientId) = Ok false)
      by (rewrite Hst1; apply Hempty).
    assert (A4 : merged q2 (context (bot (heard msg2 m1))) Format = Ok (reported q2 Format))
      by (unfold merged; rewrite Hq2fmt; reflexivity).
    rewrite (clarification_asks env msg2 (heard msg2 m1) q2 _ _ _ false true
               Hexp2 Hext2 A1 A2 A3 A4 Hq2fmt); [| vm_compute; discriminate].
    change (missing_slots (in_list "patient_id" ["patient_id"; "format"] && negb false)
              (in_list "format" ["patient_id"; "format"] && negb true))
      with ["patient_id"].
    unfold after_merge, remember. rewrite A3, Hq2fmt, Hc'. reflexivity. }
  apply process_message_via in Hh2.
  split.
  { subst m2. rewrite Hh2. cbn [fst snd bot].
    match goal with |- context [update_history_bot "bot" ?r ?b] =>
      destruct (replied_fields r b) as [-> ->] end.
    cbn [set_context state context]. rewrite Hs', Hs1.
    split; [reflexivity |]. split; [apply lookup_insert_eq |].
    split; [| reflexivity].
    rewrite lookup_insert_ne by discriminate. apply lookup_insert_eq. }
  intros env0 ids0 full0 m0 msg0 Hsess Hst0 Hend.
  destruct (session_clarifying env0 ids0 full0 m0 Hsess Hst0) as (old & Hmi & Hinv).
  destruct (process_message_state env0 msg0 m0) as [Hps Hpc].
  destruct (heard_fields msg0 m0) as (Hs0 & Hc0 & _ & _).
  pose proof (clarification_post_holds env0 msg0 (heard msg0 m0) old) as Hp.
  rewrite Hc0 in Hp. specialize (Hp Hmi Hinv).
  rewrite Hps, Hst0 in Hend. cbn [handle] in Hend.
  rewrite Hpc, Hst0. cbn [handle].
  destruct Hp as [(_ & new & Hn1 & Hn2 & _) | [Hx | Hx]]; [eauto | congruence | congruence].
Qed.

(** ** Newest non-empty wins *)

Lemma resolved_lookup (c : gmap string value) k :
  Py.truth (default VNone (c !! k)) = Ok true -> c !! k = Some (default VNone (c !! k)).
Proof. destruct (c !! k); [reflexivity | discriminate]. Qed.

Ltac law_leaf :=
  unfold slot_after, merge_result, reported, stored;
  cbn [bot state context slot_key partial_key];
  repeat match goal with
    | H : Py.truth ?v = _ |- context [Py.truth ?v] => rewrite H
    end;
  lookups;
  first [ reflexivity
        | symmetry; apply resolved_lookup; assumption
        | apply resolved_lookup; assumption ].

Lemma initial_merge_law env msg m q resp m' f :
  state (bot m) = INITIAL ->
  is_export_request msg = false ->
  extraction env msg m = Ok (VDict q) ->
  _handle_initial_message env msg m = (Ok resp, m') ->
  slot_after (bot m') f = merge_result q (context (bot m)) f.
Proof.
  intros Hst Hexp Hext. unfold _handle_initial_message. rewrite Hexp.
  unfold extraction in Hext. open_machine m. subst. run.
  rewrite llm_calls_enter, Hext. run. cbn [Py.get].
  repeat branch.
  all: intros [= <- <-] || (intros; discriminate).
  all: destruct f; law_leaf.
Qed.

Lemma initial_export_bot env msg m :
  is_export_request msg = true ->
  bot (snd (_handle_initial_message env msg m)) = bot m.
Proof.
  intros Hexp. pose proof (handlers_export env msg INITIAL Hexp) as H.
  cbn [handler_of] in H. rewrite H. apply export_turn_quiet.
Qed.

Lemma initial_requests env msg m :
  is_export_request msg = false ->
  exists l, trace (snd (_handle_initial_message env msg m))
            = trace m ++ EvEnter HInitial :: EvLLM (extract_request (bot m) msg) :: l.
Proof.
  intros Hexp. unfold _handle_initial_message. rewrite Hexp. open_machine m. run.
  repeat branch.
  all: rewrite <- ?app_assoc; cbn [app]; eexists; reflexivity.
Qed.

Ltac events_in H :=
  repeat first
    [ rewrite handlers_entered_enter in H | rewrite handlers_entered_request in H
    | rewrite handlers_entered_export in H | rewrite requests_sent_enter in H
    | rewrite requests_sent_request in H | rewrite requests_sent_export in H ].

Lemma clarification_merge_law env msg m q resp m' f :
  state (bot m) = NEEDS_CLARIFICATION ->
  is_export_request msg = false ->
  extraction env msg m = Ok (VDict q) ->
  _handle_clarification env msg m = (Ok resp, m') ->
  requests_sent (trace m') = requests_sent (trace m) ++ [extract_request (bot m) msg] ->
  slot_after (bot m') f = merge_result q (context (bot m)) f.
Proof.
  intros Hst Hexp Hext. unfold _handle_clarification. rewrite Hexp.
  unfold extraction in Hext. open_machine m. subst. run.
  rewrite llm_calls_enter, Hext. run. cbn [Py.get].
  repeat branch.
  all: try (intros; discriminate).
  all: try solve [intros [= <- <-] _; destruct f; law_leaf].
  all: intros Hrun Hreq;
    match type of Hrun with
    | _handle_initial_message ?e ?c ?m1 = _ =>
        destruct (is_export_request c) eqn:Hcan;
        [ pose proof (initial_export_bot e c m1 Hcan) as Hb;
          rewrite Hrun in Hb; cbn [snd bot] in Hb; rewrite Hb;
          destruct f; law_leaf
        | exfalso; destruct (initial_requests e c m1 Hcan) as (l & Hl);
          rewrite Hrun in Hl; cbn [snd trace] in Hl; rewrite Hl in Hreq;
          cbn [trace] in Hreq; rewrite <- !app_assoc in Hreq; cbn [app] in Hreq;
          rewrite requests_sent_app in Hreq; apply app_inv_head in Hreq;
          events_in Hreq; discriminate Hreq ]
    end.
Qed.

Lemma analysis_context env msg m :
  context (bot (snd (_handle_analysis env msg m))) = context (bot m).
Proof.
  unfold _handle_analysis. open_machine m. run.
  repeat branch.
  all: reflexivity.
Qed.

Lemma data_retrieved_progress env msg m f :
  state (bot m) = DATA_RETRIEVED ->
  slot_progress m (snd (_handle_data_retrieved env msg m)) f \/ wipe_requested env msg m.
Proof.
  intros Hst. unfold wipe_requested, classification.
  unfold _handle_data_retrieved. open_machine m. subst. run.
  repeat branch.
  all: rewrite ?llm_calls_enter in *.
  all: try solve [left; unfold slot_progress; cbn [bot context]; auto].
  all: try solve [right; split; [reflexivity |]; split; [reflexivity || assumption |]; eauto].
  all: left; unfold slot_progress; cbn [bot context];
    match goal with
    | H : _handle_analysis ?e ?q ?m1 = (_, ?m2) |- _ =>
        pose proof (analysis_context e q m1) as Hc; rewrite H in Hc;
        cbn [snd bot context] in Hc; rewrite Hc; auto
    end.
Qed.

Ltac settle :=
  repeat match goal with
    | H : Py.truth ?v = _, H' : Py.truth ?v = _ |- _ =>
        rewrite H in H'; tidy
    | H : Py.truth ?v = _, H' : context [Py.truth ?v] |- _ =>
        rewrite H in H'; tidy
    end.

Lemma initial_merge_law_any env msg m q f :
  state (bot m) = INITIAL ->
  is_export_request msg = false ->
  extraction env msg m = Ok (VDict q) ->
  (forall g, settles q (context (bot m)) g) ->
  slot_after (bot (snd (_handle_initial_message env msg m))) f
  = merge_result q (context (bot m)) f.
Proof.
  intros Hst Hexp Hext Hset.
  destruct (Hset PatientId) as (v1 & b1 & Hm1 & Ht1).
  destruct (Hset Format) as (v2 & b2 & Hm2 & Ht2). clear Hset.
  unfold merged, reported, stored in Hm1, Hm2. cbn [slot_key partial_key] in Hm1, Hm2.
  unfold _handle_initial_message. rewrite Hexp.
  unfold extraction in Hext. open_machine m. subst. run.
  rewrite llm_calls_enter, Hext. run. cbn [Py.get].
  repeat branch.
  all: tidy; settle.
  all: try discriminate.
  all: destruct f; law_leaf.
Qed.

Lemma initial_no_dict env msg m :
  is_export_request msg = false ->
  (forall d, extraction env msg m <> Ok (VDict d)) ->
  bot (snd (_handle_initial_message env msg m)) = bot m.
Proof.
  intros Hexp Hno. unfold _handle_initial_message. rewrite Hexp.
  unfold extraction in Hno. open_machine m. run.
  rewrite llm_calls_enter.
  destruct (answer env (llm_calls tr) _) as [v | e] eqn:E; run; [| reflexivity].
  destruct v; try reflexivity. exfalso. eapply Hno. reflexivity.
Qed.

Lemma initial_one_request env msg m :
  is_export_request msg = false ->
  requests_sent (trace (snd (_handle_initial_message env msg m)))
  = requests_sent (trace m) ++ [extract_request (bot m) msg].
Proof.
  intros Hexp. unfold _handle_initial_message. rewrite Hexp. open_machine m. run.
  repeat branch.
  all: rewrite <- ?app_assoc; cbn [app]; rewrite requests_sent_app; events; reflexivity.
Qed.

Lemma initial_export_requests env msg m :
  is_export_request msg = true ->
  requests_sent (trace (snd (_handle_initial_message env msg m))) = requests_sent (trace m).
Proof.
  intros Hexp. pose proof (handlers_export env msg INITIAL Hexp) as H.
  cbn [handler_of] in H. rewrite H. apply export_turn_quiet.
Qed.

Lemma merge_result_overwrite q c f :
  merge_result q c f = overwrite q (c !! partial_key f) f.
Proof. reflexivity. Qed.

Lemma json_truth v : (forall df, v <> VFrame df) -> exists b, Py.truth v = Ok b.
Proof.
  intros H. destruct v; cbn [Py.truth]; eauto. exfalso. eapply H. reflexivity.
Qed.

Lemma json_slots_settle q c :
  (forall g df, reported q g <> VFrame df) ->
  (forall g df, stored c g <> VFrame df) ->
  forall g, settles q c g.
Proof.
  intros Hq Hc g. destruct (json_truth _ (Hq g)) as [b Hb].
  unfold settles, merged. rewrite Hb. destruct b.
  - exists (reported q g), true. split; [reflexivity | exact Hb].
  - destruct (json_truth _ (Hc g)) as [b' Hb']. exists (stored c g), b'.
    split; [reflexivity | exact Hb'].
Qed.

Lemma settles_resolved q c :
  (forall g, exists b, Py.truth (reported q g) = Ok b) ->
  (forall g, resolved (stored c g)) ->
  forall g, settles q c g.
Proof.
  intros Hq Hc g. destruct (Hq g) as [b Hb]. unfold settles, merged. rewrite Hb.
  destruct b; [exists (reported q g), true | exists (stored c g), true]; split; auto.
  apply Hc.
Qed.

Ltac reqs :=
  rewrite ?requests_sent_app; cbn [requests_sent omap list_omap];
  rewrite ?app_nil_r, <- ?app_assoc; cbn [app]; reflexivity.

Ltac reentry_law f :=
  match goal with
  | H : _handle_initial_message ?e ?cq ?m1 = (_, ?m2) |- _ =>
      let Hcan := fresh "Hcan" in let Hq := fresh "Hq" in let Hb := fresh "Hb" in
      let Hnd := fresh "Hnd" in let Hlaw := fresh "Hlaw" in
      destruct (is_export_request cq) eqn:Hcan;
      [ pose proof (initial_export_requests e cq m1 Hcan) as Hq;
        pose proof (initial_export_bot e cq m1 Hcan) as Hb;
        rewrite H in Hq, Hb; cbn [snd bot trace] in Hq, Hb;
        left; split; [rewrite Hq; reqs | rewrite Hb; destruct f; law_leaf]
      | pose proof (initial_one_request e cq m1 Hcan) as Hq;
        pose proof (initial_no_dict e cq m1 Hcan) as Hnd;
        pose proof (fun q2 => initial_merge_law_any e cq m1 q2 f eq_refl Hcan) as Hlaw;
        rewrite H in Hq; cbn [snd bot trace] in Hq;
        right; eexists; split; [rewrite Hq; reqs |];
        unfold extraction in Hnd, Hlaw; cbn [trace bot] in Hnd, Hlaw;
        rewrite ?llm_calls_request, ?llm_calls_enter in Hnd, Hlaw;
        rewrite H in Hnd, Hlaw; cbn [snd bot context] in Hnd, Hlaw ]
  end.

Lemma clarification_merge_law_any env msg m q f :
  state (bot m) = NEEDS_CLARIFICATION ->
  is_export_request msg = false ->
  extraction env msg m = Ok (VDict q) ->
  (forall g, settles q (context (bot m)) g) ->
  let m' := snd (_handle_clarification env msg m) in
  let first := merge_result q (context (bot m)) f in
  let asked := extract_request (bot m) msg in
  (requests_sent (trace m') = requests_sent (trace m) ++ [asked] /\
   slot_after (bot m') f = first)
  \/ (exists again,
        requests_sent (trace m') = requests_sent (trace m) ++ [asked; again] /\
        match answer env (S (llm_calls (trace m))) again with
        | Ok (VDict q2) =>
            (forall g, exists b, Py.truth (reported q2 g) = Ok b) ->
            slot_after (bot m') f = overwrite q2 first f
        | _ => slot_after (bot m') f = first
        end).
Proof.
  intros Hst Hexp Hext Hset m' first asked. subst m' first asked.
  destruct (Hset PatientId) as (v1 & b1 & Hm1 & Ht1).
  destruct (Hset Format) as (v2 & b2 & Hm2 & Ht2). clear Hset.
  unfold merged, reported, stored in Hm1, Hm2. cbn [slot_key partial_key] in Hm1, Hm2.
  unfold _handle_clarification. rewrite Hexp.
  unfold extraction in Hext. open_machine m. subst. run.
  rewrite llm_calls_enter, Hext. run. cbn [Py.get].
  repeat branch.
  all: tidy; settle.
  all: try discriminate.
  all: try solve [left; split; [reqs | destruct f; law_leaf]].
  all: reentry_law f.
  all: match goal with
       | |- match ?a with _ => _ end =>
           destruct a as [[ | ? | ? | ? | ? | q2 | ? ] | ?] eqn:E; try rewrite E in *
       end.
  all: try solve [rewrite Hnd by (intros d; discriminate); destruct f; law_leaf].
  all: intros Hp; rewrite (Hlaw q2 eq_refl); clear Hlaw Hnd.
  all: try solve [unfold merge_result at 1, overwrite;
                  destruct (Py.truth (reported q2 f)) as [[|]|]; try reflexivity;
                  destruct f; law_leaf].
  all: intros g; destruct (Hp g) as [bq Hbq]; unfold settles, merged; rewrite Hbq;
    destruct bq;
    [ exists (reported q2 g), true; split; [reflexivity | exact Hbq]
    | destruct g; unfold stored; cbn [partial_key]; lookups; cbn [default from_option id];
      eexists _, _; (split; [reflexivity | eassumption]) ].
Qed.

(** C4, as the code has it.  Slot merging is newest-non-empty-wins,
    field by field, for each extraction.  Over any turn, a slot that
    was resolved stays resolved, as a partial entry or committed with
    the request, unless the turn is the one that wipes the context on a
    request for another patient.  In a turn from INITIAL or
    NEEDS_CLARIFICATION, whether it replies or raises, the extraction
    of the utterance leaves the slot as the extracted value when that
    value is non-empty, and as what was stored before when it is empty;
    this is for slot values that json.loads can produce, a data frame
    having no truth value.
    A turn sends a second extraction only when a clarification has
    completed the request: it is made on the synthesised request, and a
    non-empty value that it reports overwrites the value obtained from
    the utterance, while an empty one, or a failure, leaves it. *)
Theorem slot_merge_newest_nonempty_wins env msg m f :
  let m' := snd (process_message env msg m) in
  (slot_progress m m' f \/ wipe_requested env msg (heard msg m)) /\
  (forall q,
      state (bot m) = INITIAL \/ state (bot m) = NEEDS_CLARIFICATION ->
      is_export_request msg = false ->
      extraction env msg (heard msg m) = Ok (VDict q) ->
      (forall g df, reported q g <> VFrame df) ->
      (forall g df, stored (context (bot m)) g <> VFrame df) ->
      let first := merge_result q (context (bot m)) f in
      let asked := extract_request (bot (heard msg m)) msg in
      (resolved (reported q f) -> first = Some (reported q f)) /\
      (empty_slot (reported q f) -> first = context (bot m) !! partial_key f) /\
      ((requests_sent (trace m') = requests_sent (trace m) ++ [asked] /\
        slot_after (bot m') f = first)
       \/ (state (bot m) = NEEDS_CLARIFICATION /\
           exists again,
             requests_sent (trace m') = requests_sent (trace m) ++ [asked; again] /\
             match answer env (S (llm_calls (trace m))) again with
             | Ok (VDict q2) =>
                 (forall g df, reported q2 g <> VFrame df) ->
                 (resolved (reported q2 f) ->
                  slot_after (bot m') f = Some (reported q2 f)) /\
                 (empty_slot (reported q2 f) -> slot_after (bot m') f = first)
             | _ => slot_after (bot m') f = first
             end))).
Proof.
  intros m'. subst m'.
  destruct (process_message_state env msg m) as [Hps Hpc].
  destruct (heard_fields msg m) as (Hs & Hc & Hi & Ht).
  split.
  - assert (Hprog : forall mh,
               slot_progress (heard msg m) mh f ->
               state (bot mh) = state (bot (snd (process_message env msg m))) ->
               context (bot mh) = context (bot (snd (process_message env msg m))) ->
               slot_progress m (snd (process_message env msg m)) f).
    { unfold slot_progress. intros mh H H1 H2. rewrite Hc, H1, H2 in H. exact H. }
    destruct (state (bot m)) eqn:Hst; cbn [handle] in Hps, Hpc.
    + left. eapply Hprog; [apply initial_progress | |]; eauto.
    + left. eapply Hprog; [apply clarification_progress | |]; eauto.
    + destruct (data_retrieved_progress env msg (heard msg m) f) as [H | H];
        [congruence | left | right; exact H].
      eapply Hprog; [exact H | |]; eauto.
    + left. unfold slot_progress. rewrite Hpc, analysis_context, Hc. auto.
  - intros q Hst Hexp Hext Hjq Hjc first asked. subst first asked.
    assert (Hset : forall g, settles q (context (bot m)) g)
      by (apply json_slots_settle; assumption).
    split; [| split].
    { unfold merge_result, resolved. intros ->. reflexivity. }
    { unfold merge_result, empty_slot. intros ->. reflexivity. }
    assert (Hafter : slot_after (bot (snd (process_message env msg m))) f
                     = slot_after
                         (bot (snd (handle env (state (bot m)) msg (heard msg m)))) f).
    { unfold slot_after. rewrite Hps, Hpc. reflexivity. }
    rewrite Hafter, process_message_trace, <- Ht, <- Hc.
    rewrite <- Hc in Hset.
    destruct Hst as [Hst | Hst]; rewrite Hst; cbn [handle].
    + left. split.
      * apply initial_one_request, Hexp.
      * apply initial_merge_law_any; auto. congruence.
    + destruct (clarification_merge_law_any env msg (heard msg m) q f)
        as [H | (again & Hreq & Hlaw)]; auto; [congruence |].
      right. split; [reflexivity |]. exists again. split; [exact Hreq |].
      destruct (answer env (S (llm_calls (trace (heard msg m)))) again)
        as [[ | ? | ? | ? | ? | q2 | ? ] | ?]; try exact Hlaw.
      intros Hp.
      rewrite (Hlaw (fun g => json_truth _ (Hp g))).
      unfold overwrite, resolved, empty_slot.
      split; intros ->; reflexivity.
Qed.

(** ** A request for another patient *)

Lemma eq_str_eq v s : Py.eq_str v s = true -> v = VStr s.
Proof. destruct v; cbn; try discriminate. intros H. apply String.eqb_eq in H. congruence. Qed.

Lemma data_retrieved_retrieves_new env msg m v i q has_id has_fmt :
  is_export_request msg = false ->
  classification env msg m = Ok v ->
  Py.getitem v "intention" = Ok i ->
  Py.eq_str i "retrieve_new" = true ->
  extraction env msg (wiped msg m) = Ok (VDict q) ->
  Py.truth (reported q PatientId) = Ok has_id ->
  Py.truth (reported q Format) = Ok has_fmt ->
  _handle_data_retrieved env msg m
  = _handle_initial_message env msg (reextracted q msg (wiped msg m)).
Proof.
  intros Hexp Hcl Hget Hnew Hext Tid Tfmt.
  apply eq_str_eq in Hnew. subst i.
  unfold _handle_data_retrieved. rewrite Hexp.
  unfold classification, extraction, wiped, reextracted, after_merge, remember,
    reported in *.
  open_machine m. run.
  rewrite llm_calls_enter, Hcl. run. rewrite Hget. run.
  change (Py.eq_str (VStr "retrieve_new") "analyze_current") with false.
  change (Py.eq_str (VStr "retrieve_new") "retrieve_new") with true.
  run. rewrite <- !app_assoc in *. cbn [app] in *.
  cbv beta iota delta [at_state set_context bot trace patient_ids state context
                       conversation_history max_history_length] in Hext.
  rewrite Hext. run. cbn [Py.get slot_key partial_key] in *.
  rewrite Tid. run. destruct has_id; run; rewrite Tfmt; run; destruct has_fmt; run;
    rewrite <- ?app_assoc; reflexivity.
Qed.

Lemma forget_fresh_partials a b :
  delete "partial_format" (delete "partial_patient_id" (after_merge ∅ a b))
  = (∅ : gmap string value).
Proof.
  unfold after_merge, remember. cbn [partial_key].
  destruct (Py.truth a) as [[|]|], (Py.truth b) as [[|]|]; same_map.
Qed.

(** C7, as the code has it.  From DATA_RETRIEVED, when the classifier
    answers "retrieve_new", the context is emptied, the slots extracted
    again from the utterance are stored as partial entries of the empty
    context, and the INITIAL handler runs on the same utterance.  When
    that handler finds the patient id and the format resolved and the
    patient in the catalog, the turn ends in DATA_RETRIEVED with a
    context made of the new patient id, the format and the new data
    alone; the data set is stored as the rendering leaves it, which for
    the format "figure" is with its Timestamp column converted in place
    by the plot, and for any other format as it was loaded.  When no
    format is resolved, the old format being gone with the rest, the
    turn ends in NEEDS_CLARIFICATION with the format recorded as
    missing. *)
Theorem retrieve_new_replaces_context env msg m v i q1 q2 has_id has_fmt pid fmt :
  state (bot m) = DATA_RETRIEVED ->
  is_export_request msg = false ->
  classification env msg (heard msg m) = Ok v ->
  Py.getitem v "intention" = Ok i ->
  Py.eq_str i "retrieve_new" = true ->
  let m1 := wiped msg (heard msg m) in
  extraction env msg m1 = Ok (VDict q1) ->
  Py.truth (reported q1 PatientId) = Ok has_id ->
  Py.truth (reported q1 Format) = Ok has_fmt ->
  let m2 := reextracted q1 msg m1 in
  extraction env msg m2 = Ok (VDict q2) ->
  merged q2 (context (bot m2)) PatientId = Ok pid -> resolved pid ->
  merged q2 (context (bot m2)) Format = Ok fmt ->
  let m' := snd (process_message env msg m) in
  context (bot m1) = ∅ /\
  context (bot m2) = after_merge ∅ (reported q1 PatientId) (reported q1 Format) /\
  _handle_data_retrieved env msg (heard msg m) = _handle_initial_message env msg m2 /\
  (resolved fmt ->
   Py.in_strs pid (patient_ids (bot m)) = Ok true ->
   forall data, get_patient_data env pid = Ok data ->
     state (bot m') = DATA_RETRIEVED /\
     context (bot m')
     = <["patient_data" := frame_value (as_rendered fmt data)]>
         (<["format" := fmt]> (<["patient_id" := pid]> ∅)) /\
     (fmt = VStr "figure" -> as_rendered fmt data = option_map timestamps_converted data) /\
     (fmt <> VStr "figure" -> as_rendered fmt data = data)) /\
  (empty_slot fmt ->
   state (bot m') = NEEDS_CLARIFICATION /\
   context (bot m')
   = <["missing_info" := missing_value ["format"]]> (<["partial_patient_id" := pid]> ∅)).
Proof.
  intros Hst Hexp Hcl Hget Hnew m1 Hext1 Tid Tfmt m2 Hext2 Hpid Rpid Hfmt m'.
  destruct (heard_fields msg m) as (Hs & Hc & Hi & Ht).
  assert (Hre : _handle_data_retrieved env msg (heard msg m)
                = _handle_initial_message env msg m2).
  { eapply data_retrieved_retrieves_new; eauto. }
  split; [reflexivity |]. split; [reflexivity |]. split; [exact Hre |].
  destruct (process_message_state env msg m) as [Hps Hpc].
  rewrite Hst in Hps, Hpc. cbn [handle] in Hps, Hpc. rewrite Hre in Hps, Hpc.
  subst m'. rewrite Hps, Hpc. split.
  - intros Rfmt Hin data Hdata.
    assert (Hin' : Py.in_strs pid (patient_ids (bot m2)) = Ok true).
    { subst m2 m1. cbn [reextracted wiped bot patient_ids set_context at_state].
      rewrite Hi. exact Hin. }
    rewrite (initial_commits env msg m2 q2 pid fmt data
               Hexp Hext2 Hpid Rpid Hfmt Rfmt Hin' Hdata).
    cbn [snd bot at_state set_context state context]. split; [reflexivity |].
    split; [| split].
    + unfold committed. subst m2 m1.
      cbn [reextracted wiped bot context set_context at_state].
      rewrite forget_fresh_partials. reflexivity.
    + intros ->. reflexivity.
    + intros Hne. unfold as_rendered.
      destruct (Py.eq_str fmt "figure") eqn:E; [| reflexivity].
      apply eq_str_eq in E. congruence.
  - intros Efmt.
    rewrite (initial_asks env msg m2 q2 pid fmt true false
               Hexp Hext2 Hpid Rpid Hfmt Efmt eq_refl).
    cbn [snd bot at_state set_context state context negb missing_slots app].
    split; [reflexivity |]. f_equal.
    unfold after_merge at 1, remember at 1 2. rewrite Efmt, Rpid. cbn [partial_key].
    subst m2 m1. cbn [reextracted wiped bot context set_context at_state].
    unfold merged, stored in Hpid, Hfmt.
    cbn [reextracted wiped bot context set_context at_state] in Hpid, Hfmt.
    unfold after_merge, remember in *. cbn [partial_key] in *.
    rewrite Tid, Tfmt in *.
    destruct has_id, has_fmt;
      repeat match goal with
        | H : context [<[_ := _]> _ !! _] |- _ =>
            first [rewrite lookup_insert_eq in H
                  | rewrite lookup_insert_ne in H by discriminate]
        | H : context [∅ !! _] |- _ => rewrite lookup_empty in H
        end; cbn [default from_option id] in *;
      destruct (Py.truth (reported q2 PatientId)) as [[|]|],
               (Py.truth (reported q2 Format)) as [[|]|] eqn:E2;
      tidy; unfold empty_slot, resolved in *; cbn [Py.truth] in *;
      try congruence; try same_map.
Qed.

(** ** Analysis *)


Lemma analysis_answers env msg m df g range a :
  is_export_request msg = false ->
  let pid := default VNone (context (bot m) !! "patient_id") in
  default VNone (context (bot m) !! "patient_data") = VFrame df ->
  df_empty df = false ->
  resolved pid ->
  df_glucose df = Ok g ->
  df_time_range df = Ok range ->
  let req := analysis_request env (bot m) msg pid range (df_len df) g in
  llm env (llm_calls (trace m)) req = Some a ->
  _handle_analysis env msg m
  = (Ok a,
     mkMachine (at_state DATA_RETRIEVED (bot m)) (trace m ++ [EvEnter HAnalysis; EvLLM req])).
Proof.
  intros Hexp pid Hdata Hne Rpid Hg Hr req Hllm. subst pid req.
  unfold _handle_analysis. rewrite Hexp. unfold resolved in Rpid.
  open_machine m. run. rewrite Hdata. run. rewrite Hne, Rpid. run.
  rewrite Hg. run. rewrite Hr. run.
  rewrite llm_calls_enter. unfold answer at 1. rewrite Hllm.
  cbn [analysis_request output]. unfold str at 1. cbn [py_str].
  rewrite <- app_assoc. reflexivity.
Qed.


(** ** The patient id that was not found *)

Lemma not_found_turn env msg m q pid fmt :
  state (bot m) = INITIAL ->
  is_export_request msg = false ->
  extraction env msg (heard msg m) = Ok (VDict q) ->
  merged q (context (bot m)) PatientId = Ok pid -> resolved pid ->
  merged q (context (bot m)) Format = Ok fmt -> resolved fmt ->
  Py.in_strs pid (patient_ids (bot m)) = Ok false ->
  let m' := snd (process_message env msg m) in
  fst (process_message env msg m)
  = Ok (_create_patient_not_found_message (patient_ids (bot m)) (str env pid)) /\
  state (bot m') = INITIAL /\
  patient_ids (bot m') = patient_ids (bot m) /\
  context (bot m')
  = <["partial_format" := fmt]> (<["partial_patient_id" := pid]> (context (bot m))).
Proof.
  intros Hst Hexp Hext Hpid Rpid Hfmt Rfmt Hin m'.
  destruct (heard_fields msg m) as (Hs & Hc & Hi & Ht).
  assert (Hrun : handle env (state (bot m)) msg (heard msg m)
                 = (Ok (_create_patient_not_found_message (patient_ids (bot m)) (str env pid)),
                    mkMachine
                      (set_context
                         (<["partial_format" := fmt]>
                            (<["partial_patient_id" := pid]> (context (bot m))))
                         (bot (heard msg m)))
                      (trace m ++ [EvEnter HInitial;
                                   EvLLM (extract_request (bot (heard msg m)) msg)]))).
  { rewrite Hst. cbn [handle].
    rewrite (initial_not_found env msg (heard msg m) q pid fmt); rewrite ?Hc, ?Hi, ?Ht; auto. }
  apply process_message_via in Hrun. subst m'. rewrite Hrun. cbn [fst snd bot].
  match goal with |- context [update_history_bot "bot" ?r ?b] =>
    destruct (replied_fields r b) as [-> ->];
    destruct (update_history_bot_others "bot" r b) as (_ & -> & _)
  end.
  cbn [set_context state context patient_ids]. rewrite Hs, Hst, Hi. repeat split.
Qed.

(** C10.  After a turn that ended with the not-found message, the
    patient id that was not found is the stored partial patient id.  A
    following turn in INITIAL whose extraction reports no patient id
    falls back on it and ends with the not-found message for the same
    id, which stays stored.  After any following turn in INITIAL that
    replies, the patient id of the bot is the id extracted in that turn
    when it is non-empty, and the id that was not found otherwise. *)
Theorem invalid_patient_id_sticks env msg1 msg2 m q1 q2 pid fmt has_fmt2 :
  state (bot m) = INITIAL ->
  is_export_request msg1 = false ->
  extraction env msg1 (heard msg1 m) = Ok (VDict q1) ->
  merged q1 (context (bot m)) PatientId = Ok pid -> resolved pid ->
  merged q1 (context (bot m)) Format = Ok fmt -> resolved fmt ->
  Py.in_strs pid (patient_ids (bot m)) = Ok false ->
  let m1 := snd (process_message env msg1 m) in
  is_export_request msg2 = false ->
  extraction env msg2 (heard msg2 m1) = Ok (VDict q2) ->
  empty_slot (reported q2 PatientId) ->
  Py.truth (reported q2 Format) = Ok has_fmt2 ->
  let m2 := snd (process_message env msg2 m1) in
  (state (bot m1) = INITIAL /\ context (bot m1) !! "partial_patient_id" = Some pid) /\
  (fst (process_message env msg2 m1)
   = Ok (_create_patient_not_found_message (patient_ids (bot m)) (str env pid)) /\
   state (bot m2) = INITIAL /\
   context (bot m2) !! "partial_patient_id" = Some pid) /\
  (forall msg0 q0 resp0,
      is_export_request msg0 = false ->
      extraction env msg0 (heard msg0 m1) = Ok (VDict q0) ->
      fst (process_message env msg0 m1) = Ok resp0 ->
      slot_after (bot (snd (process_message env msg0 m1))) PatientId
      = match Py.truth (reported q0 PatientId) with
        | Ok true => Some (reported q0 PatientId)
        | _ => Some pid
        end).
Proof.
  intros Hst Hexp1 Hext1 Hpid Rpid Hfmt Rfmt Hin m1 Hexp2 Hext2 Eid Tfmt2 m2.
  destruct (not_found_turn env msg1 m q1 pid fmt Hst Hexp1 Hext1 Hpid Rpid Hfmt Rfmt Hin)
    as (_ & Hs1 & Hi1 & Hc1).
  fold m1 in Hs1, Hi1, Hc1.
  assert (Hp1 : context (bot m1) !! "partial_patient_id" = Some pid).
  { rewrite Hc1. rewrite lookup_insert_ne by discriminate. apply lookup_insert_eq. }
  assert (Hf1 : context (bot m1) !! "partial_format" = Some fmt).
  { rewrite Hc1. apply lookup_insert_eq. }
  split; [split; assumption |]. split.
  - assert (Hpid2 : merged q2 (context (bot m1)) PatientId = Ok pid).
    { unfold merged, stored. rewrite Eid. cbn [partial_key]. rewrite Hp1. reflexivity. }
    assert (Hfmt2 : exists fmt2, merged q2 (context (bot m1)) Format = Ok fmt2 /\ resolved fmt2).
    { unfold merged, stored. rewrite Tfmt2. cbn [partial_key]. rewrite Hf1.
      destruct has_fmt2; eauto. }
    destruct Hfmt2 as (fmt2 & Hfmt2 & Rfmt2).
    rewrite <- Hi1 in Hin.
    destruct (not_found_turn env msg2 m1 q2 pid fmt2 Hs1 Hexp2 Hext2 Hpid2 Rpid Hfmt2 Rfmt2 Hin)
      as (Hr2 & Hs2 & _ & Hc2).
    fold m2 in Hs2, Hc2. rewrite Hr2, Hi1. split; [reflexivity |]. split; [exact Hs2 |].
    rewrite Hc2. rewrite lookup_insert_ne by discriminate. apply lookup_insert_eq.
  - intros msg0 q0 resp0 Hexp0 Hext0 Hok.
    destruct (process_message_state env msg0 m1) as [Hps Hpc].
    destruct (heard_fields msg0 m1) as (Hs0 & Hc0 & _ & _).
    rewrite process_message_unfold in Hok.
    unfold slot_after. rewrite Hps, Hpc. rewrite Hs1 in *. cbn [handle] in *.
    destruct (_handle_initial_message env msg0 (heard msg0 m1)) as [[r | e] mh] eqn:Hh;
      cbn [fst snd] in *; [| discriminate].
    pose proof (initial_merge_law env msg0 (heard msg0 m1) q0 r mh PatientId
                  Hs0 Hexp0 Hext0 Hh) as Hlaw.
    unfold slot_after in Hlaw. rewrite Hlaw. unfold merge_result.
    rewrite Hc0. cbn [partial_key]. rewrite Hp1. reflexivity.
Qed.

(** ** The theorems at work on scripted sessions *)

(** C1 fails on the code: when the extraction request raises, or its
    reply is not JSON, the turn raises instead of asking for the missing
    slots, the bot stays in INITIAL with nothing recorded as missing,
    and the read loop ends without reading the next line. *)
Lemma extraction_failure_ends_session :
  let failing := Demo.env [None] in
  let garbled := Demo.env [Some "oops"] in
  let m := Demo.start Demo.catalog in
  fst (process_message failing "hello" m) = Raise APIError /\
  state (bot (snd (process_message failing "hello" m))) = INITIAL /\
  context (bot (snd (process_message failing "hello" m))) !! "missing_info" = None /\
  fst (main failing Demo.catalog ["hello"; "show patient 001"]) = (Uncaught APIError, []) /\
  fst (process_message garbled "hello" m) = Raise JSONDecodeError /\
  fst (main garbled Demo.catalog ["hello"; "show patient 001"]) = (Uncaught JSONDecodeError, []).
Proof. vm_compute. repeat split. Qed.

Lemma extraction_failure_propagates_witness :
  let e := Demo.env [None] in
  let m := Demo.start Demo.catalog in
  let e2 := Demo.env [Demo.says "002" ""] in
  let w := Demo.waiting in
  let q := Demo.fields (Demo.slots "002" "") in
  (state (bot m) = INITIAL \/ state (bot m) = NEEDS_CLARIFICATION) /\
  is_export_request "hello" = false /\
  in_list (Str.lower "hello") ["exit"; "quit"] = false /\
  no_reply_object e (llm_calls (trace m)) (extract_request (bot (heard "hello" m)) "hello")
    APIError /\
  fst (process_message e "hello" m) = Raise APIError /\
  extraction e2 "patient 002" (heard "patient 002" w) = Ok (VDict q) /\
  fst (process_message e2 "patient 002" w) = Raise APIError /\
  state (bot (snd (process_message e2 "patient 002" w))) = INITIAL /\
  context (bot (snd (process_message e2 "patient 002" w))) !! "partial_patient_id"
  = Some (VStr "002").
Proof.
  intros e m e2 w q.
  assert (H1 : state (bot m) = INITIAL \/ state (bot m) = NEEDS_CLARIFICATION)
    by (left; reflexivity).
  assert (H2 : is_export_request "hello" = false) by reflexivity.
  assert (H3 : in_list (Str.lower "hello") ["exit"; "quit"] = false) by reflexivity.
  assert (H4 : no_reply_object e (llm_calls (trace m))
                 (extract_request (bot (heard "hello" m)) "hello") APIError)
    by (left; split; reflexivity).
  destruct (extraction_failure_propagates e "hello" ["show patient 001"] m APIError
              H1 H2 H3 H4) as (Hrun & _ & _ & _ & _ & _ & Hagain).
  assert (G1 : state (bot w) = NEEDS_CLARIFICATION) by reflexivity.
  assert (G2 : is_export_request "patient 002" = false) by reflexivity.
  assert (G3 : in_list (Str.lower "patient 002") ["exit"; "quit"] = false) by reflexivity.
  assert (G4 : extraction e2 "patient 002" (heard "patient 002" w) = Ok (VDict q))
    by (vm_compute; reflexivity).
  assert (G5 : context (bot w) !! "missing_info" = Some (missing_value ["patient_id"]))
    by reflexivity.
  assert (G6 : merged q (context (bot w)) PatientId = Ok (VStr "002")) by reflexivity.
  assert (G7 : resolved (VStr "002")) by reflexivity.
  assert (G8 : merged q (context (bot w)) Format = Ok (VStr "raw")) by reflexivity.
  assert (G9 : resolved (VStr "raw")) by reflexivity.
  assert (G10 : is_export_request (complete_query e2 (VStr "raw") (VStr "002")) = false)
    by reflexivity.
  destruct (Hagain e2 "patient 002" [] w q ["patient_id"] (VStr "002") (VStr "raw") APIError
              G1 G2 G3 G4 G5 G6 G7 G8 G9 G10) as (Hrun2 & Hst2 & Hc2 & _).
  { left. split; reflexivity. }
  split; [exact H1 |]. split; [exact H2 |]. split; [exact H3 |]. split; [exact H4 |].
  split; [exact (f_equal fst Hrun) |]. split; [exact G4 |].
  rewrite Hrun2. cbn [fst snd]. split; [reflexivity |]. split; [exact Hst2 |].
  rewrite Hc2. reflexivity.
Defined.

(** C4 fails on the code when it is read turn by turn: the bot knows
    the format and waits for the patient, the utterance is extracted as
    patient 002, a non-empty value, and the request is complete.  The
    synthesised request then goes through a second extraction, which
    answers patient 001: the turn ends with patient 001 served. *)
Lemma reextraction_overrides_extracted_slot :
  let e := Demo.env [Demo.says "002" ""; Demo.says "001" "raw"] in
  let msg := "patient 002" in
  let m := Demo.waiting in
  let m' := snd (process_message e msg m) in
  state (bot m) = NEEDS_CLARIFICATION /\
  is_export_request msg = false /\
  extraction e msg (heard msg m) = Ok (VDict (Demo.fields (Demo.slots "002" ""))) /\
  default VNone (Py.assoc "patient_id" (Demo.fields (Demo.slots "002" ""))) = VStr "002" /\
  state (bot m') = DATA_RETRIEVED /\
  context (bot m') !! "patient_id" = Some (VStr "001") /\
  context (bot m') !! "partial_patient_id" = None.
Proof. vm_compute. repeat split. Qed.

Lemma slot_merge_newest_nonempty_wins_witness :
  let e := Demo.env [Demo.says "002" ""; Demo.says "001" "raw"] in
  let msg := "patient 002" in
  let m := Demo.waiting in
  let q := Demo.fields (Demo.slots "002" "") in
  let m' := snd (process_message e msg m) in
  (state (bot m) = INITIAL \/ state (bot m) = NEEDS_CLARIFICATION) /\
  is_export_request msg = false /\
  extraction e msg (heard msg m) = Ok (VDict q) /\
  (forall g df, reported q g <> VFrame df) /\
  (forall g df, stored (context (bot m)) g <> VFrame df) /\
  merge_result q (context (bot m)) PatientId = Some (VStr "002") /\
  exists again,
    requests_sent (trace m')
    = requests_sent (trace m) ++ [extract_request (bot (heard msg m)) msg; again] /\
    user_prompt again
    = get_conversation_context (bot (heard msg m)) +:+ Str.nl +:+
      "Current query: " +:+ "Get raw data for patient 002" /\
    slot_after (bot m') PatientId = Some (VStr "001").
Proof.
  intros e msg m q m'.
  assert (H1 : state (bot m) = INITIAL \/ state (bot m) = NEEDS_CLARIFICATION)
    by (right; reflexivity).
  assert (H2 : is_export_request msg = false) by reflexivity.
  assert (H3 : extraction e msg (heard msg m) = Ok (VDict q)) by (vm_compute; reflexivity).
  assert (H4 : forall g df, reported q g <> VFrame df) by (intros [|] df; discriminate).
  assert (H5 : forall g df, stored (context (bot m)) g <> VFrame df)
    by (intros [|] df; discriminate).
  destruct (slot_merge_newest_nonempty_wins e msg m PatientId) as (_ & Hlaw).
  destruct (Hlaw q H1 H2 H3 H4 H5)
    as (Hfirst & _ & [(Hone & _) | (_ & again & Hreq & Hsecond)]).
  - exfalso. vm_compute in Hone. discriminate Hone.
  - split; [exact H1 |]. split; [exact H2 |]. split; [exact H3 |]. split; [exact H4 |].
    split; [exact H5 |].
    split; [apply Hfirst; reflexivity |].
    exists again. split; [exact Hreq |].
    assert (Hagain : again
                     = extract_request
                         (bot (mkMachine
                                 (at_state INITIAL
                                    (set_context
                                       (<["partial_format" := VStr "raw"]>
                                          (<["partial_patient_id" := VStr "002"]>
                                             (context (bot m))))
                                       (bot (heard msg m))))
                                 []))
                         "Get raw data for patient 002").
    { vm_compute in Hreq. injection Hreq as <-. reflexivity. }
    rewrite Hagain in Hsecond |- *. split; [reflexivity |].
    assert (Hans : answer e (S (llm_calls (trace m)))
                     (extract_request
                        (bot (mkMachine
                                (at_state INITIAL
                                   (set_context
                                      (<["partial_format" := VStr "raw"]>
                                         (<["partial_patient_id" := VStr "002"]>
                                            (context (bot m))))
                                      (bot (heard msg m))))
                                []))
                        "Get raw data for patient 002")
                   = Ok (VDict (Demo.fields (Demo.slots "001" "raw"))))
      by (vm_compute; reflexivity).
    rewrite Hans in Hsecond.
    apply Hsecond; [| reflexivity].
    intros [|] df; discriminate.
Defined.

Lemma clarification_narrows_missing_witness :
  let e := Demo.env [Demo.says "" ""; Demo.says "" "raw"] in
  let m := Demo.start Demo.catalog in
  let q1 := Demo.fields [("patient_id", ""); ("format", "")] in
  let q2 := Demo.fields [("patient_id", ""); ("format", "raw")] in
  let m1 := snd (process_message e "hello" m) in
  let m2 := snd (process_message e "the raw data" m1) in
  state (bot m) = INITIAL /\
  (forall f, empty_slot (stored (context (bot m)) f)) /\
  is_export_request "hello" = false /\
  extraction e "hello" (heard "hello" m) = Ok (VDict q1) /\
  (forall f, empty_slot (reported q1 f)) /\
  is_export_request "the raw data" = false /\
  extraction e "the raw data" (heard "the raw data" m1) = Ok (VDict q2) /\
  empty_slot (reported q2 PatientId) /\
  resolved (reported q2 Format) /\
  state (bot m2) = NEEDS_CLARIFICATION /\
  context (bot m2) !! "missing_info" = Some (missing_value ["patient_id"]).
Proof.
  intros e m q1 q2 m1 m2.
  assert (H1 : state (bot m) = INITIAL) by reflexivity.
  assert (H2 : forall f, empty_slot (stored (context (bot m)) f))
    by (intros [|]; reflexivity).
  assert (H3 : is_export_request "hello" = false) by reflexivity.
  assert (H4 : extraction e "hello" (heard "hello" m) = Ok (VDict q1))
    by (vm_compute; reflexivity).
  assert (H5 : forall f, empty_slot (reported q1 f)) by (intros [|]; reflexivity).
  assert (H6 : is_export_request "the raw data" = false) by reflexivity.
  assert (H7 : extraction e "the raw data" (heard "the raw data" m1) = Ok (VDict q2))
    by (vm_compute; reflexivity).
  assert (H8 : empty_slot (reported q2 PatientId)) by reflexivity.
  assert (H9 : resolved (reported q2 Format)) by reflexivity.
  destruct (clarification_narrows_missing e "hello" "the raw data" m q1 q2
              H1 H2 H3 H4 H5 H6 H7 H8 H9) as (_ & (Hs & Hm & _) & _).
  exact (conj H1 (conj H2 (conj H3 (conj H4 (conj H5 (conj H6 (conj H7 (conj H8
           (conj H9 (conj Hs Hm)))))))))).
Defined.

Lemma unknown_patient_stays_initial_witness :
  let e := Demo.env [Demo.says "999" "raw"] in
  let m := Demo.start Demo.big_catalog in
  let q := Demo.fields [("patient_id", "999"); ("format", "raw")] in
  let msg := "raw data of patient 999" in
  state (bot m) = INITIAL /\
  is_export_request msg = false /\
  extraction e msg (heard msg m) = Ok (VDict q) /\
  merged q (context (bot m)) PatientId = Ok (VStr "999") /\ resolved (VStr "999") /\
  merged q (context (bot m)) Format = Ok (VStr "raw") /\ resolved (VStr "raw") /\
  Py.in_strs (VStr "999") (patient_ids (bot m)) = Ok false /\
  state (bot (snd (process_message e msg m))) = INITIAL /\
  fst (process_message e msg m)
  = Ok "
I'm sorry, but I couldn't find data for patient 999. 
Available patient IDs are: 001, 002, 003, 004, 005, 006, 007, 008, 009, 010.
Please specify a valid patient ID.


Please provide another patient ID from the list above. For example: 'Show me data for patient 015'

Note: I've shown only the first 10 patient IDs. There are 12 patients available in total.".
Proof.
  intros e m q msg.
  assert (H1 : state (bot m) = INITIAL) by reflexivity.
  assert (H2 : is_export_request msg = false) by reflexivity.
  assert (H3 : extraction e msg (heard msg m) = Ok (VDict q)) by (vm_compute; reflexivity).
  assert (H4 : merged q (context (bot m)) PatientId = Ok (VStr "999")) by reflexivity.
  assert (H5 : resolved (VStr "999")) by reflexivity.
  assert (H6 : merged q (context (bot m)) Format = Ok (VStr "raw")) by reflexivity.
  assert (H7 : resolved (VStr "raw")) by reflexivity.
  assert (H8 : Py.in_strs (VStr "999") (patient_ids (bot m)) = Ok false) by reflexivity.
  destruct (unknown_patient_stays_initial e msg m q (VStr "999") (VStr "raw")
              H1 H2 H3 H4 H5 H6 H7 H8) as (Hr & _ & _ & _ & Hs & _).
  exact (conj H1 (conj H2 (conj H3 (conj H4 (conj H5 (conj H6 (conj H7 (conj H8
           (conj Hs Hr))))))))).
Defined.

(** C7 fails on the code: after the raw data of patient 001, an
    utterance that names the catalogued patient 002 and no format is
    classified as "retrieve_new" and ends in NEEDS_CLARIFICATION, the
    format having been wiped with the rest of the context. *)
Lemma retrieve_new_without_format_asks :
  let e := Demo.env [Demo.intends "retrieve_new"; Demo.says "002" ""; Demo.says "002" ""] in
  let m' := snd (process_message e "now patient 002" Demo.served) in
  state (bot Demo.served) = DATA_RETRIEVED /\
  classification e "now patient 002" (heard "now patient 002" Demo.served)
  = Ok (Demo.obj (Demo.intent "retrieve_new")) /\
  In "002" (patient_ids (bot Demo.served)) /\
  state (bot m') = NEEDS_CLARIFICATION /\
  state (bot m') <> DATA_RETRIEVED /\
  context (bot m') !! "patient_id" = None /\
  context (bot m') !! "missing_info" = Some (missing_value ["format"]).
Proof. vm_compute. repeat split; auto; discriminate. Qed.

Lemma retrieve_new_replaces_context_witness :
  let e := Demo.local_env [Demo.intends "retrieve_new"; Demo.says "002" "figure";
                           Demo.says "002" "figure"] in
  let m := Demo.served in
  let msg := "a figure for patient 002" in
  let q := Demo.fields [("patient_id", "002"); ("format", "figure")] in
  let m1 := wiped msg (heard msg m) in
  let m2 := reextracted q msg m1 in
  let m' := snd (process_message e msg m) in
  state (bot m) = DATA_RETRIEVED /\
  is_export_request msg = false /\
  classification e msg (heard msg m) = Ok (Demo.obj (Demo.intent "retrieve_new")) /\
  Py.getitem (Demo.obj (Demo.intent "retrieve_new")) "intention" = Ok (VStr "retrieve_new") /\
  Py.eq_str (VStr "retrieve_new") "retrieve_new" = true /\
  extraction e msg m1 = Ok (VDict q) /\
  Py.truth (reported q PatientId) = Ok true /\
  Py.truth (reported q Format) = Ok true /\
  extraction e msg m2 = Ok (VDict q) /\
  merged q (context (bot m2)) PatientId = Ok (VStr "002") /\ resolved (VStr "002") /\
  merged q (context (bot m2)) Format = Ok (VStr "figure") /\
  get_patient_data e (VStr "002") = Ok (Some Demo.local_frame) /\
  df_time_range Demo.local_frame = Ok ("5/1/2020 10:30", "5/1/2020 10:40") /\
  state (bot m') = DATA_RETRIEVED /\
  context (bot m')
  = <["patient_data" := VFrame (timestamps_converted Demo.local_frame)]>
      (<["format" := VStr "figure"]> (<["patient_id" := VStr "002"]> ∅)) /\
  df_time_range (timestamps_converted Demo.local_frame)
  = Ok ("2020-05-01 10:30:00", "2020-05-01 10:40:00").
Proof.
  intros e m msg q m1 m2 m'.
  assert (H1 : state (bot m) = DATA_RETRIEVED) by reflexivity.
  assert (H2 : is_export_request msg = false) by reflexivity.
  assert (H3 : classification e msg (heard msg m)
               = Ok (Demo.obj (Demo.intent "retrieve_new"))) by (vm_compute; reflexivity).
  assert (H4 : Py.getitem (Demo.obj (Demo.intent "retrieve_new")) "intention"
               = Ok (VStr "retrieve_new")) by reflexivity.
  assert (H5 : Py.eq_str (VStr "retrieve_new") "retrieve_new" = true) by reflexivity.
  assert (H6 : extraction e msg m1 = Ok (VDict q)) by (vm_compute; reflexivity).
  assert (H7 : Py.truth (reported q PatientId) = Ok true) by reflexivity.
  assert (H8 : Py.truth (reported q Format) = Ok true) by reflexivity.
  assert (H9 : extraction e msg m2 = Ok (VDict q)) by (vm_compute; reflexivity).
  assert (H10 : merged q (context (bot m2)) PatientId = Ok (VStr "002")) by reflexivity.
  assert (H11 : resolved (VStr "002")) by reflexivity.
  assert (H12 : merged q (context (bot m2)) Format = Ok (VStr "figure")) by reflexivity.
  assert (H13 : get_patient_data e (VStr "002") = Ok (Some Demo.local_frame))
    by reflexivity.
  assert (H14 : df_time_range Demo.local_frame = Ok ("5/1/2020 10:30", "5/1/2020 10:40"))
    by reflexivity.
  destruct (retrieve_new_replaces_context e msg m _ _ q q true true _ _
              H1 H2 H3 H4 H5 H6 H7 H8 H9 H10 H11 H12) as (_ & _ & _ & Hdone & _).
  destruct (Hdone eq_refl eq_refl (Some Demo.local_frame) H13) as (Hs & Hc & Hfig & _).
  rewrite (Hfig eq_refl) in Hc.
  exact (conj H1 (conj H2 (conj H3 (conj H4 (conj H5 (conj H6 (conj H7 (conj H8
           (conj H9 (conj H10 (conj H11 (conj H12 (conj H13 (conj H14
           (conj Hs (conj Hc eq_refl)))))))))))))))).
Defined.

Lemma clarification_reenters_initial_once_witness :
  let e := Demo.env [Demo.says "002" ""; Demo.says "002" "raw"] in
  let m := Demo.waiting in
  let msg := "patient 002" in
  let q := Demo.fields [("patient_id", "002"); ("format", "")] in
  let m' := snd (process_message e msg m) in
  state (bot m) = NEEDS_CLARIFICATION /\
  is_export_request msg = false /\
  extraction e msg (heard msg m) = Ok (VDict q) /\
  context (bot m) !! "missing_info" = Some (missing_value ["patient_id"]) /\
  merged q (context (bot m)) PatientId = Ok (VStr "002") /\ resolved (VStr "002") /\
  merged q (context (bot m)) Format = Ok (VStr "raw") /\ resolved (VStr "raw") /\
  complete_query e (VStr "raw") (VStr "002") = "Get raw data for patient 002" /\
  state (bot m') <> NEEDS_CLARIFICATION /\
  handlers_entered (trace m') = [HClarification; HInitial].
Proof.
  intros e m msg q m'.
  assert (H1 : state (bot m) = NEEDS_CLARIFICATION) by reflexivity.
  assert (H2 : is_export_request msg = false) by reflexivity.
  assert (H3 : extraction e msg (heard msg m) = Ok (VDict q)) by (vm_compute; reflexivity).
  assert (H4 : context (bot m) !! "missing_info" = Some (missing_value ["patient_id"]))
    by reflexivity.
  assert (H5 : merged q (context (bot m)) PatientId = Ok (VStr "002")) by reflexivity.
  assert (H6 : resolved (VStr "002")) by reflexivity.
  assert (H7 : merged q (context (bot m)) Format = Ok (VStr "raw")) by reflexivity.
  assert (H8 : resolved (VStr "raw")) by reflexivity.
  destruct (clarification_reenters_initial_once e msg m q ["patient_id"] _ _
              H1 H2 H3 H4 H5 H6 H7 H8) as (_ & Hq & (l & Hl & Hh & _) & Hs & _).
  assert (Hh' : handlers_entered (trace m') = [HClarification; HInitial]).
  { fold m' in Hl. rewrite Hl, handlers_entered_app. exact Hh. }
  exact (conj H1 (conj H2 (conj H3 (conj H4 (conj H5 (conj H6 (conj H7 (conj H8
           (conj Hq (conj Hs Hh')))))))))).
Defined.


Lemma invalid_patient_id_sticks_witness :
  let e := Demo.env [Demo.says "999" "raw"; Demo.says "" "figure"] in
  let m := Demo.start Demo.catalog in
  let msg1 := "raw data of patient 999" in
  let msg2 := "rather a figure" in
  let q1 := Demo.fields [("patient_id", "999"); ("format", "raw")] in
  let q2 := Demo.fields [("patient_id", ""); ("format", "figure")] in
  let m1 := snd (process_message e msg1 m) in
  let m2 := snd (process_message e msg2 m1) in
  state (bot m) = INITIAL /\
  is_export_request msg1 = false /\
  extraction e msg1 (heard msg1 m) = Ok (VDict q1) /\
  merged q1 (context (bot m)) PatientId = Ok (VStr "999") /\ resolved (VStr "999") /\
  merged q1 (context (bot m)) Format = Ok (VStr "raw") /\ resolved (VStr "raw") /\
  Py.in_strs (VStr "999") (patient_ids (bot m)) = Ok false /\
  is_export_request msg2 = false /\
  extraction e msg2 (heard msg2 m1) = Ok (VDict q2) /\
  empty_slot (reported q2 PatientId) /\
  Py.truth (reported q2 Format) = Ok true /\
  fst (process_message e msg2 m1)
  = Ok (_create_patient_not_found_message Demo.catalog "999") /\
  context (bot m2) !! "partial_patient_id" = Some (VStr "999").
Proof.
  intros e m msg1 msg2 q1 q2 m1 m2.
  assert (H1 : state (bot m) = INITIAL) by reflexivity.
  assert (H2 : is_export_request msg1 = false) by reflexivity.
  assert (H3 : extraction e msg1 (heard msg1 m) = Ok (VDict q1)) by (vm_compute; reflexivity).
  assert (H4 : merged q1 (context (bot m)) PatientId = Ok (VStr "999")) by reflexivity.
  assert (H5 : resolved (VStr "999")) by reflexivity.
  assert (H6 : merged q1 (context (bot m)) Format = Ok (VStr "raw")) by reflexivity.
  assert (H7 : resolved (VStr "raw")) by reflexivity.
  assert (H8 : Py.in_strs (VStr "999") (patient_ids (bot m)) = Ok false) by reflexivity.
  assert (H9 : is_export_request msg2 = false) by reflexivity.
  assert (H10 : extraction e msg2 (heard msg2 m1) = Ok (VDict q2))
    by (vm_compute; reflexivity).
  assert (H11 : empty_slot (reported q2 PatientId)) by reflexivity.
  assert (H12 : Py.truth (reported q2 Format) = Ok true) by reflexivity.
  destruct (invalid_patient_id_sticks e msg1 msg2 m q1 q2 _ _ true
              H1 H2 H3 H4 H5 H6 H7 H8 H9 H10 H11 H12) as (_ & (Hr & _ & Hp) & _).
  exact (conj H1 (conj H2 (conj H3 (conj H4 (conj H5 (conj H6 (conj H7 (conj H8
           (conj H9 (conj H10 (conj H11 (conj H12 (conj Hr Hp))))))))))))).
Defined.

(** * Further properties *)

(** ** The state machine of [state_machine.py] *)


Lemma clashes_false kwargs :
  (kwargs !! "self" = None /\ kwargs !! "new_state" = None) ->
  StateMachine.clashes kwargs = false.
Proof.
  intros [H1 H2]. unfold StateMachine.clashes, StateMachine.parameter_names.
  cbn [existsb]. rewrite H1, H2.
  rewrite !bool_decide_eq_false_2 by (intros [? ?]; discriminate). reflexivity.
Qed.

Lemma clashes_true kwargs :
  is_Some (kwargs !! "self") \/ is_Some (kwargs !! "new_state") ->
  StateMachine.clashes kwargs = true.
Proof.
  intros H. unfold StateMachine.clashes, StateMachine.parameter_names. cbn [existsb].
  destruct H as [H | H]; rewrite (bool_decide_eq_true_2 _ H);
    rewrite ?orb_true_r; reflexivity.
Qed.



(** Every other transition that Python accepts, to a state other than
    INITIAL or to INITIAL from CLARIFICATION_NEEDED or RETRIEVING_NEW,
    removes nothing: the context is the old one updated with the passed
    values.  With a keyword named "self" or "new_state" the call raises
    [TypeError] and neither the state nor the context changes. *)
Theorem transition_to_keeps new_state kwargs sm :
  new_state <> StateMachine.INITIAL \/
  StateMachine.state_in (StateMachine.current_state sm)
    [StateMachine.CLARIFICATION_NEEDED; StateMachine.RETRIEVING_NEW] = true ->
  (kwargs !! "self" = None -> kwargs !! "new_state" = None ->
   exists sm',
     StateMachine.transition_to new_state kwargs sm = (Ok tt, sm') /\
     StateMachine.current_state sm' = new_state /\
     StateMachine.context sm' = kwargs ∪ StateMachine.context sm /\
     (forall k v, kwargs !! k = Some v -> StateMachine.context sm' !! k = Some v) /\
     (forall k, kwargs !! k = None ->
                StateMachine.context sm' !! k = StateMachine.context sm !! k)) /\
  (is_Some (kwargs !! "self") \/ is_Some (kwargs !! "new_state") ->
   StateMachine.transition_to new_state kwargs sm = (Raise TypeError, sm)).
Proof.
  intros H. split.
  - intros Hself Hnew. unfold StateMachine.transition_to.
    rewrite (clashes_false kwargs (conj Hself Hnew)).
    assert (Hc : StateMachine.state_eqb new_state StateMachine.INITIAL
                 && negb (StateMachine.state_in (StateMachine.current_state sm)
                            [StateMachine.CLARIFICATION_NEEDED; StateMachine.RETRIEVING_NEW])
                 = false).
    { destruct H as [H | H].
      - destruct new_state; try reflexivity. congruence.
      - rewrite H. apply andb_false_r. }
    rewrite Hc. eexists. split; [reflexivity |].
    cbn [StateMachine.current_state StateMachine.context].
    split; [reflexivity |]. split; [reflexivity |]. split.
    + intros k v Hk. rewrite lookup_union, Hk.
      destruct (StateMachine.context sm !! k); reflexivity.
    + intros k Hk. rewrite lookup_union, Hk.
      destruct (StateMachine.context sm !! k); reflexivity.
  - intros Hclash. unfold StateMachine.transition_to.
    rewrite (clashes_true kwargs Hclash). reflexivity.
Qed.

Lemma transition_to_keeps_witness :
  let sm := StateMachine.mkStateMachine StateMachine.CLARIFICATION_NEEDED
              (<["partial_format" := VStr "raw"]> ∅) in
  let clash : gmap string value := <["new_state" := VStr "INITIAL"]> ∅ in
  (StateMachine.INITIAL <> StateMachine.INITIAL \/
   StateMachine.state_in (StateMachine.current_state sm)
     [StateMachine.CLARIFICATION_NEEDED; StateMachine.RETRIEVING_NEW] = true) /\
  (exists sm',
     StateMachine.transition_to StateMachine.INITIAL ∅ sm = (Ok tt, sm') /\
     StateMachine.context sm' !! "partial_format" = Some (VStr "raw")) /\
  StateMachine.transition_to StateMachine.INITIAL clash sm = (Raise TypeError, sm).
Proof.
  intros sm clash.
  assert (H : StateMachine.INITIAL <> StateMachine.INITIAL \/
              StateMachine.state_in (StateMachine.current_state sm)
                [StateMachine.CLARIFICATION_NEEDED; StateMachine.RETRIEVING_NEW] = true)
    by (right; reflexivity).
  destruct (transition_to_keeps StateMachine.INITIAL ∅ sm H) as (Hok & _).
  destruct (Hok eq_refl eq_refl) as (sm' & Hrun & _ & _ & _ & Hsame).
  destruct (transition_to_keeps StateMachine.INITIAL clash sm H) as (_ & Hbad).
  split; [exact H |]. split.
  - exists sm'. split; [exact Hrun |]. rewrite Hsame; reflexivity.
  - apply Hbad. right. exists (VStr "INITIAL"). reflexivity.
Defined.


(** [set_context] then [get_context] gives the value back, whatever
    the default, and touches no other key; a key that is absent reads
    as the default. *)
Theorem set_get_context k v d sm :
  StateMachine.get_context k d (StateMachine.set_context k v sm) = v /\
  (forall k' d', k' <> k ->
     StateMachine.get_context k' d' (StateMachine.set_context k v sm)
     = StateMachine.get_context k' d' sm) /\
  (forall k', StateMachine.context sm !! k' = None -> StateMachine.get_context k' d sm = d) /\
  StateMachine.current_state (StateMachine.set_context k v sm) = StateMachine.current_state sm.
Proof.
  unfold StateMachine.get_context, StateMachine.set_context.
  cbn [StateMachine.context StateMachine.current_state].
  split; [rewrite lookup_insert_eq; reflexivity |]. split.
  - intros k' d' Hne. rewrite lookup_insert_ne by congruence. reflexivity.
  - split; [| reflexivity]. intros k' ->. reflexivity.
Qed.

(** ** The data folder of [data_utils.py] *)

Lemma append_cancel_left (p a b : string) : p +:+ a = p +:+ b -> a = b.
Proof.
  induction p as [|c p IH]; simpl; [trivial |]. intros [= H]. apply IH, H.
Qed.

Lemma split_cons sep s : exists h t, DataUtils.split sep s = h :: t.
Proof.
  induction s as [|c s (h & t & IH)]; simpl; [eauto |].
  destruct (Ascii.eqb c sep); [eauto |]. rewrite IH. eauto.
Qed.

Lemma second_component_prefixed r :
  DataUtils.second_component ("CGMacros-" +:+ r)
  = Ok (hd "" (DataUtils.split DataUtils.dash r)).
Proof.
  unfold DataUtils.second_component.
  destruct (split_cons DataUtils.dash r) as (h & t & E).
  change (DataUtils.split DataUtils.dash ("CGMacros-" +:+ r))
    with ("CGMacros" :: DataUtils.split DataUtils.dash r).
  rewrite E. reflexivity.
Qed.

(** The first component of a split: the text before the first
    separator, or all of it when there is none. *)
Lemma split_head r x :
  hd "" (DataUtils.split DataUtils.dash r) = x <->
  Str.contains "-" x = false /\ (r = x \/ exists rest, r = x +:+ "-" +:+ rest).
Proof.
  change DataUtils.dash with "-"%char.
  revert x. induction r as [|c r IH]; intros x.
  - simpl. split.
    + intros <-. split; [reflexivity | left; reflexivity].
    + intros [_ [<- | [rest H]]]; [reflexivity |].
      destruct x; discriminate.
  - cbn [DataUtils.split]. destruct (Ascii.eqb_spec c "-"%char) as [-> | Hc].
    + cbn [hd]. split.
      * intros <-. split; [reflexivity |]. right. exists r. reflexivity.
      * intros [Hx [<- | [rest H]]].
        -- discriminate.
        -- destruct x as [|a x]; [reflexivity |]. simpl in H. injection H as <- _.
           discriminate.
    + destruct (split_cons "-"%char r) as (h & t & E).
      pose proof (IH h) as IHh. rewrite E in *. cbn [hd] in *.
      assert (Hcd : Ascii.eqb "-" c = false).
      { apply Ascii.eqb_neq. intros <-. apply Hc. reflexivity. }
      split.
      * intros <-. destruct IHh as [[Hh Hr] _]; [reflexivity |].
        split.
        -- cbn [Str.contains Str.startswith]. rewrite Hcd. exact Hh.
        -- destruct Hr as [-> | [rest ->]]; [left; reflexivity |].
           right. exists rest. reflexivity.
      * intros [Hx Hr]. destruct x as [|a x].
        -- destruct Hr as [H | [rest H]]; [discriminate |].
           simpl in H. injection H as -> _. exfalso. apply Hc. reflexivity.
        -- assert (a = c /\ (r = x \/ exists rest, r = x +:+ "-" +:+ rest)) as [-> Hr'].
           { destruct Hr as [H | [rest H]].
             - injection H as -> ->. split; [reflexivity | left; reflexivity].
             - simpl in H. injection H as -> ->. split; [reflexivity |].
               right. exists rest. reflexivity. }
           f_equal. apply (IH x). split; [| exact Hr'].
           cbn [Str.contains Str.startswith] in Hx. rewrite Hcd in Hx. exact Hx.
Qed.

Lemma collect_patient_ids_ok listing :
  exists found, DataUtils.collect_patient_ids listing = Ok found /\
    forall x, In x found <->
      exists r, In ("CGMacros-" +:+ r, true) listing /\
                hd "" (DataUtils.split DataUtils.dash r) = x.
Proof.
  induction listing as [|[item is_dir] rest (found & IH & Hin)].
  - exists []. split; [reflexivity |]. intros x. split; [intros [] | intros (r & [] & _)].
  - cbn [DataUtils.collect_patient_ids].
    destruct (is_dir && Str.startswith "CGMacros-" item) eqn:Hg.
    + apply andb_true_iff in Hg as [-> Hp].
      apply startswith_spec in Hp as [r ->].
      rewrite second_component_prefixed, IH.
      eexists. split; [reflexivity |]. intros x. split.
      * intros [<- | Hx].
        -- exists r. split; [left; reflexivity | reflexivity].
        -- apply Hin in Hx as (r' & Hr' & Hx). exists r'. split; [right; exact Hr' | exact Hx].
      * intros (r' & [Heq | Hr'] & Hx).
        -- injection Heq as Heq. apply append_cancel_left in Heq. subst r'.
           left. exact Hx.
        -- right. apply Hin. eauto.
    + exists found. split; [exact IH |]. intros x. rewrite Hin. split.
      * intros (r & Hr & Hx). exists r. split; [right; exact Hr | exact Hx].
      * intros (r & [Heq | Hr] & Hx); [| eauto].
        injection Heq as -> ->. simpl in Hg.
        assert (Str.startswith "CGMacros-" ("CGMacros-" +:+ r) = true) as Hs
          by (apply startswith_spec; eauto).
        simpl in Hs. congruence.
Qed.

Lemma insert_sorted_In x y l : In y (DataUtils.insert_sorted x l) <-> y = x \/ In y l.
Proof.
  induction l as [|z l IH]; simpl.
  - intuition.
  - destruct (String.leb x z); simpl; [intuition | rewrite IH; intuition].
Qed.

Lemma sorted_In y l : In y (DataUtils.sorted l) <-> In y l.
Proof.
  induction l as [|x l IH]; simpl; [tauto |].
  rewrite insert_sorted_In, IH. intuition.
Qed.

Lemma insert_sorted_Permutation x l : Permutation (x :: l) (DataUtils.insert_sorted x l).
Proof.
  induction l as [|z l IH]; simpl; [reflexivity |].
  destruct (String.leb x z); [reflexivity |].
  rewrite perm_swap. constructor. exact IH.
Qed.

Lemma sorted_Permutation l : Permutation l (DataUtils.sorted l).
Proof.
  induction l as [|x l IH]; simpl; [reflexivity |].
  rewrite <- insert_sorted_Permutation. constructor. exact IH.
Qed.

Lemma insert_sorted_Sorted x l :
  Sorted (fun a b => String.leb a b = true) l ->
  Sorted (fun a b => String.leb a b = true) (DataUtils.insert_sorted x l).
Proof.
  induction 1 as [|z l Hs IH Hhd]; simpl.
  - repeat constructor.
  - destruct (String.leb x z) eqn:E.
    + constructor; [constructor; assumption | constructor; exact E].
    + constructor; [exact IH |].
      assert (Hzx : String.leb z x = true).
      { destruct (String.leb_total x z) as [H | H]; congruence. }
      destruct Hhd as [|w l Hzw]; simpl.
      * constructor. exact Hzx.
      * destruct (String.leb x w); constructor; assumption.
Qed.

Lemma sorted_Sorted l : Sorted (fun a b => String.leb a b = true) (DataUtils.sorted l).
Proof.
  induction l as [|x l IH]; simpl; [constructor |].
  apply insert_sorted_Sorted, IH.
Qed.

(** [get_available_patient_ids] raises what [os.listdir] raises on the
    data folder, and nothing else: once the folder has been listed, the
    prefix "CGMacros-" guarantees [split("-")[1]].  An identifier is
    then listed exactly when some directory is named "CGMacros-"
    followed by that identifier, alone or continued by a dash and
    anything; the identifier itself has no dash.  Files, and entries
    with another prefix, add nothing. *)
Theorem get_available_patient_ids_lists_folders listdir :
  (forall e, listdir = Raise e -> DataUtils.get_available_patient_ids listdir = Raise e) /\
  (forall listing, listdir = Ok listing ->
     exists ids, DataUtils.get_available_patient_ids listdir = Ok ids /\
       forall x, In x ids <->
         exists r, In ("CGMacros-" +:+ r, true) listing /\
                   Str.contains "-" x = false /\
                   (r = x \/ exists rest, r = x +:+ "-" +:+ rest)).
Proof.
  split; [intros e ->; reflexivity |]. intros listing ->.
  unfold DataUtils.get_available_patient_ids.
  destruct (collect_patient_ids_ok listing) as (found & -> & Hin).
  eexists. split; [reflexivity |]. intros x.
  rewrite sorted_In, Hin. split.
  - intros (r & Hr & Hx). exists r. split; [exact Hr |]. apply split_head, Hx.
  - intros (r & Hr & Hx). exists r. split; [exact Hr |]. apply split_head, Hx.
Qed.

(** The identifiers come back in ascending order, and sorting neither
    drops nor repeats one: two folders with the same identifier are
    listed twice. *)
Theorem get_available_patient_ids_sorted listdir ids :
  DataUtils.get_available_patient_ids listdir = Ok ids ->
  exists listing,
    listdir = Ok listing /\
    Sorted (fun a b => String.leb a b = true) ids /\
    exists found, DataUtils.collect_patient_ids listing = Ok found /\
                  Permutation found ids /\
                  length ids
                  = length (List.filter (fun e : DataUtils.DirEntry =>
                                      snd e && Str.startswith "CGMacros-" (fst e)) listing).
Proof.
  unfold DataUtils.get_available_patient_ids.
  destruct listdir as [listing | e]; [| discriminate].
  destruct (DataUtils.collect_patient_ids listing) as [found |] eqn:E; [| discriminate].
  intros [= <-]. exists listing. split; [reflexivity |]. split; [apply sorted_Sorted |].
  exists found. split; [exact E |]. split; [apply sorted_Permutation |].
  rewrite <- (Permutation_length (sorted_Permutation found)).
  revert found E. induction listing as [|[item is_dir] rest IH]; intros found E.
  - injection E as <-. reflexivity.
  - cbn [DataUtils.collect_patient_ids] in E. cbn [List.filter fst snd].
    destruct (is_dir && Str.startswith "CGMacros-" item).
    + destruct (DataUtils.second_component item); [| discriminate].
      destruct (DataUtils.collect_patient_ids rest) as [ids |]; [| discriminate].
      injection E as <-. cbn [length]. f_equal. apply IH. reflexivity.
    + apply IH, E.
Qed.

Lemma get_available_patient_ids_sorted_witness :
  let listing := [("CGMacros-002", true); ("notes.txt", false);
                  ("CGMacros-001", true); ("CGMacros-009", false)] in
  DataUtils.get_available_patient_ids (Ok listing) = Ok ["001"; "002"] /\
  Sorted (fun a b => String.leb a b = true) ["001"; "002"].
Proof.
  intros listing.
  assert (H : DataUtils.get_available_patient_ids (Ok listing) = Ok ["001"; "002"])
    by reflexivity.
  destruct (get_available_patient_ids_sorted (Ok listing) _ H) as (l & _ & Hs & _).
  exact (conj H Hs).
Defined.

(** A folder is catalogued under the text between its first and its
    second dash, but looked up under "CGMacros-" followed by the
    identifier: the two agree exactly when the folder's name has no
    second dash. *)
Theorem patient_folder_round_trip r x :
  DataUtils.second_component ("CGMacros-" +:+ r) = Ok x ->
  (DataUtils.patient_folder x = "CGMacros-" +:+ r <-> Str.contains "-" r = false).
Proof.
  rewrite second_component_prefixed. intros [= Hx].
  apply split_head in Hx as [Hx Hr]. unfold DataUtils.patient_folder. split.
  - intros H. apply append_cancel_left in H. subst r. exact Hx.
  - intros Hn. destruct Hr as [-> | [rest ->]]; [reflexivity |].
    exfalso. assert (Str.contains "-" (x +:+ "-" +:+ rest) = true) as Hc
      by (apply contains_spec; eauto).
    congruence.
Qed.

Lemma patient_folder_round_trip_witness :
  DataUtils.second_component ("CGMacros-" +:+ "001-backup") = Ok "001" /\
  (DataUtils.patient_folder "001" = "CGMacros-" +:+ "001-backup" <->
   Str.contains "-" "001-backup" = false).
Proof.
  assert (H : DataUtils.second_component ("CGMacros-" +:+ "001-backup") = Ok "001")
    by reflexivity.
  exact (conj H (patient_folder_round_trip "001-backup" "001" H)).
Defined.

Lemma length_append (a b : string) :
  String.length (a +:+ b) = (String.length a + String.length b)%nat.
Proof.
  induction a as [|c a IH]; [reflexivity |].
  change (S (String.length (a +:+ b)) = S (String.length a + String.length b)).
  rewrite IH. reflexivity.
Qed.

Lemma substring_all (s : string) : String.substring 0 (String.length s) s = s.
Proof. induction s as [|c s IH]; simpl; [reflexivity | rewrite IH; reflexivity]. Qed.

Lemma substring_skip (a b : string) (n : nat) :
  String.substring (String.length a) n (a +:+ b) = String.substring 0 n b.
Proof. induction a as [|c a IH]; [reflexivity | exact IH]. Qed.

Lemma substring_split (n : nat) (s : string) :
  (n <= String.length s)%nat ->
  s = String.substring 0 n s +:+ String.substring n (String.length s - n) s.
Proof.
  revert n. induction s as [|c s IH]; intros n Hn.
  - destruct n; reflexivity.
  - destruct n as [|n].
    + change (String c s = String.substring 0 (String.length (String c s)) (String c s)).
      symmetry. apply substring_all.
    + simpl in Hn.
      change (String c s = String c (String.substring 0 n s +:+
                                     String.substring n (String.length s - n) s)).
      f_equal. apply IH. lia.
Qed.

Lemma endswith_spec (suffix s : string) :
  DataUtils.endswith suffix s = true <-> exists pre, s = pre +:+ suffix.
Proof.
  unfold DataUtils.endswith. rewrite andb_true_iff, Nat.leb_le, String.eqb_eq. split.
  - intros [Hlen Hsub].
    exists (String.substring 0 (String.length s - String.length suffix) s).
    assert (Hle : (String.length s - String.length suffix <= String.length s)%nat) by lia.
    pose proof (substring_split _ s Hle) as H.
    replace (String.length s - (String.length s - String.length suffix))%nat
      with (String.length suffix) in H by lia.
    rewrite Hsub in H. exact H.
  - intros [pre ->]. rewrite length_append. split; [lia |].
    replace (String.length pre + String.length suffix - String.length suffix)%nat
      with (String.length pre) by lia.
    rewrite substring_skip. apply substring_all.
Qed.

(** [get_patient_data] reads the first file of the folder, in listing
    order, whose name ends in ".csv", and only that one: what comes
    after it does not matter, and a failure to read it is not caught. *)
Theorem get_patient_data_reads_first_csv pre file post read_csv :
  (forall f, In f pre -> DataUtils.endswith ".csv" f = false) ->
  DataUtils.endswith ".csv" file = true ->
  DataUtils.get_patient_data_in (pre ++ file :: post) read_csv
  = match read_csv file with
    | Ok df => Ok (Some df)
    | Raise e => Raise e
    end.
Proof.
  intros Hpre Hfile. induction pre as [|f pre IH]; cbn [app DataUtils.get_patient_data_in].
  - rewrite Hfile. reflexivity.
  - rewrite (Hpre f) by (left; reflexivity). apply IH.
    intros g Hg. apply Hpre. right. exact Hg.
Qed.

Lemma get_patient_data_reads_first_csv_witness :
  let read_csv := fun f : string => if String.eqb f "a.csv" then Ok (Demo.frame) else Raise OSError in
  (forall f, In f ["readme.md"] -> DataUtils.endswith ".csv" f = false) /\
  DataUtils.endswith ".csv" "a.csv" = true /\
  DataUtils.get_patient_data_in (["readme.md"] ++ "a.csv" :: ["b.csv"]) read_csv
  = Ok (Some Demo.frame).
Proof.
  intros read_csv.
  assert (H1 : forall f, In f ["readme.md"] -> DataUtils.endswith ".csv" f = false).
  { intros f [<- | []]. reflexivity. }
  assert (H2 : DataUtils.endswith ".csv" "a.csv" = true) by reflexivity.
  exact (conj H1 (conj H2 (get_patient_data_reads_first_csv _ _ ["b.csv"] read_csv H1 H2))).
Defined.

(** [get_patient_data] answers None exactly when no file of the folder
    has a name ending in ".csv". *)
Theorem get_patient_data_none_iff_no_csv files read_csv :
  DataUtils.get_patient_data_in files read_csv = Ok None <->
  forall f stem, In f files -> f <> stem +:+ ".csv".
Proof.
  induction files as [|file rest IH]; cbn [DataUtils.get_patient_data_in].
  - split; [intros _ f stem [] | reflexivity].
  - destruct (DataUtils.endswith ".csv" file) eqn:E.
    + split.
      * intros H. destruct (read_csv file); discriminate.
      * intros H. exfalso. apply endswith_spec in E as [stem E].
        apply (H file stem); [left; reflexivity | exact E].
    + rewrite IH. split.
      * intros H f stem [<- | Hf]; [| apply H, Hf].
        intros Heq. assert (DataUtils.endswith ".csv" file = true) as Ht
          by (apply endswith_spec; eauto).
        congruence.
      * intros H f stem Hf. apply H. right. exact Hf.
Qed.

(** ** Serving a request from INITIAL *)

Lemma as_rendered_cases fmt data :
  (fmt = VStr "figure" -> as_rendered fmt data = option_map timestamps_converted data) /\
  (fmt <> VStr "figure" -> as_rendered fmt data = data).
Proof.
  unfold as_rendered. split.
  - intros ->. reflexivity.
  - intros Hne. destruct (Py.eq_str fmt "figure") eqn:E; [| reflexivity].
    apply eq_str_eq in E. congruence.
Qed.

(** A turn in INITIAL whose merged slots are both resolved and name a
    catalogued patient whose data could be loaded. *)
Lemma direct_turn env msg m q pid fmt data :
  state (bot m) = INITIAL ->
  is_export_request msg = false ->
  extraction env msg (heard msg m) = Ok (VDict q) ->
  merged q (context (bot m)) PatientId = Ok pid -> resolved pid ->
  merged q (context (bot m)) Format = Ok fmt -> resolved fmt ->
  Py.in_strs pid (patient_ids (bot m)) = Ok true ->
  get_patient_data env pid = Ok data ->
  let served :=
    mkMachine
      (at_state DATA_RETRIEVED
         (set_context (committed (context (bot m)) pid fmt (as_rendered fmt data))
                      (bot (heard msg m))))
      (trace m ++ [EvEnter HInitial; EvLLM (extract_request (bot (heard msg m)) msg)]) in
  process_message env msg m
  = match render env fmt data pid with
    | Ok result =>
        (Ok (result +:+ follow_up_offer),
         mkMachine (update_history_bot "bot" (result +:+ follow_up_offer) (bot served))
                   (trace served))
    | Raise e => (Raise e, served)
    end.
Proof.
  intros Hst Hexp Hext Hpid Rpid Hfmt Rfmt Hin Hdata served.
  destruct (heard_fields msg m) as (Hs & Hc & Hi & Ht).
  assert (Hrun : handle env (state (bot m)) msg (heard msg m)
                 = (match render env fmt data pid with
                    | Ok result => Ok (result +:+ follow_up_offer)
                    | Raise e => Raise e
                    end, served)).
  { rewrite Hst. cbn [handle].
    rewrite (initial_commits env msg (heard msg m) q pid fmt data);
      rewrite ?Hc, ?Hi, ?Ht; auto. }
  apply process_message_via in Hrun. rewrite Hrun.
  destruct (render env fmt data pid); reflexivity.
Qed.

Lemma committed_lookup c pid fmt data :
  (forall f, committed c pid fmt data !! partial_key f = None) /\
  (forall k, k <> "patient_id" -> k <> "format" -> k <> "patient_data" ->
             k <> "partial_patient_id" -> k <> "partial_format" ->
             committed c pid fmt data !! k = c !! k).
Proof.
  unfold committed. split.
  - intros [|]; cbn [partial_key]; lookups; apply lookup_delete_eq.
  - intros k H1 H2 H3 H4 H5.
    rewrite !lookup_insert_ne, !lookup_delete_ne by congruence. reflexivity.
Qed.

(** A request made in INITIAL that names a catalogued patient and a
    format is served within the turn, with one request to the language
    model: the reply is the rendering followed by the offer of further
    help, the bot is in DATA_RETRIEVED, and the context holds the
    patient, the format and the data set and no partial entry any more.
    The data set is stored as the rendering leaves it: for the format
    "figure" the plot has converted its Timestamp column in place, for
    any other format it is as it was loaded.  Every other entry, a
    stale "missing_info" included, is left as it was. *)
Theorem direct_request_is_served env msg m q pid fmt data result :
  state (bot m) = INITIAL ->
  is_export_request msg = false ->
  extraction env msg (heard msg m) = Ok (VDict q) ->
  merged q (context (bot m)) PatientId = Ok pid -> resolved pid ->
  merged q (context (bot m)) Format = Ok fmt -> resolved fmt ->
  Py.in_strs pid (patient_ids (bot m)) = Ok true ->
  get_patient_data env pid = Ok data ->
  render env fmt data pid = Ok result ->
  let m' := snd (process_message env msg m) in
  fst (process_message env msg m) = Ok (result +:+ follow_up_offer) /\
  state (bot m') = DATA_RETRIEVED /\
  context (bot m') !! "patient_id" = Some pid /\
  context (bot m') !! "format" = Some fmt /\
  context (bot m') !! "patient_data" = Some (frame_value (as_rendered fmt data)) /\
  (fmt = VStr "figure" -> as_rendered fmt data = option_map timestamps_converted data) /\
  (fmt <> VStr "figure" -> as_rendered fmt data = data) /\
  (forall f, context (bot m') !! partial_key f = None) /\
  (forall k, k <> "patient_id" -> k <> "format" -> k <> "patient_data" ->
             k <> "partial_patient_id" -> k <> "partial_format" ->
             context (bot m') !! k = context (bot m) !! k) /\
  handlers_entered (trace m') = handlers_entered (trace m) ++ [HInitial] /\
  requests_sent (trace m')
  = requests_sent (trace m) ++ [extract_request (bot (heard msg m)) msg].
Proof.
  intros Hst Hexp Hext Hpid Rpid Hfmt Rfmt Hin Hdata Hren m'. subst m'.
  rewrite (direct_turn env msg m q pid fmt data) by assumption.
  rewrite Hren. cbn [fst snd bot trace].
  match goal with
  | |- context [update_history_bot "bot" ?r ?b] =>
      destruct (replied_fields r b) as [-> ->]
  end.
  cbn [at_state set_context state context].
  destruct (committed_lookup (context (bot m)) pid fmt (as_rendered fmt data))
    as [Hpart Hrest].
  destruct (as_rendered_cases fmt data) as [Hfig Hraw].
  rewrite handlers_entered_app, requests_sent_app.
  split; [reflexivity |]. split; [reflexivity |].
  split; [unfold committed; lookups; reflexivity |].
  split; [unfold committed; lookups; reflexivity |].
  split; [unfold committed; lookups; reflexivity |].
  split; [exact Hfig |]. split; [exact Hraw |].
  split; [exact Hpart |]. split; [exact Hrest |].
  split; reflexivity.
Qed.

Lemma direct_request_is_served_witness :
  let e := Demo.local_env [Demo.says "002" "figure"] in
  let m := Demo.start Demo.catalog in
  let q := Demo.fields [("patient_id", "002"); ("format", "figure")] in
  let msg := "plot the glucose of patient 002" in
  let result :=
    "Generated enhanced plot for patient 002. Opening the plot in your default image viewer and saved as patient_002_glucose.png" in
  state (bot m) = INITIAL /\
  is_export_request msg = false /\
  extraction e msg (heard msg m) = Ok (VDict q) /\
  merged q (context (bot m)) PatientId = Ok (VStr "002") /\ resolved (VStr "002") /\
  merged q (context (bot m)) Format = Ok (VStr "figure") /\ resolved (VStr "figure") /\
  Py.in_strs (VStr "002") (patient_ids (bot m)) = Ok true /\
  get_patient_data e (VStr "002") = Ok (Some Demo.local_frame) /\
  render e (VStr "figure") (Some Demo.local_frame) (VStr "002") = Ok result /\
  fst (process_message e msg m) = Ok (result +:+ follow_up_offer) /\
  state (bot (snd (process_message e msg m))) = DATA_RETRIEVED /\
  context (bot (snd (process_message e msg m))) !! "patient_data"
  = Some (VFrame (timestamps_converted Demo.local_frame)) /\
  df_time_range Demo.local_frame = Ok ("5/1/2020 10:30", "5/1/2020 10:40") /\
  df_time_range (timestamps_converted Demo.local_frame)
  = Ok ("2020-05-01 10:30:00", "2020-05-01 10:40:00").
Proof.
  intros e m q msg result.
  assert (H1 : state (bot m) = INITIAL) by reflexivity.
  assert (H2 : is_export_request msg = false) by reflexivity.
  assert (H3 : extraction e msg (heard msg m) = Ok (VDict q)) by (vm_compute; reflexivity).
  assert (H4 : merged q (context (bot m)) PatientId = Ok (VStr "002")) by reflexivity.
  assert (H5 : resolved (VStr "002")) by reflexivity.
  assert (H6 : merged q (context (bot m)) Format = Ok (VStr "figure")) by reflexivity.
  assert (H7 : resolved (VStr "figure")) by reflexivity.
  assert (H8 : Py.in_strs (VStr "002") (patient_ids (bot m)) = Ok true) by reflexivity.
  assert (H9 : get_patient_data e (VStr "002") = Ok (Some Demo.local_frame)) by reflexivity.
  assert (H10 : render e (VStr "figure") (Some Demo.local_frame) (VStr "002") = Ok result)
    by reflexivity.
  destruct (direct_request_is_served e msg m q (VStr "002") (VStr "figure")
              (Some Demo.local_frame) result H1 H2 H3 H4 H5 H6 H7 H8 H9 H10)
    as (Hr & Hs & _ & _ & Hd & Hfig & _).
  rewrite (Hfig eq_refl) in Hd.
  exact (conj H1 (conj H2 (conj H3 (conj H4 (conj H5 (conj H6 (conj H7 (conj H8
           (conj H9 (conj H10 (conj Hr (conj Hs (conj Hd (conj eq_refl eq_refl)))))))))))))).
Defined.

(** The request is committed before it is rendered: when plotting or
    displaying the data raises, the exception leaves
    [process_message], no reply is recorded, and the bot is
    nevertheless in DATA_RETRIEVED with the patient, the format and the
    data set in its context.  On the plotting path the Timestamp column
    has been converted before anything could raise, so the data set in
    the context is the loaded one with that column converted; on the
    other path it is the loaded one. *)
Theorem rendering_failure_after_commit env msg m q pid fmt data e :
  state (bot m) = INITIAL ->
  is_export_request msg = false ->
  extraction env msg (heard msg m) = Ok (VDict q) ->
  merged q (context (bot m)) PatientId = Ok pid -> resolved pid ->
  merged q (context (bot m)) Format = Ok fmt -> resolved fmt ->
  Py.in_strs pid (patient_ids (bot m)) = Ok true ->
  get_patient_data env pid = Ok data ->
  render env fmt data pid = Raise e ->
  let m' := snd (process_message env msg m) in
  fst (process_message env msg m) = Raise e /\
  state (bot m') = DATA_RETRIEVED /\
  context (bot m') = committed (context (bot m)) pid fmt (as_rendered fmt data) /\
  context (bot m') !! "patient_data" = Some (frame_value (as_rendered fmt data)) /\
  (fmt = VStr "figure" -> as_rendered fmt data = option_map timestamps_converted data) /\
  (fmt <> VStr "figure" -> as_rendered fmt data = data) /\
  conversation_history (bot m')
  = push (max_history_length (bot m)) (conversation_history (bot m)) (user_turn msg).
Proof.
  intros Hst Hexp Hext Hpid Rpid Hfmt Rfmt Hin Hdata Hren m'. subst m'.
  rewrite (direct_turn env msg m q pid fmt data) by assumption.
  rewrite Hren. cbn [fst snd bot at_state set_context state context conversation_history].
  destruct (as_rendered_cases fmt data) as [Hfig Hraw].
  split; [reflexivity |]. split; [reflexivity |]. split; [reflexivity |].
  split; [unfold committed; lookups; reflexivity |].
  split; [exact Hfig |]. split; [exact Hraw |].
  unfold heard. cbn [bot]. apply update_history_bot_history.
Qed.

Lemma rendering_failure_after_commit_witness :
  let broken := mkFrame false 3 (Ok ("5/1/2020 10:30", "5/1/2020 10:40"))
                        (Ok (mkStats "1" "2" "3" "4"))
                        (Some ValueError) None
                        (Some (Ok ("2020-05-01 10:30:00", "2020-05-01 10:40:00"))) in
  let e := mkEnv (fun _ _ => Demo.says "002" "figure") (Demo.decode Demo.known_replies)
                 (fun _ => "<object>") (fun _ => Ok (Some broken))
                 (fun _ => "20250101_120000") (fun _ _ => None) in
  let m := Demo.start Demo.catalog in
  let q := Demo.fields [("patient_id", "002"); ("format", "figure")] in
  let msg := "plot the glucose of patient 002" in
  state (bot m) = INITIAL /\
  is_export_request msg = false /\
  extraction e msg (heard msg m) = Ok (VDict q) /\
  merged q (context (bot m)) PatientId = Ok (VStr "002") /\ resolved (VStr "002") /\
  merged q (context (bot m)) Format = Ok (VStr "figure") /\ resolved (VStr "figure") /\
  Py.in_strs (VStr "002") (patient_ids (bot m)) = Ok true /\
  get_patient_data e (VStr "002") = Ok (Some broken) /\
  render e (VStr "figure") (Some broken) (VStr "002") = Raise ValueError /\
  fst (process_message e msg m) = Raise ValueError /\
  state (bot (snd (process_message e msg m))) = DATA_RETRIEVED /\
  context (bot (snd (process_message e msg m))) !! "patient_data"
  = Some (VFrame (timestamps_converted broken)) /\
  df_time_range (timestamps_converted broken)
  = Ok ("2020-05-01 10:30:00", "2020-05-01 10:40:00").
Proof.
  intros broken e m q msg.
  assert (H1 : state (bot m) = INITIAL) by reflexivity.
  assert (H2 : is_export_request msg = false) by reflexivity.
  assert (H3 : extraction e msg (heard msg m) = Ok (VDict q)) by (vm_compute; reflexivity).
  assert (H4 : merged q (context (bot m)) PatientId = Ok (VStr "002")) by reflexivity.
  assert (H5 : resolved (VStr "002")) by reflexivity.
  assert (H6 : merged q (context (bot m)) Format = Ok (VStr "figure")) by reflexivity.
  assert (H7 : resolved (VStr "figure")) by reflexivity.
  assert (H8 : Py.in_strs (VStr "002") (patient_ids (bot m)) = Ok true) by reflexivity.
  assert (H9 : get_patient_data e (VStr "002") = Ok (Some broken)) by reflexivity.
  assert (H10 : render e (VStr "figure") (Some broken) (VStr "002") = Raise ValueError)
    by reflexivity.
  destruct (rendering_failure_after_commit e msg m q (VStr "002") (VStr "figure")
              (Some broken) ValueError H1 H2 H3 H4 H5 H6 H7 H8 H9 H10)
    as (Hr & Hs & _ & Hd & Hfig & _).
  rewrite (Hfig eq_refl) in Hd.
  exact (conj H1 (conj H2 (conj H3 (conj H4 (conj H5 (conj H6 (conj H7 (conj H8
           (conj H9 (conj H10 (conj Hr (conj Hs (conj Hd eq_refl))))))))))))).
Defined.

Lemma in_strs_catalogued v ids :
  Py.in_strs v ids = Ok true -> exists s, v = VStr s /\ In s ids.
Proof.
  unfold Py.in_strs. intros H.
  assert (He : existsb (Py.eq_str v) ids = true).
  { destruct v; try (injection H as H; exact H). destruct ids; discriminate. }
  apply existsb_exists in He as (s & Hs & Heq). apply eq_str_eq in Heq. eauto.
Qed.

(** Only the format "figure", spelled exactly so, is plotted.  Any
    other resolved format, whatever the language model made of the
    request, is served as the raw data in the browser, and is stored in
    the context as it came. *)
Theorem any_other_format_is_raw env msg m q pid fmt df :
  state (bot m) = INITIAL ->
  is_export_request msg = false ->
  extraction env msg (heard msg m) = Ok (VDict q) ->
  merged q (context (bot m)) PatientId = Ok pid -> resolved pid ->
  merged q (context (bot m)) Format = Ok fmt -> resolved fmt ->
  Py.in_strs pid (patient_ids (bot m)) = Ok true ->
  get_patient_data env pid = Ok (Some df) ->
  fmt <> VStr "figure" ->
  df_popup_error df = None ->
  exists s, pid = VStr s /\ In s (patient_ids (bot m)) /\
    fst (process_message env msg m)
    = Ok (("Displaying raw data for patient " +:+ s +:+ " in your browser.")
          +:+ follow_up_offer) /\
    state (bot (snd (process_message env msg m))) = DATA_RETRIEVED /\
    context (bot (snd (process_message env msg m))) !! "format" = Some fmt.
Proof.
  intros Hst Hexp Hext Hpid Rpid Hfmt Rfmt Hin Hdata Hne Hpop.
  destruct (in_strs_catalogued _ _ Hin) as (s & -> & Hs).
  exists s. split; [reflexivity |]. split; [exact Hs |].
  rewrite (direct_turn env msg m q (VStr s) fmt (Some df)) by assumption.
  assert (Hren : render env fmt (Some df) (VStr s)
                 = Ok ("Displaying raw data for patient " +:+ s +:+ " in your browser.")).
  { unfold render.
    destruct (Py.eq_str fmt "figure") eqn:E; [apply eq_str_eq in E; congruence |].
    unfold display_raw_data_popup. rewrite Hpop. reflexivity. }
  rewrite Hren. cbn [fst snd bot trace].
  match goal with
  | |- context [update_history_bot "bot" ?r ?b] =>
      destruct (replied_fields r b) as [-> ->]
  end.
  cbn [at_state set_context state context].
  repeat split. unfold committed. lookups. reflexivity.
Qed.

Lemma any_other_format_is_raw_witness :
  let reply := Demo.dumps [("patient_id", "002"); ("format", "Figure")] in
  let q := Demo.fields [("patient_id", "002"); ("format", "Figure")] in
  let e := mkEnv (fun _ _ => Some reply)
                 (fun s => if String.eqb s reply then Some (VDict q) else None)
                 (fun _ => "<object>") Demo.read_csv
                 (fun _ => "20250101_120000") (fun _ _ => None) in
  let m := Demo.start Demo.catalog in
  let msg := "a Figure for patient 002" in
  state (bot m) = INITIAL /\
  is_export_request msg = false /\
  extraction e msg (heard msg m) = Ok (VDict q) /\
  merged q (context (bot m)) PatientId = Ok (VStr "002") /\ resolved (VStr "002") /\
  merged q (context (bot m)) Format = Ok (VStr "Figure") /\ resolved (VStr "Figure") /\
  Py.in_strs (VStr "002") (patient_ids (bot m)) = Ok true /\
  get_patient_data e (VStr "002") = Ok (Some Demo.frame) /\
  VStr "Figure" <> VStr "figure" /\
  df_popup_error Demo.frame = None /\
  fst (process_message e msg m)
  = Ok ("Displaying raw data for patient 002 in your browser." +:+ follow_up_offer).
Proof.
  intros reply q e m msg.
  assert (H1 : state (bot m) = INITIAL) by reflexivity.
  assert (H2 : is_export_request msg = false) by reflexivity.
  assert (H3 : extraction e msg (heard msg m) = Ok (VDict q)) by (vm_compute; reflexivity).
  assert (H4 : merged q (context (bot m)) PatientId = Ok (VStr "002")) by reflexivity.
  assert (H5 : resolved (VStr "002")) by reflexivity.
  assert (H6 : merged q (context (bot m)) Format = Ok (VStr "Figure")) by reflexivity.
  assert (H7 : resolved (VStr "Figure")) by reflexivity.
  assert (H8 : Py.in_strs (VStr "002") (patient_ids (bot m)) = Ok true) by reflexivity.
  assert (H9 : get_patient_data e (VStr "002") = Ok (Some Demo.frame)) by reflexivity.
  assert (H10 : VStr "Figure" <> VStr "figure") by discriminate.
  assert (H11 : df_popup_error Demo.frame = None) by reflexivity.
  destruct (any_other_format_is_raw e msg m q (VStr "002") (VStr "Figure") Demo.frame
              H1 H2 H3 H4 H5 H6 H7 H8 H9 H10 H11) as (s & Hs & _ & Hr & _).
  injection Hs as <-.
  exact (conj H1 (conj H2 (conj H3 (conj H4 (conj H5 (conj H6 (conj H7 (conj H8
           (conj H9 (conj H10 (conj H11 Hr))))))))))).
Defined.

(** A catalogued patient whose folder holds no CSV file is served all
    the same: whatever the format, the reply says that there is no data
    and goes on to offer an analysis, and the bot is in DATA_RETRIEVED
    with None as the data set. *)
Theorem patient_without_csv_is_served env msg m q pid fmt :
  state (bot m) = INITIAL ->
  is_export_request msg = false ->
  extraction env msg (heard msg m) = Ok (VDict q) ->
  merged q (context (bot m)) PatientId = Ok pid -> resolved pid ->
  merged q (context (bot m)) Format = Ok fmt -> resolved fmt ->
  Py.in_strs pid (patient_ids (bot m)) = Ok true ->
  get_patient_data env pid = Ok None ->
  fst (process_message env msg m)
  = Ok ("No data available for this patient." +:+ follow_up_offer) /\
  state (bot (snd (process_message env msg m))) = DATA_RETRIEVED /\
  context (bot (snd (process_message env msg m))) !! "patient_data" = Some VNone.
Proof.
  intros Hst Hexp Hext Hpid Rpid Hfmt Rfmt Hin Hdata.
  rewrite (direct_turn env msg m q pid fmt None) by assumption.
  assert (Hren : render env fmt None pid = Ok "No data available for this patient.").
  { unfold render. destruct (Py.eq_str fmt "figure"); reflexivity. }
  assert (Hnone : as_rendered fmt None = None).
  { unfold as_rendered. destruct (Py.eq_str fmt "figure"); reflexivity. }
  rewrite Hren, Hnone. cbn [fst snd bot trace].
  match goal with
  | |- context [update_history_bot "bot" ?r ?b] =>
      destruct (replied_fields r b) as [-> ->]
  end.
  cbn [at_state set_context state context].
  repeat split. unfold committed. lookups. reflexivity.
Qed.

Lemma patient_without_csv_is_served_witness :
  let e := mkEnv (fun _ _ => Demo.says "002" "figure") (Demo.decode Demo.known_replies)
                 (fun _ => "<object>") (fun _ => Ok None)
                 (fun _ => "20250101_120000") (fun _ _ => None) in
  let m := Demo.start Demo.catalog in
  let q := Demo.fields [("patient_id", "002"); ("format", "figure")] in
  let msg := "plot the glucose of patient 002" in
  state (bot m) = INITIAL /\
  is_export_request msg = false /\
  extraction e msg (heard msg m) = Ok (VDict q) /\
  merged q (context (bot m)) PatientId = Ok (VStr "002") /\ resolved (VStr "002") /\
  merged q (context (bot m)) Format = Ok (VStr "figure") /\ resolved (VStr "figure") /\
  Py.in_strs (VStr "002") (patient_ids (bot m)) = Ok true /\
  get_patient_data e (VStr "002") = Ok None /\
  fst (process_message e msg m)
  = Ok ("No data available for this patient." +:+ follow_up_offer).
Proof.
  intros e m q msg.
  assert (H1 : state (bot m) = INITIAL) by reflexivity.
  assert (H2 : is_export_request msg = false) by reflexivity.
  assert (H3 : extraction e msg (heard msg m) = Ok (VDict q)) by (vm_compute; reflexivity).
  assert (H4 : merged q (context (bot m)) PatientId = Ok (VStr "002")) by reflexivity.
  assert (H5 : resolved (VStr "002")) by reflexivity.
  assert (H6 : merged q (context (bot m)) Format = Ok (VStr "figure")) by reflexivity.
  assert (H7 : resolved (VStr "figure")) by reflexivity.
  assert (H8 : Py.in_strs (VStr "002") (patient_ids (bot m)) = Ok true) by reflexivity.
  assert (H9 : get_patient_data e (VStr "002") = Ok None) by reflexivity.
  destruct (patient_without_csv_is_served e msg m q (VStr "002") (VStr "figure")
              H1 H2 H3 H4 H5 H6 H7 H8 H9) as (Hr & _).
  exact (conj H1 (conj H2 (conj H3 (conj H4 (conj H5 (conj H6 (conj H7 (conj H8
           (conj H9 Hr))))))))).
Defined.

(** The INITIAL handler when both slots are resolved, the patient is
    in the catalog and loading the data raises. *)
Lemma initial_load_fails env msg m q pid fmt e :
  is_export_request msg = false ->
  extraction env msg m = Ok (VDict q) ->
  merged q (context (bot m)) PatientId = Ok pid -> resolved pid ->
  merged q (context (bot m)) Format = Ok fmt -> resolved fmt ->
  Py.in_strs pid (patient_ids (bot m)) = Ok true ->
  get_patient_data env pid = Raise e ->
  _handle_initial_message env msg m
  = (Raise e,
     mkMachine
       (set_context
          (<["partial_format" := fmt]> (<["partial_patient_id" := pid]> (context (bot m))))
          (bot m))
       (trace m ++ [EvEnter HInitial; EvLLM (extract_request (bot m) msg)])).
Proof.
  intros Hexp Hext Hpid Rpid Hfmt Rfmt Hin Hdata.
  unfold _handle_initial_message. rewrite Hexp.
  unfold extraction, merged, reported, stored, resolved in *.
  open_machine m. run.
  rewrite llm_calls_enter, Hext. run.
  cbn [Py.get slot_key partial_key] in *.
  repeat case_truth.
  all: rewrite ?Hin; run; rewrite ?Hdata; run; rewrite <- ?app_assoc; reflexivity.
Qed.

(** When reading the patient's file raises, nothing is committed: the
    exception leaves [process_message], the bot is still in INITIAL,
    and the context has only gained the two merged slots as partial
    entries, so that the next turn starts from them. *)
Theorem loading_failure_keeps_initial env msg m q pid fmt e :
  state (bot m) = INITIAL ->
  is_export_request msg = false ->
  extraction env msg (heard msg m) = Ok (VDict q) ->
  merged q (context (bot m)) PatientId = Ok pid -> resolved pid ->
  merged q (context (bot m)) Format = Ok fmt -> resolved fmt ->
  Py.in_strs pid (patient_ids (bot m)) = Ok true ->
  get_patient_data env pid = Raise e ->
  let m' := snd (process_message env msg m) in
  fst (process_message env msg m) = Raise e /\
  state (bot m') = INITIAL /\
  context (bot m')
  = <["partial_format" := fmt]> (<["partial_patient_id" := pid]> (context (bot m))) /\
  (forall f, context (bot m') !! slot_key f = context (bot m) !! slot_key f) /\
  context (bot m') !! "patient_data" = context (bot m) !! "patient_data".
Proof.
  intros Hst Hexp Hext Hpid Rpid Hfmt Rfmt Hin Hdata m'.
  destruct (heard_fields msg m) as (Hs & Hc & Hi & Ht).
  assert (Hrun : handle env (state (bot m)) msg (heard msg m)
                 = (Raise e,
                    mkMachine
                      (set_context
                         (<["partial_format" := fmt]>
                            (<["partial_patient_id" := pid]> (context (bot m))))
                         (bot (heard msg m)))
                      (trace m ++ [EvEnter HInitial;
                                   EvLLM (extract_request (bot (heard msg m)) msg)]))).
  { rewrite Hst. cbn [handle].
    rewrite (initial_load_fails env msg (heard msg m) q pid fmt e);
      rewrite ?Hc, ?Hi, ?Ht; auto. }
  apply process_message_via in Hrun.
  subst m'. rewrite Hrun. cbn [fst snd bot set_context state context].
  rewrite Hs, Hst. repeat split.
  - intros [|]; cbn [slot_key]; lookups; reflexivity.
  - lookups. reflexivity.
Qed.

Lemma loading_failure_keeps_initial_witness :
  let e := mkEnv (fun _ _ => Demo.says "002" "raw") (Demo.decode Demo.known_replies)
                 (fun _ => "<object>") (fun _ => Raise OSError)
                 (fun _ => "20250101_120000") (fun _ _ => None) in
  let m := Demo.start Demo.catalog in
  let q := Demo.fields [("patient_id", "002"); ("format", "raw")] in
  let msg := "raw data of patient 002" in
  state (bot m) = INITIAL /\
  is_export_request msg = false /\
  extraction e msg (heard msg m) = Ok (VDict q) /\
  merged q (context (bot m)) PatientId = Ok (VStr "002") /\ resolved (VStr "002") /\
  merged q (context (bot m)) Format = Ok (VStr "raw") /\ resolved (VStr "raw") /\
  Py.in_strs (VStr "002") (patient_ids (bot m)) = Ok true /\
  get_patient_data e (VStr "002") = Raise OSError /\
  fst (process_message e msg m) = Raise OSError /\
  state (bot (snd (process_message e msg m))) = INITIAL.
Proof.
  intros e m q msg.
  assert (H1 : state (bot m) = INITIAL) by reflexivity.
  assert (H2 : is_export_request msg = false) by reflexivity.
  assert (H3 : extraction e msg (heard msg m) = Ok (VDict q)) by (vm_compute; reflexivity).
  assert (H4 : merged q (context (bot m)) PatientId = Ok (VStr "002")) by reflexivity.
  assert (H5 : resolved (VStr "002")) by reflexivity.
  assert (H6 : merged q (context (bot m)) Format = Ok (VStr "raw")) by reflexivity.
  assert (H7 : resolved (VStr "raw")) by reflexivity.
  assert (H8 : Py.in_strs (VStr "002") (patient_ids (bot m)) = Ok true) by reflexivity.
  assert (H9 : get_patient_data e (VStr "002") = Raise OSError) by reflexivity.
  destruct (loading_failure_keeps_initial e msg m q (VStr "002") (VStr "raw") OSError
              H1 H2 H3 H4 H5 H6 H7 H8 H9) as (Hr & Hs & _).
  exact (conj H1 (conj H2 (conj H3 (conj H4 (conj H5 (conj H6 (conj H7 (conj H8
           (conj H9 (conj Hr Hs)))))))))).
Defined.

(** ** After the data has been retrieved *)

(** The DATA_RETRIEVED handler up to the point where the intention is
    known. *)
Lemma data_retrieved_classifies env msg m :
  is_export_request msg = false ->
  let asked :=
    mkMachine (bot m) (trace m ++ [EvEnter HDataRetrieved; EvLLM (intention_request msg)]) in
  _handle_data_retrieved env msg m
  = match classification env msg m with
    | Raise e => (Raise e, asked)
    | Ok v =>
        match Py.getitem v "intention" with
        | Raise e => (Raise e, asked)
        | Ok i =>
            if Py.eq_str i "analyze_current" then
              _handle_analysis env msg
                (mkMachine (at_state ANALYZING_DATA (bot m)) (trace asked))
            else if Py.eq_str i "retrieve_new" then
              (set_state INITIAL ;;;
               ctx_clear ;;;
               query_info <- _extract_patient_and_format env msg ;;
               q_id <- lift (Py.get query_info "patient_id") ;;
               has_id <- lift (Py.truth q_id) ;;
               when has_id (ctx_set "partial_patient_id" q_id) ;;;
               q_format <- lift (Py.get query_info "format") ;;
               has_format <- lift (Py.truth q_format) ;;
               when has_format (ctx_set "partial_format" q_format) ;;;
               _handle_initial_message env msg) asked
            else (Ok unclear_intention, asked)
        end
    end.
Proof.
  intros Hexp asked. subst asked.
  unfold _handle_data_retrieved. rewrite Hexp. unfold classification.
  open_machine m.
  cbv beta iota zeta delta
    [bind ret raise lift emit openai_async_wrapper _analyze_intention bot trace].
  rewrite llm_calls_enter, <- app_assoc. cbn [app].
  destruct (answer env (llm_calls tr) (intention_request msg)) as [v | e]; [| reflexivity].
  destruct (Py.getitem v "intention") as [i | e]; [| reflexivity].
  destruct (Py.eq_str i "analyze_current"); [reflexivity |].
  destruct (Py.eq_str i "retrieve_new"); reflexivity.
Qed.

Lemma data_retrieved_turn env msg m r m1 :
  state (bot m) = DATA_RETRIEVED ->
  _handle_data_retrieved env msg (heard msg m) = (r, m1) ->
  process_message env msg m
  = match r with
    | Ok response =>
        (Ok response, mkMachine (update_history_bot "bot" response (bot m1)) (trace m1))
    | Raise e => (Raise e, m1)
    end.
Proof.
  intros Hst H. apply process_message_via. rewrite Hst. exact H.
Qed.



(** In DATA_RETRIEVED, a classification that fails, or whose reply has
    no "intention" entry to read, ends the turn with the exception:
    [KeyError] for an object without the key, [TypeError] for JSON that
    is not an object.  The bot stays in DATA_RETRIEVED with its context,
    and the utterance is recorded without a reply. *)
Theorem classification_failure_propagates env msg m :
  state (bot m) = DATA_RETRIEVED ->
  is_export_request msg = false ->
  let m' := snd (process_message env msg m) in
  let unchanged :=
    state (bot m') = DATA_RETRIEVED /\ context (bot m') = context (bot m) /\
    conversation_history (bot m')
    = push (max_history_length (bot m)) (conversation_history (bot m)) (user_turn msg) /\
    requests_sent (trace m') = requests_sent (trace m) ++ [intention_request msg] in
  (forall e, classification env msg (heard msg m) = Raise e ->
     fst (process_message env msg m) = Raise e /\ unchanged) /\
  (forall d, classification env msg (heard msg m) = Ok (VDict d) ->
     Py.assoc "intention" d = None ->
     fst (process_message env msg m) = Raise KeyError /\ unchanged) /\
  (forall v, classification env msg (heard msg m) = Ok v ->
     (forall d, v <> VDict d) -> (forall df, v <> VFrame df) ->
     fst (process_message env msg m) = Raise TypeError /\ unchanged).
Proof.
  intros Hst Hexp m' unchanged. subst unchanged m'.
  destruct (heard_fields msg m) as (Hs & Hc & Hi & Ht).
  pose proof (data_retrieved_classifies env msg (heard msg m) Hexp) as Hrun.
  cbv zeta in Hrun.
  assert (Hfail : forall e,
            _handle_data_retrieved env msg (heard msg m)
            = (Raise e, mkMachine (bot (heard msg m))
                          (trace (heard msg m)
                           ++ [EvEnter HDataRetrieved; EvLLM (intention_request msg)])) ->
            fst (process_message env msg m) = Raise e /\
            state (bot (snd (process_message env msg m))) = DATA_RETRIEVED /\
            context (bot (snd (process_message env msg m))) = context (bot m) /\
            conversation_history (bot (snd (process_message env msg m)))
            = push (max_history_length (bot m)) (conversation_history (bot m))
                   (user_turn msg) /\
            requests_sent (trace (snd (process_message env msg m)))
            = requests_sent (trace m) ++ [intention_request msg]).
  { intros e H. rewrite (data_retrieved_turn env msg m _ _ Hst H).
    cbn [fst snd bot trace]. rewrite Hs, Hc, Ht, requests_sent_app.
    repeat split; try assumption. unfold heard. cbn [bot].
    apply update_history_bot_history. }
  split; [| split].
  - intros e Hcl. apply Hfail. rewrite Hrun, Hcl. reflexivity.
  - intros d Hcl Hno. apply Hfail. rewrite Hrun, Hcl. cbn [Py.getitem].
    rewrite Hno. reflexivity.
  - intros v Hcl Hnd Hnf. apply Hfail. rewrite Hrun, Hcl.
    destruct v; try reflexivity; [exfalso; eapply Hnd | exfalso; eapply Hnf]; reflexivity.
Qed.

Lemma classification_failure_propagates_witness :
  let e := Demo.env [] in
  let msg := "tell me more" in
  state (bot Demo.served) = DATA_RETRIEVED /\
  is_export_request msg = false /\
  classification e msg (heard msg Demo.served) = Raise APIError /\
  fst (process_message e msg Demo.served) = Raise APIError /\
  state (bot (snd (process_message e msg Demo.served))) = DATA_RETRIEVED.
Proof.
  intros e msg.
  assert (H1 : state (bot Demo.served) = DATA_RETRIEVED) by reflexivity.
  assert (H2 : is_export_request msg = false) by reflexivity.
  assert (H3 : classification e msg (heard msg Demo.served) = Raise APIError)
    by reflexivity.
  destruct (classification_failure_propagates e msg Demo.served H1 H2) as (Hraise & _).
  destruct (Hraise APIError H3) as (Hr & Hs & _).
  exact (conj H1 (conj H2 (conj H3 (conj Hr Hs)))).
Defined.

(** The analysis handler when the request for the analysis is
    refused. *)
Lemma analysis_request_fails env msg m df g range :
  is_export_request msg = false ->
  let pid := default VNone (context (bot m) !! "patient_id") in
  default VNone (context (bot m) !! "patient_data") = VFrame df ->
  df_empty df = false ->
  resolved pid ->
  df_glucose df = Ok g ->
  df_time_range df = Ok range ->
  let req := analysis_request env (bot m) msg pid range (df_len df) g in
  llm env (llm_calls (trace m)) req = None ->
  _handle_analysis env msg m
  = (Raise APIError, mkMachine (bot m) (trace m ++ [EvEnter HAnalysis; EvLLM req])).
Proof.
  intros Hexp pid Hdata Hne Rpid Hg Hr req Hllm. subst pid req.
  unfold _handle_analysis. rewrite Hexp. unfold resolved in Rpid.
  open_machine m. run. rewrite Hdata. run. rewrite Hne, Rpid. run.
  rewrite Hg. run. rewrite Hr. run.
  rewrite llm_calls_enter. unfold answer at 1. rewrite Hllm.
  rewrite <- app_assoc. reflexivity.
Qed.

(** In DATA_RETRIEVED, the intention "analyze_current" hands the
    utterance to the analysis handler within the same turn.  With a
    data set and a patient in the context, the turn sends two requests,
    the classification and the analysis, whose prompt is built from the
    statistics and from the history with the utterance already in it;
    the reply is the analysis as the model wrote it, and the bot is
    back in DATA_RETRIEVED with the context it had. *)
Theorem analyze_current_answers_in_one_turn env msg m v i df g range a :
  state (bot m) = DATA_RETRIEVED ->
  is_export_request msg = false ->
  classification env msg (heard msg m) = Ok v ->
  Py.getitem v "intention" = Ok i ->
  Py.eq_str i "analyze_current" = true ->
  let pid := default VNone (context (bot m) !! "patient_id") in
  default VNone (context (bot m) !! "patient_data") = VFrame df ->
  df_empty df = false ->
  resolved pid ->
  df_glucose df = Ok g ->
  df_time_range df = Ok range ->
  let req := analysis_request env (bot (heard msg m)) msg pid range (df_len df) g in
  llm env (S (llm_calls (trace m))) req = Some a ->
  let m' := snd (process_message env msg m) in
  fst (process_message env msg m) = Ok a /\
  state (bot m') = DATA_RETRIEVED /\
  context (bot m') = context (bot m) /\
  handlers_entered (trace m') = handlers_entered (trace m) ++ [HDataRetrieved; HAnalysis] /\
  requests_sent (trace m') = requests_sent (trace m) ++ [intention_request msg; req].
Proof.
  intros Hst Hexp Hcl Hget Hi pid Hdata Hne Rpid Hg Hr req Hllm m'. subst m' pid req.
  destruct (heard_fields msg m) as (Hs & Hc & Hids & Ht).
  pose proof (data_retrieved_classifies env msg (heard msg m) Hexp) as Hrun.
  cbv zeta in Hrun. rewrite Hcl, Hget, Hi in Hrun.
  rewrite (analysis_answers env msg _ df g range a) in Hrun; cbn [bot trace at_state context];
    rewrite ?Hc, ?Ht; auto.
  2:{ rewrite <- Hllm. f_equal.
      unfold llm_calls. rewrite filter_app, length_app. simpl. lia. }
  rewrite (data_retrieved_turn env msg m _ _ Hst Hrun).
  cbn [fst snd bot trace].
  match goal with
  | |- context [update_history_bot "bot" ?r ?b] =>
      destruct (replied_fields r b) as [-> ->]
  end.
  cbn [at_state state context]. rewrite Hc, Ht, <- !app_assoc.
  rewrite handlers_entered_app, requests_sent_app. cbn [app].
  repeat split.
Qed.

Lemma analyze_current_answers_in_one_turn_witness :
  let e := Demo.env [Demo.intends "analyze_current"; Some "The readings look stable."] in
  let msg := "what is the average?" in
  let v := Demo.obj (Demo.intent "analyze_current") in
  let g := mkStats "91.00" "130.00" "108.33" "19.86" in
  let range := ("2020-05-01 10:30:00", "2020-05-01 10:40:00") in
  let m := Demo.served in
  let pid := default VNone (context (bot m) !! "patient_id") in
  let req := analysis_request e (bot (heard msg m)) msg pid range (df_len Demo.frame) g in
  state (bot m) = DATA_RETRIEVED /\
  is_export_request msg = false /\
  classification e msg (heard msg m) = Ok v /\
  Py.getitem v "intention" = Ok (VStr "analyze_current") /\
  Py.eq_str (VStr "analyze_current") "analyze_current" = true /\
  default VNone (context (bot m) !! "patient_data") = VFrame Demo.frame /\
  df_empty Demo.frame = false /\
  resolved pid /\
  df_glucose Demo.frame = Ok g /\
  df_time_range Demo.frame = Ok range /\
  llm e (S (llm_calls (trace m))) req = Some "The readings look stable." /\
  fst (process_message e msg m) = Ok "The readings look stable." /\
  state (bot (snd (process_message e msg m))) = DATA_RETRIEVED.
Proof.
  intros e msg v g range m pid req.
  assert (H1 : state (bot m) = DATA_RETRIEVED) by reflexivity.
  assert (H2 : is_export_request msg = false) by reflexivity.
  assert (H3 : classification e msg (heard msg m) = Ok v) by (vm_compute; reflexivity).
  assert (H4 : Py.getitem v "intention" = Ok (VStr "analyze_current")) by reflexivity.
  assert (H5 : Py.eq_str (VStr "analyze_current") "analyze_current" = true) by reflexivity.
  assert (H6 : default VNone (context (bot m) !! "patient_data") = VFrame Demo.frame)
    by reflexivity.
  assert (H7 : df_empty Demo.frame = false) by reflexivity.
  assert (H8 : resolved pid) by reflexivity.
  assert (H9 : df_glucose Demo.frame = Ok g) by reflexivity.
  assert (H10 : df_time_range Demo.frame = Ok range) by reflexivity.
  assert (H11 : llm e (S (llm_calls (trace m))) req = Some "The readings look stable.")
    by reflexivity.
  destruct (analyze_current_answers_in_one_turn e msg m v (VStr "analyze_current")
              Demo.frame g range "The readings look stable."
              H1 H2 H3 H4 H5 H6 H7 H8 H9 H10 H11) as (Hr & Hs & _).
  exact (conj H1 (conj H2 (conj H3 (conj H4 (conj H5 (conj H6 (conj H7 (conj H8
           (conj H9 (conj H10 (conj H11 (conj Hr Hs)))))))))))).
Defined.

(** When the request for the analysis is refused, the exception leaves
    [process_message] with the bot in ANALYZING_DATA: the state set
    before the analysis handler was called is not taken back, so the
    next utterance goes to the analysis handler without being
    classified. *)
Theorem refused_analysis_leaves_analyzing env msg m v i df g range :
  state (bot m) = DATA_RETRIEVED ->
  is_export_request msg = false ->
  classification env msg (heard msg m) = Ok v ->
  Py.getitem v "intention" = Ok i ->
  Py.eq_str i "analyze_current" = true ->
  let pid := default VNone (context (bot m) !! "patient_id") in
  default VNone (context (bot m) !! "patient_data") = VFrame df ->
  df_empty df = false ->
  resolved pid ->
  df_glucose df = Ok g ->
  df_time_range df = Ok range ->
  let req := analysis_request env (bot (heard msg m)) msg pid range (df_len df) g in
  llm env (S (llm_calls (trace m))) req = None ->
  let m' := snd (process_message env msg m) in
  fst (process_message env msg m) = Raise APIError /\
  state (bot m') = ANALYZING_DATA /\
  context (bot m') = context (bot m) /\
  handle env (state (bot m')) = _handle_analysis env.
Proof.
  intros Hst Hexp Hcl Hget Hi pid Hdata Hne Rpid Hg Hr req Hllm m'. subst m' pid req.
  destruct (heard_fields msg m) as (Hs & Hc & Hids & Ht).
  pose proof (data_retrieved_classifies env msg (heard msg m) Hexp) as Hrun.
  cbv zeta in Hrun. rewrite Hcl, Hget, Hi in Hrun.
  rewrite (analysis_request_fails env msg _ df g range) in Hrun;
    cbn [bot trace at_state context]; rewrite ?Hc, ?Ht; auto.
  2:{ rewrite <- Hllm. f_equal.
      unfold llm_calls. rewrite filter_app, length_app. simpl. lia. }
  rewrite (data_retrieved_turn env msg m _ _ Hst Hrun).
  cbn [fst snd bot trace at_state state context]. rewrite Hc.
  repeat split.
Qed.

Lemma refused_analysis_leaves_analyzing_witness :
  let e := Demo.env [Demo.intends "analyze_current"] in
  let msg := "what is the average?" in
  let v := Demo.obj (Demo.intent "analyze_current") in
  let g := mkStats "91.00" "130.00" "108.33" "19.86" in
  let range := ("2020-05-01 10:30:00", "2020-05-01 10:40:00") in
  let m := Demo.served in
  let pid := default VNone (context (bot m) !! "patient_id") in
  let req := analysis_request e (bot (heard msg m)) msg pid range (df_len Demo.frame) g in
  state (bot m) = DATA_RETRIEVED /\
  is_export_request msg = false /\
  classification e msg (heard msg m) = Ok v /\
  Py.getitem v "intention" = Ok (VStr "analyze_current") /\
  Py.eq_str (VStr "analyze_current") "analyze_current" = true /\
  default VNone (context (bot m) !! "patient_data") = VFrame Demo.frame /\
  df_empty Demo.frame = false /\
  resolved pid /\
  df_glucose Demo.frame = Ok g /\
  df_time_range Demo.frame = Ok range /\
  llm e (S (llm_calls (trace m))) req = None /\
  fst (process_message e msg m) = Raise APIError /\
  state (bot (snd (process_message e msg m))) = ANALYZING_DATA.
Proof.
  intros e msg v g range m pid req.
  assert (H1 : state (bot m) = DATA_RETRIEVED) by reflexivity.
  assert (H2 : is_export_request msg = false) by reflexivity.
  assert (H3 : classification e msg (heard msg m) = Ok v) by (vm_compute; reflexivity).
  assert (H4 : Py.getitem v "intention" = Ok (VStr "analyze_current")) by reflexivity.
  assert (H5 : Py.eq_str (VStr "analyze_current") "analyze_current" = true) by reflexivity.
  assert (H6 : default VNone (context (bot m) !! "patient_data") = VFrame Demo.frame)
    by reflexivity.
  assert (H7 : df_empty Demo.frame = false) by reflexivity.
  assert (H8 : resolved pid) by reflexivity.
  assert (H9 : df_glucose Demo.frame = Ok g) by reflexivity.
  assert (H10 : df_time_range Demo.frame = Ok range) by reflexivity.
  assert (H11 : llm e (S (llm_calls (trace m))) req = None) by reflexivity.
  destruct (refused_analysis_leaves_analyzing e msg m v (VStr "analyze_current")
              Demo.frame g range H1 H2 H3 H4 H5 H6 H7 H8 H9 H10 H11) as (Hr & Hs & _).
  exact (conj H1 (conj H2 (conj H3 (conj H4 (conj H5 (conj H6 (conj H7 (conj H8
           (conj H9 (conj H10 (conj H11 (conj Hr Hs)))))))))))).
Defined.



(** The DATA_RETRIEVED handler when the classifier asks for another
    patient and the extraction that follows raises. *)
Lemma data_retrieved_reextraction_fails env msg m v i e :
  is_export_request msg = false ->
  classification env msg m = Ok v ->
  Py.getitem v "intention" = Ok i ->
  Py.eq_str i "retrieve_new" = true ->
  extraction env msg (wiped msg m) = Raise e ->
  _handle_data_retrieved env msg m
  = (Raise e,
     mkMachine (bot (wiped msg m))
               (trace (wiped msg m) ++ [EvLLM (extract_request (bot (wiped msg m)) msg)])).
Proof.
  intros Hexp Hcl Hget Hnew Hext.
  apply eq_str_eq in Hnew. subst i.
  unfold _handle_data_retrieved. rewrite Hexp.
  unfold classification, extraction, wiped in *.
  open_machine m. run.
  rewrite llm_calls_enter, Hcl. run. rewrite Hget. run.
  change (Py.eq_str (VStr "retrieve_new") "analyze_current") with false.
  change (Py.eq_str (VStr "retrieve_new") "retrieve_new") with true.
  run. rewrite <- !app_assoc in *. cbn [app] in *.
  cbv beta iota delta [at_state set_context bot trace patient_ids state context
                       conversation_history max_history_length] in Hext.
  rewrite Hext. reflexivity.
Qed.

(** The context is emptied as soon as the classifier has answered
    "retrieve_new", before the utterance is read for the new request.
    When that extraction fails, the exception leaves [process_message]
    and the request that had been served is lost: the bot is in INITIAL
    with an empty context. *)
Theorem failed_reextraction_loses_the_request env msg m v i e :
  state (bot m) = DATA_RETRIEVED ->
  is_export_request msg = false ->
  classification env msg (heard msg m) = Ok v ->
  Py.getitem v "intention" = Ok i ->
  Py.eq_str i "retrieve_new" = true ->
  extraction env msg (wiped msg (heard msg m)) = Raise e ->
  let m' := snd (process_message env msg m) in
  fst (process_message env msg m) = Raise e /\
  state (bot m') = INITIAL /\
  context (bot m') = ∅ /\
  length (requests_sent (trace m')) = S (S (length (requests_sent (trace m)))).
Proof.
  intros Hst Hexp Hcl Hget Hnew Hext m'. subst m'.
  destruct (heard_fields msg m) as (_ & _ & _ & Ht).
  pose proof (data_retrieved_reextraction_fails env msg (heard msg m) v i e
                Hexp Hcl Hget Hnew Hext) as Hrun.
  rewrite (data_retrieved_turn env msg m _ _ Hst Hrun).
  unfold wiped. cbn [fst snd bot trace at_state set_context state context].
  rewrite Ht, <- app_assoc, requests_sent_app. cbn [app]. events.
  rewrite length_app. cbn. repeat split. lia.
Qed.

Lemma failed_reextraction_loses_the_request_witness :
  let e := Demo.env [Demo.intends "retrieve_new"] in
  let msg := "now patient 002" in
  let v := Demo.obj (Demo.intent "retrieve_new") in
  let m := Demo.served in
  state (bot m) = DATA_RETRIEVED /\
  is_export_request msg = false /\
  classification e msg (heard msg m) = Ok v /\
  Py.getitem v "intention" = Ok (VStr "retrieve_new") /\
  Py.eq_str (VStr "retrieve_new") "retrieve_new" = true /\
  extraction e msg (wiped msg (heard msg m)) = Raise APIError /\
  fst (process_message e msg m) = Raise APIError /\
  state (bot (snd (process_message e msg m))) = INITIAL /\
  context (bot (snd (process_message e msg m))) = ∅.
Proof.
  intros e msg v m.
  assert (H1 : state (bot m) = DATA_RETRIEVED) by reflexivity.
  assert (H2 : is_export_request msg = false) by reflexivity.
  assert (H3 : classification e msg (heard msg m) = Ok v) by (vm_compute; reflexivity).
  assert (H4 : Py.getitem v "intention" = Ok (VStr "retrieve_new")) by reflexivity.
  assert (H5 : Py.eq_str (VStr "retrieve_new") "retrieve_new" = true) by reflexivity.
  assert (H6 : extraction e msg (wiped msg (heard msg m)) = Raise APIError) by reflexivity.
  destruct (failed_reextraction_loses_the_request e msg m v (VStr "retrieve_new") APIError
              H1 H2 H3 H4 H5 H6) as (Hr & Hs & Hc & _).
  exact (conj H1 (conj H2 (conj H3 (conj H4 (conj H5 (conj H6 (conj Hr (conj Hs Hc)))))))).
Defined.

(** ** The history and what is made of it *)

Lemma push_newest cap h t : exists kept, push cap h t = kept ++ [t] /\
                                         exists dropped, h = dropped ++ kept.
Proof.
  unfold push. destruct (cap <? length (h ++ [t]))%nat.
  - destruct cap as [|cap]; cbn [slice_last].
    + exists h. split; [reflexivity | exists []; reflexivity].
    + rewrite length_app. cbn [length].
      exists (drop (length h + 1 - S cap) h). split.
      * apply drop_app_le. lia.
      * exists (take (length h + 1 - S cap) h). symmetry. apply take_drop.
  - exists h. split; [reflexivity | exists []; reflexivity].
Qed.

(** Whatever the cap, [update_history] keeps the turn it was given as
    the newest entry, and what it keeps before it are the newest
    entries of the old history, in order.  With a positive cap the
    history is afterwards no longer than the cap, however long it was;
    with a cap of 0 nothing is ever evicted, [-0:] being the whole
    list. *)
Theorem update_history_keeps_newest r c b :
  let h' := conversation_history (update_history_bot r c b) in
  (exists dropped kept,
     conversation_history b = dropped ++ kept /\ h' = kept ++ [mkTurn r c]) /\
  ((0 < max_history_length b)%nat -> (length h' <= max_history_length b)%nat) /\
  (max_history_length b = 0%nat -> h' = conversation_history b ++ [mkTurn r c]).
Proof.
  intros h'. subst h'. rewrite update_history_bot_history. split; [| split].
  - destruct (push_newest (max_history_length b) (conversation_history b) (mkTurn r c))
      as (kept & Hk & dropped & Hd). eauto.
  - intros Hcap. unfold push.
    destruct (Nat.ltb_spec (max_history_length b)
                (length (conversation_history b ++ [mkTurn r c]))) as [Hlt | Hge];
      [| exact Hge].
    destruct (max_history_length b) as [|cap]; [lia |]. cbn [slice_last].
    rewrite length_drop. lia.
  - intros ->. unfold push. cbn [slice_last].
    destruct (0 <? _)%nat; reflexivity.
Qed.

Lemma conversation_context_snoc b kept t :
  conversation_history b = kept ++ [t] ->
  exists earlier,
    get_conversation_context b
    = earlier +:+ (if String.eqb (role t) "user" then "User" else "Bot")
              +:+ ": " +:+ content t +:+ Str.nl.
Proof.
  intros H. unfold get_conversation_context. rewrite H.
  destruct kept as [|a kept]; cbn [app].
  - eexists. cbn [fold_left]. reflexivity.
  - rewrite app_comm_cons, fold_left_app. cbn [fold_left]. eexists. reflexivity.
Qed.

Lemma clarification_requests env msg m :
  is_export_request msg = false ->
  exists l, trace (snd (_handle_clarification env msg m))
            = trace m ++ EvEnter HClarification :: EvLLM (extract_request (bot m) msg) :: l.
Proof.
  intros Hexp. unfold _handle_clarification. rewrite Hexp. open_machine m. run.
  repeat branch.
  all: try match goal with
         | H : _handle_initial_message ?e ?q ?m1 = (_, ?m2) |- _ =>
             let l := fresh "l" in let Ht := fresh "Ht" in
             destruct (initial_trace e q m1) as (l & Ht & _);
             rewrite H in Ht; simpl in Ht; clear H; rewrite Ht
         end.
  all: rewrite <- ?app_assoc; cbn [app]; eexists; reflexivity.
Qed.

(** The utterance is recorded before the handler runs, so the prompt
    of the slot extraction carries it twice: as the last line of the
    recent conversation, and as the current query.  This is so in
    INITIAL and in NEEDS_CLARIFICATION, for every utterance that is not
    an export request, and the extraction is the first request of the
    turn. *)
Theorem extraction_prompt_repeats_utterance env msg m :
  state (bot m) = INITIAL \/ state (bot m) = NEEDS_CLARIFICATION ->
  is_export_request msg = false ->
  exists req later earlier,
    requests_sent (trace (snd (process_message env msg m)))
    = requests_sent (trace m) ++ req :: later /\
    sys_prompt req = EXTRACT_PATIENT_AND_FORMAT_PROMPT /\
    output req = json /\
    user_prompt req
    = (earlier +:+ "User: " +:+ msg +:+ Str.nl)
      +:+ Str.nl +:+ "Current query: " +:+ msg.
Proof.
  intros Hst Hexp.
  destruct (heard_fields msg m) as (_ & _ & _ & Ht).
  assert (Hreq : exists h l,
             trace (snd (process_message env msg m))
             = trace m ++ EvEnter h :: EvLLM (extract_request (bot (heard msg m)) msg) :: l).
  { rewrite process_message_trace, <- Ht.
    destruct Hst as [-> | ->]; cbn [handle].
    - destruct (initial_requests env msg (heard msg m) Hexp) as (l & Hl). eauto.
    - destruct (clarification_requests env msg (heard msg m) Hexp) as (l & Hl). eauto. }
  destruct Hreq as (h & l & Hl).
  destruct (push_newest (max_history_length (bot m)) (conversation_history (bot m))
              (user_turn msg)) as (kept & Hk & _).
  destruct (conversation_context_snoc (bot (heard msg m)) kept (user_turn msg))
    as (earlier & He).
  { unfold heard. cbn [bot]. rewrite update_history_bot_history. exact Hk. }
  exists (extract_request (bot (heard msg m)) msg), (requests_sent l), earlier.
  rewrite Hl, requests_sent_app. events.
  repeat split. unfold extract_request. cbn [user_prompt]. rewrite He. reflexivity.
Qed.

Lemma extraction_prompt_repeats_utterance_witness :
  let e := Demo.env [Demo.says "" ""] in
  let m := Demo.start Demo.catalog in
  let msg := "hello" in
  (state (bot m) = INITIAL \/ state (bot m) = NEEDS_CLARIFICATION) /\
  is_export_request msg = false /\
  exists req later earlier,
    requests_sent (trace (snd (process_message e msg m)))
    = requests_sent (trace m) ++ req :: later /\
    sys_prompt req = EXTRACT_PATIENT_AND_FORMAT_PROMPT /\
    output req = json /\
    user_prompt req
    = (earlier +:+ "User: " +:+ msg +:+ Str.nl)
      +:+ Str.nl +:+ "Current query: " +:+ msg.
Proof.
  intros e m msg.
  assert (H1 : state (bot m) = INITIAL \/ state (bot m) = NEEDS_CLARIFICATION)
    by (left; reflexivity).
  assert (H2 : is_export_request msg = false) by reflexivity.
  exact (conj H1 (conj H2 (extraction_prompt_repeats_utterance e msg m H1 H2))).
Defined.

(** ** The export *)

Lemma export_turn_runs env h m pid has_id :
  conversation_history (bot m) <> [] ->
  default VNone (context (bot m) !! "patient_id") = pid ->
  Py.truth pid = Ok has_id ->
  let filename :=
    "conversation_log" +:+
    (if has_id then "_patient_" +:+ str env pid else "") +:+
    "_" +:+ strftime_now env (S (length (trace m))) +:+ ".pdf" in
  export_turn env h m
  = (match pdf_output env filename (conversation_history (bot m)) with
     | Some e => Raise e
     | None => Ok ("Conversation exported to " +:+ filename +:+
                   " and opened in your default PDF viewer.")
     end,
     mkMachine (bot m) (trace m ++ [EvEnter h; EvExport filename])).
Proof.
  intros Hne Hpid Ht filename. subst filename. unfold export_turn.
  open_machine m. run. rewrite Hpid.
  destruct hist as [|t0 hist]; [congruence |]. run. rewrite Ht. run.
  rewrite length_app, Nat.add_1_r. cbn [length].
  rewrite <- app_assoc. cbn [app].
  destruct (pdf_output env _ _); reflexivity.
Qed.

(** An export request made through [process_message] never finds the
    history empty: the conversation handed to the PDF writer ends with
    the request itself.  The file name carries "_patient_" and the
    identifier exactly when the context holds a truthy patient id.
    When the file is written the reply names it, and an exception of the
    PDF writer is not caught. *)
Theorem export_writes_the_conversation env msg m has_id :
  is_export_request msg = true ->
  let pid := default VNone (context (bot m) !! "patient_id") in
  Py.truth pid = Ok has_id ->
  let history := conversation_history (bot (heard msg m)) in
  let m' := snd (process_message env msg m) in
  exists stamp kept,
    let filename :=
      "conversation_log" +:+
      (if has_id then "_patient_" +:+ str env pid else "") +:+
      "_" +:+ stamp +:+ ".pdf" in
    history = kept ++ [user_turn msg] /\
    (pdf_output env filename history = None ->
     fst (process_message env msg m)
     = Ok ("Conversation exported to " +:+ filename +:+
           " and opened in your default PDF viewer.") /\
     trace m' = trace m ++ [EvEnter (handler_of (state (bot m))); EvExport filename]) /\
    (forall e, pdf_output env filename history = Some e ->
               fst (process_message env msg m) = Raise e).
Proof.
  intros Hexp pid Ht history m'. subst pid history m'.
  destruct (heard_fields msg m) as (Hs & Hc & Hi & Htr).
  destruct (push_newest (max_history_length (bot m)) (conversation_history (bot m))
              (user_turn msg)) as (kept & Hk & _).
  assert (Hh : conversation_history (bot (heard msg m)) = kept ++ [user_turn msg]).
  { unfold heard. cbn [bot]. rewrite update_history_bot_history. exact Hk. }
  exists (strftime_now env (S (length (trace m)))), kept. cbv zeta.
  split; [exact Hh |].
  assert (Hrun : handle env (state (bot m)) msg (heard msg m)
                 = export_turn env (handler_of (state (bot m))) (heard msg m)).
  { unfold handle. rewrite <- (handlers_export env msg (state (bot m)) Hexp).
    destruct (state (bot m)); reflexivity. }
  rewrite (export_turn_runs env _ (heard msg m)
             (default VNone (context (bot m) !! "patient_id")) has_id) in Hrun;
    [| rewrite Hh; destruct kept; discriminate | rewrite Hc; reflexivity | exact Ht].
  rewrite Htr in Hrun.
  apply process_message_via in Hrun. rewrite Hrun.
  destruct (pdf_output env _ (conversation_history (bot (heard msg m)))) as [e |] eqn:E.
  - cbn [fst snd trace]. split; [discriminate |].
    intros e' [= <-]. reflexivity.
  - cbn [fst snd trace]. split; [intros _; split; reflexivity |].
    intros e' [=].
Qed.

Lemma export_writes_the_conversation_witness :
  let e := Demo.env [] in
  let msg := "Export this as PDF" in
  is_export_request msg = true /\
  Py.truth (default VNone (context (bot Demo.served) !! "patient_id")) = Ok true /\
  exists stamp,
    fst (process_message e msg Demo.served)
    = Ok ("Conversation exported to " +:+
          ("conversation_log" +:+ ("_patient_" +:+ "001") +:+ "_" +:+ stamp +:+ ".pdf") +:+
          " and opened in your default PDF viewer.").
Proof.
  intros e msg.
  assert (H1 : is_export_request msg = true) by reflexivity.
  assert (H2 : Py.truth (default VNone (context (bot Demo.served) !! "patient_id"))
               = Ok true) by reflexivity.
  destruct (export_writes_the_conversation e msg Demo.served true H1 H2)
    as (stamp & kept & _ & Hok & _).
  exact (conj H1 (conj H2 (ex_intro _ stamp (proj1 (Hok eq_refl))))).
Defined.

(** ** The read loop of [main.py] *)

(** The loop stops reading at the first line that says exit or quit,
    in any letter case: what follows that line has no effect on the
    replies, on the bot or on the way the program ends. *)
Theorem lines_after_exit_are_not_read env before u after after' m :
  in_list (Str.lower u) ["exit"; "quit"] = true ->
  main_loop env (before ++ u :: after) m = main_loop env (before ++ u :: after') m.
Proof.
  intros Hu. revert m. induction before as [|l before IH]; intros m; cbn [app main_loop].
  - rewrite Hu. reflexivity.
  - destruct (in_list (Str.lower l) ["exit"; "quit"]); [reflexivity |].
    destruct (process_message env l m) as [[response | e] m1]; [| reflexivity].
    rewrite IH. reflexivity.
Qed.

Lemma lines_after_exit_are_not_read_witness :
  let e := Demo.env [Demo.says "" ""] in
  in_list (Str.lower "QUIT") ["exit"; "quit"] = true /\
  main_loop e (["hello"] ++ "QUIT" :: ["raw data of patient 001"]) (Demo.start Demo.catalog)
  = main_loop e (["hello"] ++ "QUIT" :: []) (Demo.start Demo.catalog).
Proof.
  intros e.
  assert (H : in_list (Str.lower "QUIT") ["exit"; "quit"] = true) by reflexivity.
  exact (conj H (lines_after_exit_are_not_read e ["hello"] "QUIT"
                   ["raw data of patient 001"] [] (Demo.start Demo.catalog) H)).
Defined.

Lemma main_loop_session env ids lines :
  forall full m e printed m',
    session env ids full m ->
    main_loop env lines m = (e, printed, m') ->
    (exists full', session env ids full' m') /\
    (length printed <= length lines)%nat /\
    Forall (fun l => in_list (Str.lower l) ["exit"; "quit"] = false)
           (take (length printed) lines) /\
    (e = Goodbye ->
     exists u rest, lines = take (length printed) lines ++ u :: rest /\
                    in_list (Str.lower u) ["exit"; "quit"] = true) /\
    (length printed = length lines -> e = Uncaught EOFError).
Proof.
  induction lines as [|l lines IH]; intros full m e printed m' Hs Hrun;
    cbn [main_loop] in Hrun.
  - injection Hrun as <- <- <-. cbn [length take].
    split; [eauto |]. split; [lia |]. split; [constructor |].
    split; [discriminate | reflexivity].
  - destruct (in_list (Str.lower l) ["exit"; "quit"]) eqn:Hl.
    + injection Hrun as <- <- <-. cbn [length take].
      split; [eauto |]. split; [lia |]. split; [constructor |].
      split; [| discriminate]. intros _. exists l, lines. split; [reflexivity | exact Hl].
    + destruct (process_message env l m) as [[response | x] m1] eqn:Hp.
      * destruct (main_loop env lines m1) as [[e1 printed1] m2] eqn:Hrest.
        injection Hrun as <- <- <-.
        destruct (IH _ m1 e1 printed1 m2 (session_reply env ids full m l response m1 Hs Hp)
                     Hrest) as (Hfull & Hlen & Hall & Hbye & Heof).
        cbn [length take]. repeat split.
        -- exact Hfull.
        -- lia.
        -- constructor; assumption.
        -- intros He. destruct (Hbye He) as (u & rest & Hlines & Hu).
           exists u, rest. split; [| exact Hu]. cbn [app]. f_equal. exact Hlines.
        -- intros Hn. apply Heof. lia.
      * injection Hrun as <- <- <-. cbn [length take].
        split; [eexists; eapply session_raise; eassumption |].
        split; [lia |]. split; [constructor |].
        split; discriminate.
Qed.

(** However [main] ends, the bot it leaves is one that a session of
    [process_message] calls reaches from the fresh bot.  No more
    replies are printed than lines were read, and none of the lines
    that were answered said exit or quit; the program says goodbye
    only at a line that does, the one after the last line answered, and
    when every line was answered it ends with the [EOFError] of
    [input]. *)
Theorem main_runs_a_session env ids lines :
  let '(e, printed, m') := main env ids lines in
  (exists full, session env ids full m') /\
  (length printed <= length lines)%nat /\
  Forall (fun l => in_list (Str.lower l) ["exit"; "quit"] = false)
         (take (length printed) lines) /\
  (e = Goodbye ->
   exists u rest, lines = take (length printed) lines ++ u :: rest /\
                  in_list (Str.lower u) ["exit"; "quit"] = true) /\
  (length printed = length lines -> e = Uncaught EOFError).
Proof.
  unfold main. destruct (main_loop env lines _) as [[e printed] m'] eqn:Hrun.
  eapply main_loop_session; [apply session_start | exact Hrun].
Qed.

(** ** What the states DATA_RETRIEVED and ANALYZING_DATA guarantee *)

Lemma truthy_string s : Py.truth (VStr s) = Ok true -> s <> "".
Proof. cbn. intros [= H] ->. discriminate. Qed.

Ltac known_true :=
  repeat match goal with
    | H : negb ?b = false |- _ => destruct b; [clear H | discriminate H]
    | H : negb ?b = true |- _ => destruct b; [discriminate H | clear H]
    end.

Ltac serving_leaf :=
  unfold data_at_hand; cbn [bot state context patient_ids];
  first
    [ solve [intros [? | ?]; congruence]
    | intros _; known_true; unfold serving, resolved; cbn [context patient_ids];
      split; [| split; [| split]];
      [ match goal with
        | H : Py.in_strs ?v ?ids = Ok true |- _ =>
            let s := fresh "s" in let Hs := fresh "Hs" in let Hv := fresh "Hv" in
            destruct (in_strs_catalogued v ids H) as (s & Hv & Hs);
            rewrite Hv in *;
            exists s; split; [lookups; reflexivity |]; split; [exact Hs |];
            apply truthy_string; assumption
        end
      | eexists; split; [lookups; reflexivity | assumption]
      | eexists; lookups; reflexivity
      | intros [|]; cbn [partial_key]; lookups; apply lookup_delete_eq ] ].

Lemma initial_data_at_hand env msg m :
  state (bot m) = INITIAL ->
  data_at_hand (bot (snd (_handle_initial_message env msg m))).
Proof.
  intros Hst. unfold _handle_initial_message. open_machine m. subst st. run.
  repeat branch.
  all: serving_leaf.
Qed.

Ltac reenter_initial :=
  match goal with
  | H : _handle_initial_message ?e ?q ?m1 = (_, ?m2) |- _ =>
      let Hp := fresh "Hp" in
      pose proof (initial_data_at_hand e q m1 eq_refl) as Hp;
      rewrite H in Hp; cbn [snd] in Hp; clear H
  end.

Lemma clarification_data_at_hand env msg m :
  state (bot m) = NEEDS_CLARIFICATION ->
  data_at_hand (bot (snd (_handle_clarification env msg m))).
Proof.
  intros Hst. unfold _handle_clarification. open_machine m. subst st. run.
  repeat branch.
  all: try reenter_initial.
  all: first [assumption | serving_leaf].
Qed.

Lemma analysis_data_at_hand env msg m :
  serving (bot m) ->
  data_at_hand (bot (snd (_handle_analysis env msg m))).
Proof.
  intros Hsv. unfold _handle_analysis. open_machine m. run.
  repeat branch.
  all: unfold data_at_hand, serving in *; cbn [bot state context patient_ids] in *.
  all: intros _; exact Hsv.
Qed.

Lemma data_retrieved_data_at_hand env msg m :
  serving (bot m) ->
  data_at_hand (bot (snd (_handle_data_retrieved env msg m))).
Proof.
  intros Hsv. unfold _handle_data_retrieved. open_machine m. run.
  repeat branch.
  all: try reenter_initial.
  all: try match goal with
         | H : _handle_analysis ?e ?q ?m1 = (_, ?m2) |- _ =>
             let Hp := fresh "Hp" in
             assert (Hp : data_at_hand (bot (snd (_handle_analysis e q m1))))
               by (apply analysis_data_at_hand; exact Hsv);
             rewrite H in Hp; cbn [snd] in Hp; clear H
         end.
  all: try assumption.
  all: unfold data_at_hand, serving in *; cbn [bot state context patient_ids] in *.
  all: first [solve [intros [? | ?]; congruence] | intros _; exact Hsv].
Qed.

Lemma data_at_hand_ext b b' :
  state b' = state b -> context b' = context b -> patient_ids b' = patient_ids b ->
  data_at_hand b -> data_at_hand b'.
Proof.
  unfold data_at_hand, serving. intros -> -> ->. trivial.
Qed.

Lemma turn_data_at_hand env msg m :
  data_at_hand (bot m) -> data_at_hand (bot (snd (process_message env msg m))).
Proof.
  intros Hd.
  destruct (process_message_state env msg m) as (Hs & Hc).
  destruct (heard_fields msg m) as (Hhs & Hhc & Hhi & _).
  assert (Hi : patient_ids (bot (snd (process_message env msg m)))
               = patient_ids (bot (snd (handle env (state (bot m)) msg (heard msg m))))).
  { destruct (process_message env msg m) as [r m'] eqn:Hrun.
    destruct (process_message_memory env msg m r m' Hrun) as (_ & Hids & _).
    cbn [snd]. rewrite Hids, <- Hhi. symmetry.
    destruct (state (bot m)); cbn [handle];
      [ apply initial_same_memory | apply clarification_same_memory
      | apply data_retrieved_same_memory | apply analysis_same_memory ]. }
  apply (data_at_hand_ext _ _ Hs Hc Hi).
  assert (Hh : data_at_hand (bot (heard msg m))).
  { apply (data_at_hand_ext (bot m)); auto. }
  destruct (state (bot m)) eqn:Hst; cbn [handle].
  - apply initial_data_at_hand. congruence.
  - apply clarification_data_at_hand. congruence.
  - apply data_retrieved_data_at_hand. apply Hh. left. congruence.
  - apply analysis_data_at_hand. apply Hh. right. congruence.
Qed.

(** In every session, whenever the bot is in DATA_RETRIEVED or in
    ANALYZING_DATA, its context holds a served request: the patient id
    is a non-empty identifier of the catalog, the format is resolved,
    the data set is present, as a frame or as None, and neither partial
    slot is left over.  The catalog itself never changes. *)
Theorem served_states_hold_a_request env ids full m :
  session env ids full m ->
  patient_ids (bot m) = ids /\
  (state (bot m) = DATA_RETRIEVED \/ state (bot m) = ANALYZING_DATA ->
   (exists s, context (bot m) !! "patient_id" = Some (VStr s) /\ In s ids /\ s <> "") /\
   (exists v, context (bot m) !! "format" = Some v /\ resolved v) /\
   (exists d, context (bot m) !! "patient_data" = Some (frame_value d)) /\
   (forall f, context (bot m) !! partial_key f = None)).
Proof.
  intros Hs.
  assert (H : patient_ids (bot m) = ids /\ data_at_hand (bot m)).
  { induction Hs as [| full m msg response m' Hs [IHi IHd] Hrun
                     | full m msg e m' Hs [IHi IHd] Hrun].
    - split; [reflexivity |]. intros [H | H]; discriminate.
    - destruct (process_message_memory env msg m _ m' Hrun) as (_ & Hids & _).
      split; [congruence |].
      pose proof (turn_data_at_hand env msg m IHd) as Hd. rewrite Hrun in Hd. exact Hd.
    - destruct (process_message_memory env msg m _ m' Hrun) as (_ & Hids & _).
      split; [congruence |].
      pose proof (turn_data_at_hand env msg m IHd) as Hd. rewrite Hrun in Hd. exact Hd. }
  destruct H as [Hi Hd]. split; [exact Hi |]. intros Hst.
  destruct (Hd Hst) as (Hp & Hf & Hdata & Hpart). rewrite Hi in Hp.
  repeat split; assumption.
Qed.

Lemma served_states_hold_a_request_witness :
  let e := Demo.env [Demo.says "" "raw"; Demo.says "002" ""; Demo.says "002" "raw"] in
  let r := Demo.run e ["the raw data please"; "patient 002"] [] (Demo.start Demo.catalog) in
  session e Demo.catalog (fst r) (snd r) /\
  state (bot (snd r)) = DATA_RETRIEVED /\
  (forall f, context (bot (snd r)) !! partial_key f = None).
Proof.
  intros e r.
  assert (Hs : session e Demo.catalog (fst r) (snd r)).
  { apply run_session. apply session_start. }
  assert (Hst : state (bot (snd r)) = DATA_RETRIEVED) by (vm_compute; reflexivity).
  destruct (served_states_hold_a_request e Demo.catalog (fst r) (snd r) Hs) as (_ & H).
  destruct (H (or_introl Hst)) as (_ & _ & _ & Hpart).
  exact (conj Hs (conj Hst Hpart)).
Defined.

(** ** ANALYZING_DATA is a transient state *)

Lemma initial_never_analyzing env msg m :
  state (bot m) <> ANALYZING_DATA ->
  state (bot (snd (_handle_initial_message env msg m))) <> ANALYZING_DATA.
Proof.
  intros Hst. unfold _handle_initial_message. open_machine m. run.
  repeat branch.
  all: cbn [bot state]; first [assumption | discriminate].
Qed.

Lemma clarification_never_analyzing env msg m :
  state (bot m) <> ANALYZING_DATA ->
  state (bot (snd (_handle_clarification env msg m))) <> ANALYZING_DATA.
Proof.
  intros Hst. unfold _handle_clarification. open_machine m. run.
  repeat branch.
  all: try match goal with
         | H : _handle_initial_message ?e ?q ?m1 = (_, ?m2) |- _ =>
             let Hp := fresh "Hp" in
             assert (Hp : state (bot (snd (_handle_initial_message e q m1)))
                          <> ANALYZING_DATA)
               by (apply initial_never_analyzing; discriminate);
             rewrite H in Hp; cbn [snd] in Hp; clear H
         end.
  all: cbn [bot state] in *; first [assumption | discriminate].
Qed.

Lemma analysis_reply_not_analyzing env msg m :
  is_export_request msg = false ->
  match _handle_analysis env msg m with
  | (Ok _, m') => state (bot m') <> ANALYZING_DATA
  | (Raise _, _) => True
  end.
Proof.
  intros Hexp. unfold _handle_analysis. rewrite Hexp. open_machine m. run.
  repeat branch.
  all: cbn [bot state]; first [exact I | discriminate].
Qed.

Lemma data_retrieved_reply_not_analyzing env msg m :
  state (bot m) = DATA_RETRIEVED ->
  match _handle_data_retrieved env msg m with
  | (Ok _, m') => state (bot m') <> ANALYZING_DATA
  | (Raise _, _) => True
  end.
Proof.
  intros Hst. unfold _handle_data_retrieved. open_machine m. subst st. run.
  repeat branch.
  all: try match goal with
         | H : _handle_initial_message ?e ?q ?m1 = (_, ?m2) |- _ =>
             let Hp := fresh "Hp" in
             assert (Hp : state (bot (snd (_handle_initial_message e q m1)))
                          <> ANALYZING_DATA)
               by (apply initial_never_analyzing; discriminate);
             rewrite H in Hp; cbn [snd] in Hp; clear H
         end.
  all: try match goal with
         | Hx : is_export_request ?q = false,
           H : _handle_analysis ?e ?q ?m1 = (_, ?m2) |- _ =>
             let Hp := fresh "Hp" in
             pose proof (analysis_reply_not_analyzing e q m1 Hx) as Hp;
             rewrite H in Hp; clear H
         end.
  all: cbn [bot state] in *; first [exact I | assumption | discriminate].
Qed.

(** A turn that replies never ends in ANALYZING_DATA, unless the bot
    was in that state already and the utterance was an export request.
    The bot is therefore only ever found in ANALYZING_DATA after a
    turn in which the analysis raised. *)
Theorem reply_never_ends_in_analyzing env msg m response m' :
  process_message env msg m = (Ok response, m') ->
  state (bot m') = ANALYZING_DATA ->
  state (bot m) = ANALYZING_DATA /\ is_export_request msg = true.
Proof.
  intros Hrun Hst.
  rewrite process_message_unfold in Hrun.
  destruct (heard_fields msg m) as (Hs & _).
  destruct (handle env (state (bot m)) msg (heard msg m)) as [[r | e] m1] eqn:Hh;
    [| discriminate].
  injection Hrun as <- <-. cbn [bot] in Hst.
  destruct (replied_fields r (bot m1)) as [Hst1 _]. rewrite Hst1 in Hst. clear Hst1.
  destruct (state (bot m)) eqn:Hm; cbn [handle] in Hh.
  - exfalso.
    assert (Hn : state (bot (snd (_handle_initial_message env msg (heard msg m))))
                 <> ANALYZING_DATA)
      by (apply initial_never_analyzing; rewrite Hs; discriminate).
    rewrite Hh in Hn. exact (Hn Hst).
  - exfalso.
    assert (Hn : state (bot (snd (_handle_clarification env msg (heard msg m))))
                 <> ANALYZING_DATA)
      by (apply clarification_never_analyzing; rewrite Hs; discriminate).
    rewrite Hh in Hn. exact (Hn Hst).
  - exfalso.
    pose proof (data_retrieved_reply_not_analyzing env msg (heard msg m) Hs) as Hn.
    rewrite Hh in Hn. exact (Hn Hst).
  - split; [reflexivity |].
    destruct (is_export_request msg) eqn:Hexp; [reflexivity |]. exfalso.
    pose proof (analysis_reply_not_analyzing env msg (heard msg m) Hexp) as Hn.
    rewrite Hh in Hn. exact (Hn Hst).
Qed.

Lemma reply_never_ends_in_analyzing_witness :
  let e := Demo.env [] in
  let msg := "export the conversation" in
  let r := process_message e msg Demo.analysing in
  r = (Ok "Conversation exported to conversation_log_patient_001_20250101_120000.pdf and opened in your default PDF viewer.", snd r) /\
  state (bot (snd r)) = ANALYZING_DATA /\
  state (bot Demo.analysing) = ANALYZING_DATA /\ is_export_request msg = true.
Proof.
  intros e msg r.
  assert (H1 : r = (Ok "Conversation exported to conversation_log_patient_001_20250101_120000.pdf and opened in your default PDF viewer.", snd r))
    by (vm_compute; reflexivity).
  assert (H2 : state (bot (snd r)) = ANALYZING_DATA) by (vm_compute; reflexivity).
  exact (conj H1 (conj H2 (reply_never_ends_in_analyzing e msg Demo.analysing _ _ H1 H2))).
Defined.
